(** * WebGPU demo scripts: a shallow embedding of their GPU command traces

    The repository is a collection of independent browser scripts.  Each
    script acquires a device, builds its pipelines, allocates buffers and
    textures, and encodes command buffers from [requestAnimationFrame]
    callbacks and DOM event listeners.

    The embedding keeps what the scripts do to the GPU API: every call on
    [device], [device.queue], [context] and on command/pass encoders is an
    [Event] (or a command inside a submitted command buffer), objects are
    handles drawn from a counter, closures are first-order callback values,
    and the browser's event loop is an explicit step function.  CPU-side
    matrix arithmetic, [Date.now] and [Math.random] only determine the
    contents of the data written into buffers; the byte-level behaviour of
    [writeBuffer] is modelled separately where a property needs it, and the
    two fragment shaders are modelled over binary32 arithmetic.

    Of the ways a script can fail, the embedding keeps its [throw]
    statements and the rejection of an awaited image request; the promises
    of the GPU API itself ([requestAdapter], [requestDevice],
    [createRenderPipelineAsync]) are taken to be fulfilled, and
    [getContext('webgpu')] to return a context.  The [async] function [run]
    of a script is passed through in one go: whenever it waits for the
    browser, no callback that calls the GPU has been registered yet, so
    nothing the browser delivers meanwhile reaches the GPU.  The one
    function that waits while such callbacks are registered, the [draw] of
    cube_imageTexture, is split at its awaits. *)

From Stdlib Require Import List String Ascii Arith Bool Lia ZArith.
From Stdlib Require Import QArith Qround Qabs Qreduction Qpower.
From Stdlib Require Qcanon.
Import ListNotations.

Local Open Scope nat_scope.
Local Open Scope string_scope.
Local Open Scope list_scope.

(** ** The browser-side API *)

Module WebGPU.

Definition Handle := nat.

(** A number the scripts pass to the API: a literal, or a value imported
    from a mesh/asset module that is not part of the scripts themselves. *)
Inductive Num :=
| Lit (n : N)
| Ext (name : string).

Inductive Binding :=
| BindBuffer (buffer : Handle) (offset : N) (size : option N)
| BindView (view : Handle)
| BindSampler (sampler : Handle).

Inductive PassCmd :=
| SetPipeline (pipeline : Handle)
| SetBindGroup (index : nat) (group : Handle)
| SetVertexBuffer (slot : nat) (buffer : Handle)
| SetIndexBuffer (buffer : Handle)
| Draw (vertexCount : Num) (instanceCount : N)
| DrawIndexed (indexCount : Num) (instanceCount : N) (firstInstance : N)
| DispatchWorkgroups (x : N).

Record ColorAttachment := {
  view : Handle;
  resolveTarget : option Handle
}.

Record RenderPassDescriptor := {
  colorAttachments : list ColorAttachment;
  depthStencilAttachment : option Handle
}.

(** [beginRenderPass(d) ... end()] and [beginComputePass() ... end()]. *)
Inductive Pass :=
| RenderPass (descriptor : RenderPassDescriptor) (cmds : list PassCmd)
| ComputePass (cmds : list PassCmd).

(** What [commandEncoder.finish()] returns. *)
Definition CommandBuffer := list Pass.

Inductive Target :=
| Window (type : string)
| Element (selector : string) (type : string)
| Gui (property : string).

(** One call into the browser.  [Cb] is the script's type of closures: the
    two registration calls hand one to the browser, and so does an [await]
    inside an [async] function that nobody awaits: the rest of the function
    runs when the browser settles the awaited promise. *)
Inductive Event (Cb : Type) :=
| RequestAdapter
| RequestDevice
| Configure
| CreateShaderModule (h : Handle) (code : string)
| CreateBindGroupLayout (h : Handle)
| CreatePipelineLayout (h : Handle) (bindGroupLayouts : list Handle)
| CreateRenderPipeline (h : Handle) (layout : option Handle) (vertex : Handle)
    (fragment : option Handle)
| CreateComputePipeline (h : Handle) (layout : option Handle) (compute : Handle)
| CreateBuffer (h : Handle) (size : Num)
| CreateTexture (h : Handle)
| CreateSampler (h : Handle)
| CreateView (h : Handle) (texture : Handle)
| CurrentTexture
| CurrentTextureView (h : Handle)
| CreateBindGroup (h : Handle) (pipeline : Handle) (index : nat)
    (entries : list Binding)
| DestroyTexture (h : Handle)
| WriteBuffer (buffer : Handle) (bufferOffset : N) (size : Num)
| CopyExternalImageToTexture (texture : Handle)
| Submit (commandBuffers : list CommandBuffer)
| RequestAnimationFrame (callback : Cb)
| AddEventListener (target : Target) (listener : Cb)
| Await (awaited : string) (continuation : Cb).

Arguments RequestAdapter {Cb}.
Arguments RequestDevice {Cb}.
Arguments Configure {Cb}.
Arguments CreateShaderModule {Cb}.
Arguments CreateBindGroupLayout {Cb}.
Arguments CreatePipelineLayout {Cb}.
Arguments CreateRenderPipeline {Cb}.
Arguments CreateComputePipeline {Cb}.
Arguments CreateBuffer {Cb}.
Arguments CreateTexture {Cb}.
Arguments CreateSampler {Cb}.
Arguments CreateView {Cb}.
Arguments CurrentTexture {Cb}.
Arguments CurrentTextureView {Cb}.
Arguments CreateBindGroup {Cb}.
Arguments DestroyTexture {Cb}.
Arguments WriteBuffer {Cb}.
Arguments CopyExternalImageToTexture {Cb}.
Arguments Submit {Cb}.
Arguments RequestAnimationFrame {Cb}.
Arguments AddEventListener {Cb}.
Arguments Await {Cb}.

(** What the page offers a script when it starts. *)
Record Browser := {
  query : string -> bool;      (* document.querySelector(sel) !== null *)
  gpu : bool;                  (* navigator.gpu *)
  adapter : bool;              (* requestAdapter() resolved non-null *)
  ctx2d : bool;                (* getContext('2d') !== null *)
  image : bool                 (* fetch, blob and createImageBitmap resolve *)
}.

(** The value an event carries to its listeners. *)
Inductive Payload :=
| PNone
| PStr (s : string)
| PNum (n : nat).

(** How script code fails: a [throw new Error(message)] statement, or an
    awaited promise that rejects. *)
Inductive Failure :=
| Error (message : string)
| Rejection (awaited : string).

(** *** Script code: state, exceptions and the calls made

    [G] holds the script's module-level mutable variables. *)

Record St (G : Type) := {
  browser : Browser;
  next : Handle;
  globals : G
}.

Arguments browser {G}.
Arguments next {G}.
Arguments globals {G}.

Inductive Outcome (G Cb A : Type) :=
| Ok (a : A) (s : St G) (out : list (Event Cb))
| Throw (e : Failure) (s : St G) (out : list (Event Cb)).

Arguments Ok {G Cb A}.
Arguments Throw {G Cb A}.

Definition M (G Cb A : Type) := St G -> Outcome G Cb A.

Definition events {G Cb A} (o : Outcome G Cb A) : list (Event Cb) :=
  match o with
  | Ok _ _ out | Throw _ _ out => out
  end.

Definition final {G Cb A} (o : Outcome G Cb A) : St G :=
  match o with
  | Ok _ s _ | Throw _ s _ => s
  end.

Definition thrown {G Cb A} (o : Outcome G Cb A) : option Failure :=
  match o with
  | Ok _ _ _ => None
  | Throw e _ _ => Some e
  end.

Section Monad.

Context {G Cb : Type}.

Definition ret {A} (a : A) : M G Cb A := fun s => Ok a s [].

Definition bind {A B} (m : M G Cb A) (k : A -> M G Cb B) : M G Cb B :=
  fun s =>
    match m s with
    | Ok a s1 o1 =>
        match k a s1 with
        | Ok b s2 o2 => Ok b s2 (o1 ++ o2)
        | Throw e s2 o2 => Throw e s2 (o1 ++ o2)
        end
    | Throw e s1 o1 => Throw e s1 o1
    end.

Definition throw {A} (msg : string) : M G Cb A :=
  fun s => Throw (Error msg) s [].

Definition reject {A} (awaited : string) : M G Cb A :=
  fun s => Throw (Rejection awaited) s [].

Definition emit (e : Event Cb) : M G Cb unit := fun s => Ok tt s [e].

Definition fresh : M G Cb Handle :=
  fun s =>
    Ok (next s)
      {| browser := browser s; next := S (next s); globals := globals s |} [].

Definition getBrowser : M G Cb Browser := fun s => Ok (browser s) s [].

Definition setBrowser (b : Browser) : M G Cb unit :=
  fun s => Ok tt {| browser := b; next := next s; globals := globals s |} [].

Definition getGlobals : M G Cb G := fun s => Ok (globals s) s [].

Definition setGlobals (g : G) : M G Cb unit :=
  fun s => Ok tt {| browser := browser s; next := next s; globals := g |} [].

End Monad.

Declare Scope gpu_scope.
Delimit Scope gpu_scope with gpu.

Notation "x <- m ;; k" := (bind m (fun x => k))
  (at level 61, m at next level, right associativity) : gpu_scope.
Notation "m ;; k" := (bind m (fun _ => k))
  (at level 61, right associativity) : gpu_scope.

Local Open Scope gpu_scope.

Section Device.

Context {G Cb : Type}.
Let M := M G Cb.

(** Object-creating calls: allocate a handle, record the call. *)
Definition create (mk : Handle -> Event Cb) : M Handle :=
  h <- fresh ;; emit (mk h) ;; ret h.

Definition createShaderModule (code : string) : M Handle :=
  create (fun h => CreateShaderModule h code).

(** [layout = None] is [layout: 'auto']. *)
Definition createRenderPipeline (layout : option Handle) (vs : Handle)
  (fs : option Handle) : M Handle :=
  create (fun h => CreateRenderPipeline h layout vs fs).

Definition createComputePipeline (layout : option Handle) (cs : Handle)
  : M Handle :=
  create (fun h => CreateComputePipeline h layout cs).

Definition createBindGroupLayout : M Handle := create CreateBindGroupLayout.

Definition createPipelineLayout (ls : list Handle) : M Handle :=
  create (fun h => CreatePipelineLayout h ls).

Definition createBuffer (size : Num) : M Handle :=
  create (fun h => CreateBuffer h size).

Definition createTexture : M Handle := create CreateTexture.

Definition createSampler : M Handle := create CreateSampler.

Definition createView (texture : Handle) : M Handle :=
  create (fun h => CreateView h texture).

(** [context.getCurrentTexture().createView()] *)
Definition currentTextureView : M Handle := create CurrentTextureView.

Definition createBindGroup (pipeline : Handle) (index : nat)
  (entries : list Binding) : M Handle :=
  create (fun h => CreateBindGroup h pipeline index entries).

Definition writeBuffer (buffer : Handle) (bufferOffset : N) (size : Num)
  : M unit :=
  emit (WriteBuffer buffer bufferOffset size).

Definition submit (cbs : list CommandBuffer) : M unit := emit (Submit cbs).

Definition configure : M unit := emit Configure.

Definition requestAnimationFrame (cb : Cb) : M unit :=
  emit (RequestAnimationFrame cb).

Definition addEventListener (t : Target) (cb : Cb) : M unit :=
  emit (AddEventListener t cb).

(** [initWebGPU(canvas)].  The function has the same text in every script
    (one script spells the first message differently, hence the
    parameter); it returns [{device, context, format, ...}], of which the
    model needs nothing, since there is one device and one context. *)
Definition initWebGPU (notSupported : string) : M unit :=
  b <- getBrowser ;;
  if negb (gpu b) then throw notSupported else
  emit RequestAdapter ;;
  if negb (adapter b) then throw "No Adapter Found" else
  emit RequestDevice ;;
  configure.

(** [document.querySelector(sel)] followed by the scripts' null check. *)
Definition requireElement (selector : string) (msg : string) : M unit :=
  b <- getBrowser ;;
  if negb (query b selector) then throw msg else ret tt.

(** [document.body.appendChild(el)], for an element that [selector]
    matches, or that has a descendant it matches: from now on
    [document.querySelector(selector)] finds something. *)
Definition appendChild (selector : string) : M unit :=
  b <- getBrowser ;;
  setBrowser {| query := fun sel => String.eqb sel selector || query b sel;
                gpu := gpu b; adapter := adapter b; ctx2d := ctx2d b;
                image := image b |}.

(** The three awaits [await fetch(imageUrl)], [await res.blob()],
    [await createImageBitmap(img)] where they stand in an awaited function:
    no call is made between them, and when one of the promises rejects so
    does the function. *)
Definition imageRequest : string := "fetch, blob or createImageBitmap".

Definition awaitImage : M unit :=
  b <- getBrowser ;;
  if image b then ret tt else reject imageRequest.

(** The same three awaits in a function that nobody awaits: the function
    returns to its caller here, and [continuation] is the rest of it. *)
Definition suspend (continuation : Cb) : M unit :=
  emit (Await imageRequest continuation).

End Device.

(** *** The page: a script, its pending frame callbacks and its listeners *)

(** What the browser does to a page: it delivers an animation frame or an
    event, or it settles the [i]-th promise a suspended function is waiting
    for, by fulfilling or by rejecting it. *)
Inductive External :=
| AnimationFrame
| Dispatch (t : Target) (p : Payload)
| Settle (i : nat) (fulfilled : bool).

Definition Target_eqb (a b : Target) : bool :=
  match a, b with
  | Window x, Window y => String.eqb x y
  | Element s x, Element t y => String.eqb s t && String.eqb x y
  | Gui x, Gui y => String.eqb x y
  | _, _ => false
  end.

(** A script: its global variables, its closures, what its top level
    does, and what each closure does when the browser calls it.
    [isFrame] tells which closures are activations of the script's
    [frame] function. *)
Record Script := {
  Globals : Type;
  Closure : Type;
  globals0 : Globals;
  entry : M Globals Closure unit;
  invoke : Closure -> Payload -> M Globals Closure unit;
  isFrame : Closure -> bool
}.

Section Loop.

Variable P : Script.

Record Page := {
  state : St (Globals P);
  rafQueue : list (Closure P);
  listeners : list (Target * Closure P);
  awaiting : list (Closure P)
}.

Definition requested (out : list (Event (Closure P))) : list (Closure P) :=
  flat_map (fun e => match e with RequestAnimationFrame cb => [cb] | _ => [] end)
    out.

Definition listened (out : list (Event (Closure P)))
  : list (Target * Closure P) :=
  flat_map (fun e => match e with AddEventListener t cb => [(t, cb)] | _ => [] end)
    out.

Definition awaited (out : list (Event (Closure P))) : list (Closure P) :=
  flat_map (fun e => match e with Await _ cb => [cb] | _ => [] end) out.

(** The browser takes over what a piece of script code left behind. *)
Definition absorb {A} (o : Outcome (Globals P) (Closure P) A) (pg : Page)
  : Page :=
  {| state := final o;
     rafQueue := rafQueue pg ++ requested (events o);
     listeners := listeners pg ++ listened (events o);
     awaiting := awaiting pg ++ awaited (events o) |}.

Definition blank (b : Browser) : Page :=
  {| state := {| browser := b; next := 0; globals := globals0 P |};
     rafQueue := []; listeners := []; awaiting := [] |}.

(** Loading the page runs the script's top level. *)
Definition boot (b : Browser) : Outcome (Globals P) (Closure P) unit :=
  entry P (state (blank b)).

Definition loaded (b : Browser) : Page := absorb (boot b) (blank b).

(** An exception escaping a callback is reported by the browser and does not
    stop the callbacks after it. *)
Fixpoint callAll (cbs : list (Closure P)) (p : Payload) (pg : Page)
  : Page * list (Event (Closure P)) :=
  match cbs with
  | [] => (pg, [])
  | cb :: rest =>
      let o := invoke P cb p (state pg) in
      let (pg2, o2) := callAll rest p (absorb o pg) in
      (pg2, events o ++ o2)
  end.

Definition listening (t : Target) (pg : Page) : list (Closure P) :=
  map snd (filter (fun l => Target_eqb t (fst l)) (listeners pg)).

(** The list without its [i]-th element. *)
Fixpoint without {A} (i : nat) (l : list A) : list A :=
  match l, i with
  | [], _ => []
  | _ :: rest, O => rest
  | x :: rest, S j => x :: without j rest
  end.

(** An animation frame runs the callbacks queued so far, against an emptied
    queue; a DOM event runs the listeners registered for its target; a
    promise that is fulfilled runs the continuation waiting for it, and one
    that is rejected discards it: the suspended function's own promise
    rejects, and nobody handles that. *)
Definition step (e : External) (pg : Page)
  : Page * list (Event (Closure P)) :=
  match e with
  | AnimationFrame =>
      callAll (rafQueue pg) PNone
        {| state := state pg; rafQueue := []; listeners := listeners pg;
           awaiting := awaiting pg |}
  | Dispatch t p => callAll (listening t pg) p pg
  | Settle i fulfilled =>
      match nth_error (awaiting pg) i with
      | None => (pg, [])
      | Some k =>
          let pg1 := {| state := state pg; rafQueue := rafQueue pg;
                        listeners := listeners pg;
                        awaiting := without i (awaiting pg) |} in
          if fulfilled then callAll [k] PNone pg1 else (pg1, [])
      end
  end.

Fixpoint steps (es : list External) (pg : Page)
  : Page * list (Event (Closure P)) :=
  match es with
  | [] => (pg, [])
  | e :: rest =>
      let (pg1, o1) := step e pg in
      let (pg2, o2) := steps rest pg1 in (pg2, o1 ++ o2)
  end.

End Loop.

Arguments state {P}.
Arguments rafQueue {P}.
Arguments listeners {P}.
Arguments awaiting {P}.
Arguments requested {P}.
Arguments listened {P}.
Arguments awaited {P}.

(** *** Reading traces *)

Definition isDraw (c : PassCmd) : bool :=
  match c with
  | Draw _ _ | DrawIndexed _ _ _ => true
  | _ => false
  end.

Definition passCmds (p : Pass) : list PassCmd :=
  match p with
  | RenderPass _ cs | ComputePass cs => cs
  end.

Definition drawsIn (cb : CommandBuffer) : nat :=
  List.length (filter isDraw (flat_map passCmds cb)).

Section Traces.

Context {Cb : Type}.

(** The argument of every [queue.submit] call, in order. *)
Definition submitted (out : list (Event Cb)) : list (list CommandBuffer) :=
  flat_map (fun e => match e with Submit cbs => [cbs] | _ => [] end) out.

Definition isPipeline (e : Event Cb) : bool :=
  match e with
  | CreateRenderPipeline _ _ _ _ | CreateComputePipeline _ _ _ => true
  | _ => false
  end.

Definition isPipelineBuild (e : Event Cb) : bool :=
  match e with
  | CreateShaderModule _ _ | CreateBindGroupLayout _
  | CreatePipelineLayout _ _ => true
  | _ => isPipeline e
  end.

(** Creation of one of the four kinds of long-lived GPU object. *)
Definition isResourceCreate (e : Event Cb) : bool :=
  match e with
  | CreateBuffer _ _ | CreateTexture _ | CreateBindGroup _ _ _ _ => true
  | _ => isPipeline e
  end.

(** Creation of any GPU object at all. *)
Definition isCreate (e : Event Cb) : bool :=
  match e with
  | CreateSampler _ | CreateView _ _ | CurrentTextureView _ => true
  | _ => isPipelineBuild e || isResourceCreate e
  end.

Definition isDestroy (e : Event Cb) : bool :=
  match e with
  | DestroyTexture _ => true
  | _ => false
  end.

Definition isConfigure (e : Event Cb) : bool :=
  match e with
  | Configure => true
  | _ => false
  end.

(** The handles of the pipelines a trace creates. *)
Definition pipelinesBuilt (out : list (Event Cb)) : list Handle :=
  flat_map (fun e =>
              match e with
              | CreateRenderPipeline h _ _ _ | CreateComputePipeline h _ _ => [h]
              | _ => []
              end) out.

Definition pipelineOf (c : PassCmd) : list Handle :=
  match c with
  | SetPipeline h => [h]
  | _ => []
  end.

(** The handles of the pipelines the submitted command buffers select. *)
Definition pipelinesUsed (out : list (Event Cb)) : list Handle :=
  flat_map pipelineOf
    (flat_map passCmds (List.concat (List.concat (submitted out)))).

End Traces.

End WebGPU.

Import WebGPU.
Local Open Scope gpu_scope.

Definition dquote : string := String (ascii_of_nat 34) EmptyString.

(** ** cube: one rotating cube *)

Module Cube.

Definition G := unit.

Inductive Cb :=
| Frame (pipeline cubeVerticesBuffer uniformBuffer uniformBindGroup
         depthView : Handle)
| Resize (pipeline : Handle).

Definition M := WebGPU.M G Cb.

Definition initPipeline : M Handle :=
  vs <- createShaderModule "cube/cube.vert.wgsl" ;;
  fs <- createShaderModule "cube/cube.frag.wgsl" ;;
  createRenderPipeline None vs (Some fs).

Definition frame (pipeline cubeVerticesBuffer uniformBuffer uniformBindGroup
  depthView : Handle) : M unit :=
  writeBuffer uniformBuffer 0 (Lit 64) ;;
  v <- currentTextureView ;;
  submit [[RenderPass
             {| colorAttachments := [{| view := v; resolveTarget := None |}];
                depthStencilAttachment := Some depthView |}
             [SetPipeline pipeline;
              SetBindGroup 0 uniformBindGroup;
              SetVertexBuffer 0 cubeVerticesBuffer;
              Draw (Ext "cubeVertexCount") 1]]] ;;
  requestAnimationFrame
    (Frame pipeline cubeVerticesBuffer uniformBuffer uniformBindGroup
       depthView).

Definition draw (pipeline : Handle) : M unit :=
  cubeVerticesBuffer <- createBuffer (Ext "cubeVertexArray.byteLength") ;;
  depthTexture <- createTexture ;;
  uniformBuffer <- createBuffer (Lit (4 * 16)) ;;
  uniformBindGroup <-
    createBindGroup pipeline 0 [BindBuffer uniformBuffer 0 None] ;;
  _ <- currentTextureView ;;
  depthView <- createView depthTexture ;;
  requestAnimationFrame
    (Frame pipeline cubeVerticesBuffer uniformBuffer uniformBindGroup
       depthView).

Definition onResize (pipeline : Handle) : M unit :=
  configure ;;
  draw pipeline.

Definition run : M unit :=
  requireElement "canvas" "No Canvas" ;;
  initWebGPU "Not Support WebGPU" ;;
  pipeline <- initPipeline ;;
  draw pipeline ;;
  addEventListener (Window "resize") (Resize pipeline).

Definition call (cb : Cb) (_ : Payload) : M unit :=
  match cb with
  | Frame p vb ub bg dv => frame p vb ub bg dv
  | Resize p => onResize p
  end.

Definition frameClosure (cb : Cb) : bool :=
  match cb with
  | Frame _ _ _ _ _ => true
  | _ => false
  end.

Definition script : Script :=
  {| Globals := G; Closure := Cb; globals0 := tt; entry := run; invoke := call;
     isFrame := frameClosure |}.

End Cube.

(** ** multisample: one triangle drawn through a 4x multisampled texture *)

Module Multisample.

Definition G := unit.

Inductive Cb :=
| Resize (pipeline : Handle).

Definition M := WebGPU.M G Cb.

Definition initPipeline : M Handle :=
  vs <- createShaderModule "multisample/triangle.vert.wgsl" ;;
  fs <- createShaderModule "multisample/red.frag.wgsl" ;;
  createRenderPipeline None vs (Some fs).

(** [draw] encodes and submits once; it registers no frame callback. *)
Definition draw (pipeline : Handle) : M unit :=
  emit CurrentTexture ;;
  texture <- createTexture ;;
  v <- createView texture ;;
  target <- currentTextureView ;;
  submit [[RenderPass
             {| colorAttachments :=
                  [{| view := v; resolveTarget := Some target |}];
                depthStencilAttachment := None |}
             [SetPipeline pipeline;
              Draw (Lit 3) 1]]].

Definition onResize (pipeline : Handle) : M unit :=
  configure ;;
  draw pipeline.

Definition run : M unit :=
  requireElement "canvas" "No Canvas" ;;
  initWebGPU "Not Support WebGpu" ;;
  pipeline <- initPipeline ;;
  draw pipeline ;;
  addEventListener (Window "resize") (Resize pipeline).

Definition call (cb : Cb) (_ : Payload) : M unit :=
  match cb with
  | Resize p => onResize p
  end.

Definition frameClosure (cb : Cb) : bool := false.

Definition script : Script :=
  {| Globals := G; Closure := Cb; globals0 := tt; entry := run; invoke := call;
     isFrame := frameClosure |}.

End Multisample.

(** ** shadowMapping: a shadow pass into a depth map, then the lit scene *)

Module ShadowMapping.

Definition NUM : N := 30.

Record Pipelines := {
  shadowPipeline : Handle;
  renderPipeline : Handle
}.

(** The fields of [resourcesObj] that are never reassigned. *)
Record Resources := {
  boxVertex : Handle;
  boxIndex : Handle;
  sphereVertex : Handle;
  sphereIndex : Handle;
  modelViewBuffer : Handle;
  cameraProjectionBuffer : Handle;
  lightProjectionBuffer : Handle;
  colorBuffer : Handle;
  lightBuffer : Handle;
  vsGroup : Handle;
  fsGroup : Handle;
  shadowGroup : Handle;
  shadowDepthTexture : Handle;
  shadowDepthView : Handle
}.

(** The two fields of [resourcesObj] the resize listener reassigns.  Every
    closure holds the same [resourcesObj], so they live in the script's
    shared state; [createResources] fills them before any closure runs. *)
Record G := {
  renderDepthTexture : Handle;
  renderDepthView : Handle
}.

Inductive Cb :=
| Frame (p : Pipelines) (r : Resources)
| Resize (p : Pipelines) (r : Resources).

Definition M := WebGPU.M G Cb.

Definition initPipeline : M Pipelines :=
  vsDepth <- createShaderModule "shadowMapping/shadowDepth.vertex.wgsl" ;;
  shadowPipeline <- createRenderPipeline None vsDepth None ;;
  vs <- createShaderModule "shadowMapping/shadow.vertex.wgsl" ;;
  fs <- createShaderModule "shadowMapping/shadow.frag.wgsl" ;;
  renderPipeline <- createRenderPipeline None vs (Some fs) ;;
  ret {| shadowPipeline := shadowPipeline; renderPipeline := renderPipeline |}.

Definition createResources (p : Pipelines) : M Resources :=
  boxVertex <- createBuffer (Ext "box.vertex.byteLength") ;;
  boxIndex <- createBuffer (Ext "box.index.byteLength") ;;
  sphereVertex <- createBuffer (Ext "sphere.vertex.byteLength") ;;
  sphereIndex <- createBuffer (Ext "sphere.index.byteLength") ;;
  writeBuffer boxVertex 0 (Ext "box.vertex.byteLength") ;;
  writeBuffer boxIndex 0 (Ext "box.index.byteLength") ;;
  writeBuffer sphereVertex 0 (Ext "sphere.vertex.byteLength") ;;
  writeBuffer sphereIndex 0 (Ext "sphere.index.byteLength") ;;
  shadowDepthTexture <- createTexture ;;
  renderDepthTexture <- createTexture ;;
  shadowDepthView <- createView shadowDepthTexture ;;
  renderDepthView <- createView renderDepthTexture ;;
  modelViewBuffer <- createBuffer (Lit (4 * 4 * 4 * NUM)) ;;
  cameraProjectionBuffer <- createBuffer (Lit (4 * 4 * 4)) ;;
  lightProjectionBuffer <- createBuffer (Lit (4 * 4 * 4)) ;;
  colorBuffer <- createBuffer (Lit (4 * 4 * NUM)) ;;
  lightBuffer <- createBuffer (Lit (4 * 4)) ;;
  vsGroup <-
    createBindGroup (renderPipeline p) 0
      [BindBuffer modelViewBuffer 0 None;
       BindBuffer cameraProjectionBuffer 0 None;
       BindBuffer lightProjectionBuffer 0 None;
       BindBuffer colorBuffer 0 None] ;;
  sampler <- createSampler ;;
  fsGroup <-
    createBindGroup (renderPipeline p) 1
      [BindBuffer lightBuffer 0 None;
       BindView shadowDepthView;
       BindSampler sampler] ;;
  shadowGroup <-
    createBindGroup (shadowPipeline p) 0
      [BindBuffer modelViewBuffer 0 None;
       BindBuffer lightProjectionBuffer 0 None] ;;
  setGlobals {| renderDepthTexture := renderDepthTexture;
                renderDepthView := renderDepthView |} ;;
  ret {| boxVertex := boxVertex; boxIndex := boxIndex;
         sphereVertex := sphereVertex; sphereIndex := sphereIndex;
         modelViewBuffer := modelViewBuffer;
         cameraProjectionBuffer := cameraProjectionBuffer;
         lightProjectionBuffer := lightProjectionBuffer;
         colorBuffer := colorBuffer; lightBuffer := lightBuffer;
         vsGroup := vsGroup; fsGroup := fsGroup; shadowGroup := shadowGroup;
         shadowDepthTexture := shadowDepthTexture;
         shadowDepthView := shadowDepthView |}.

Definition sceneDraws (r : Resources) : list PassCmd :=
  [SetVertexBuffer 0 (boxVertex r);
   SetIndexBuffer (boxIndex r);
   DrawIndexed (Ext "box.indexCount") 2 0;
   SetVertexBuffer 0 (sphereVertex r);
   SetIndexBuffer (sphereIndex r);
   DrawIndexed (Ext "sphere.indexCount") (NUM - 2) (NUM / 2)].

Definition frame (p : Pipelines) (r : Resources) : M unit :=
  writeBuffer (lightProjectionBuffer r) 0 (Lit 64) ;;
  writeBuffer (lightBuffer r) 0 (Lit 12) ;;
  writeBuffer (modelViewBuffer r) 0 (Lit (NUM * 4 * 4 * 4)) ;;
  v <- currentTextureView ;;
  g <- getGlobals ;;
  submit [[RenderPass
             {| colorAttachments := [];
                depthStencilAttachment := Some (shadowDepthView r) |}
             ([SetPipeline (shadowPipeline p);
               SetBindGroup 0 (shadowGroup r)] ++ sceneDraws r);
           RenderPass
             {| colorAttachments := [{| view := v; resolveTarget := None |}];
                depthStencilAttachment := Some (renderDepthView g) |}
             ([SetPipeline (renderPipeline p);
               SetBindGroup 0 (vsGroup r);
               SetBindGroup 1 (fsGroup r)] ++ sceneDraws r)]] ;;
  requestAnimationFrame (Frame p r).

Definition draw (p : Pipelines) (r : Resources) : M unit :=
  writeBuffer (colorBuffer r) 0 (Lit (NUM * 4 * 4)) ;;
  requestAnimationFrame (Frame p r).

Definition updateCamera (r : Resources) : M unit :=
  writeBuffer (cameraProjectionBuffer r) 0
    (Ext "getProjectionMatrix(...).byteLength").

(** The listener replaces the render depth texture; it does not call
    [context.configure]. *)
Definition onResize (p : Pipelines) (r : Resources) : M unit :=
  g <- getGlobals ;;
  emit (DestroyTexture (renderDepthTexture g)) ;;
  t <- createTexture ;;
  v <- createView t ;;
  setGlobals {| renderDepthTexture := t; renderDepthView := v |} ;;
  draw p r ;;
  updateCamera r.

Definition run : M unit :=
  requireElement "canvas" "No Canvas" ;;
  initWebGPU "Not Support WebGPU" ;;
  p <- initPipeline ;;
  r <- createResources p ;;
  draw p r ;;
  updateCamera r ;;
  addEventListener (Window "resize") (Resize p r).

Definition call (cb : Cb) (_ : Payload) : M unit :=
  match cb with
  | Frame p r => frame p r
  | Resize p r => onResize p r
  end.

Definition frameClosure (cb : Cb) : bool :=
  match cb with
  | Frame _ _ => true
  | _ => false
  end.

Definition script : Script :=
  {| Globals := G; Closure := Cb;
     globals0 := {| renderDepthTexture := 0; renderDepthView := 0 |};
     entry := run; invoke := call; isFrame := frameClosure |}.

End ShadowMapping.

(** ** base_lighting: 500 unlit boxes and spheres, drawn instanced *)

Module BaseLighting.

Definition NUM : N := 500.

Record Resources := {
  depthTexture : Handle;
  boxVertex : Handle;
  boxIndex : Handle;
  sphereVertex : Handle;
  sphereIndex : Handle;
  modelViewBuffer : Handle;
  projectionBuffer : Handle;
  colorBuffer : Handle;
  vsGroup : Handle
}.

Definition G := unit.

Inductive Cb :=
| Frame (pipeline : Handle) (r : Resources) (depthView : Handle)
| Resize (pipeline : Handle) (r : Resources).

Definition M := WebGPU.M G Cb.

Definition initPipeline : M Handle :=
  vs <- createShaderModule "base_lighting/base_lighting.vert.wgsl" ;;
  fs <- createShaderModule "base_lighting/base_lighting.frag.wgsl" ;;
  createRenderPipeline None vs (Some fs).

Definition createResources (pipeline : Handle) : M Resources :=
  depthTexture <- createTexture ;;
  boxVertex <- createBuffer (Ext "box.vertex.byteLength") ;;
  boxIndex <- createBuffer (Ext "box.index.byteLength") ;;
  sphereVertex <- createBuffer (Ext "sphere.vertex.byteLength") ;;
  sphereIndex <- createBuffer (Ext "sphere.index.byteLength") ;;
  writeBuffer boxVertex 0 (Ext "box.vertex.byteLength") ;;
  writeBuffer boxIndex 0 (Ext "box.index.byteLength") ;;
  writeBuffer sphereVertex 0 (Ext "sphere.vertex.byteLength") ;;
  writeBuffer sphereIndex 0 (Ext "sphere.index.byteLength") ;;
  modelViewBuffer <- createBuffer (Lit (4 * 4 * 4 * NUM)) ;;
  projectionBuffer <- createBuffer (Lit (4 * 4 * 4)) ;;
  colorBuffer <- createBuffer (Lit (4 * 4 * NUM)) ;;
  vsGroup <-
    createBindGroup pipeline 0
      [BindBuffer modelViewBuffer 0 None;
       BindBuffer projectionBuffer 0 None;
       BindBuffer colorBuffer 0 None] ;;
  ret {| depthTexture := depthTexture;
         boxVertex := boxVertex; boxIndex := boxIndex;
         sphereVertex := sphereVertex; sphereIndex := sphereIndex;
         modelViewBuffer := modelViewBuffer;
         projectionBuffer := projectionBuffer;
         colorBuffer := colorBuffer; vsGroup := vsGroup |}.

Definition frame (pipeline : Handle) (r : Resources) (depthView : Handle)
  : M unit :=
  v <- currentTextureView ;;
  submit [[RenderPass
             {| colorAttachments := [{| view := v; resolveTarget := None |}];
                depthStencilAttachment := Some depthView |}
             [SetPipeline pipeline;
              SetBindGroup 0 (vsGroup r);
              SetVertexBuffer 0 (boxVertex r);
              SetIndexBuffer (boxIndex r);
              DrawIndexed (Ext "box.indexCount") (NUM / 2) 0;
              SetVertexBuffer 0 (sphereVertex r);
              SetIndexBuffer (sphereIndex r);
              DrawIndexed (Ext "sphere.indexCount") (NUM / 2) (NUM / 2)]]] ;;
  requestAnimationFrame (Frame pipeline r depthView).

Definition draw (pipeline : Handle) (r : Resources) : M unit :=
  _ <- currentTextureView ;;
  depthView <- createView (depthTexture r) ;;
  writeBuffer (colorBuffer r) 0 (Lit (NUM * 4 * 4)) ;;
  writeBuffer (modelViewBuffer r) 0 (Lit (NUM * 4 * 4 * 4)) ;;
  requestAnimationFrame (Frame pipeline r depthView).

Definition updateCamera (r : Resources) : M unit :=
  writeBuffer (projectionBuffer r) 0
    (Ext "getProjectionMatrix(...).byteLength").

Definition onResize (pipeline : Handle) (r : Resources) : M unit :=
  configure ;;
  draw pipeline r ;;
  updateCamera r.

Definition run : M unit :=
  requireElement "canvas" "No Canvas" ;;
  initWebGPU "Not Support WebGPU" ;;
  pipeline <- initPipeline ;;
  r <- createResources pipeline ;;
  draw pipeline r ;;
  updateCamera r ;;
  addEventListener (Window "resize") (Resize pipeline r).

Definition call (cb : Cb) (_ : Payload) : M unit :=
  match cb with
  | Frame p r dv => frame p r dv
  | Resize p r => onResize p r
  end.

Definition frameClosure (cb : Cb) : bool :=
  match cb with
  | Frame _ _ _ => true
  | _ => false
  end.

Definition script : Script :=
  {| Globals := G; Closure := Cb; globals0 := tt; entry := run; invoke := call;
     isFrame := frameClosure |}.

End BaseLighting.

(** ** base_lighting2: the same scene lit by an ambient and a point light *)

Module BaseLighting2.

Definition NUM : N := 500.

Record Resources := {
  depthTexture : Handle;
  boxVertex : Handle;
  boxIndex : Handle;
  sphereVertex : Handle;
  sphereIndex : Handle;
  modelViewBuffer : Handle;
  projectionBuffer : Handle;
  colorBuffer : Handle;
  vsGroup : Handle;
  ambientBuffer : Handle;
  pointLightBuffer : Handle;
  lightGroup : Handle
}.

Definition G := unit.

(** The two slider listeners store into CPU-side arrays that the next frame
    uploads; they make no API call themselves. *)
Inductive Cb :=
| Frame (pipeline : Handle) (r : Resources) (depthView : Handle)
| Resize (pipeline : Handle) (r : Resources)
| AmbientInput
| RadiusInput.

Definition M := WebGPU.M G Cb.

Definition initPipeline : M Handle :=
  vs <- createShaderModule "base_lighting2/base_lighting.vert.wgsl" ;;
  fs <- createShaderModule "base_lighting2/base_lighting.frag.wgsl" ;;
  createRenderPipeline None vs (Some fs).

Definition createResources (pipeline : Handle) : M Resources :=
  depthTexture <- createTexture ;;
  boxVertex <- createBuffer (Ext "box.vertex.byteLength") ;;
  boxIndex <- createBuffer (Ext "box.index.byteLength") ;;
  sphereVertex <- createBuffer (Ext "sphere.vertex.byteLength") ;;
  sphereIndex <- createBuffer (Ext "sphere.index.byteLength") ;;
  writeBuffer boxVertex 0 (Ext "box.vertex.byteLength") ;;
  writeBuffer boxIndex 0 (Ext "box.index.byteLength") ;;
  writeBuffer sphereVertex 0 (Ext "sphere.vertex.byteLength") ;;
  writeBuffer sphereIndex 0 (Ext "sphere.index.byteLength") ;;
  modelViewBuffer <- createBuffer (Lit (4 * 4 * 4 * NUM)) ;;
  projectionBuffer <- createBuffer (Lit (4 * 4 * 4)) ;;
  colorBuffer <- createBuffer (Lit (4 * 4 * NUM)) ;;
  vsGroup <-
    createBindGroup pipeline 0
      [BindBuffer modelViewBuffer 0 None;
       BindBuffer projectionBuffer 0 None;
       BindBuffer colorBuffer 0 None] ;;
  ambientBuffer <- createBuffer (Lit (1 * 4)) ;;
  pointLightBuffer <- createBuffer (Lit (8 * 4)) ;;
  lightGroup <-
    createBindGroup pipeline 1
      [BindBuffer ambientBuffer 0 None;
       BindBuffer pointLightBuffer 0 None] ;;
  ret {| depthTexture := depthTexture;
         boxVertex := boxVertex; boxIndex := boxIndex;
         sphereVertex := sphereVertex; sphereIndex := sphereIndex;
         modelViewBuffer := modelViewBuffer;
         projectionBuffer := projectionBuffer;
         colorBuffer := colorBuffer; vsGroup := vsGroup;
         ambientBuffer := ambientBuffer;
         pointLightBuffer := pointLightBuffer;
         lightGroup := lightGroup |}.

Definition frame (pipeline : Handle) (r : Resources) (depthView : Handle)
  : M unit :=
  writeBuffer (ambientBuffer r) 0 (Lit 4) ;;
  writeBuffer (pointLightBuffer r) 0 (Lit 32) ;;
  writeBuffer (colorBuffer r) 0 (Lit (NUM * 4 * 4)) ;;
  writeBuffer (modelViewBuffer r) 0 (Lit (NUM * 4 * 4 * 4)) ;;
  v <- currentTextureView ;;
  submit [[RenderPass
             {| colorAttachments := [{| view := v; resolveTarget := None |}];
                depthStencilAttachment := Some depthView |}
             [SetPipeline pipeline;
              SetBindGroup 0 (vsGroup r);
              SetBindGroup 1 (lightGroup r);
              SetVertexBuffer 0 (boxVertex r);
              SetIndexBuffer (boxIndex r);
              DrawIndexed (Ext "box.indexCount") (NUM / 2) 0;
              SetVertexBuffer 0 (sphereVertex r);
              SetIndexBuffer (sphereIndex r);
              DrawIndexed (Ext "sphere.indexCount") (NUM / 2) (NUM / 2)]]] ;;
  requestAnimationFrame (Frame pipeline r depthView).

(** [document.querySelector(sel)?.addEventListener('input', ...)] *)
Definition addInputListener (selector : string) (cb : Cb) : M unit :=
  b <- getBrowser ;;
  if query b selector then addEventListener (Element selector "input") cb
  else ret tt.

Definition draw (pipeline : Handle) (r : Resources) : M unit :=
  _ <- currentTextureView ;;
  depthView <- createView (depthTexture r) ;;
  requestAnimationFrame (Frame pipeline r depthView) ;;
  addInputListener "#ambientIntensity" AmbientInput ;;
  addInputListener "#pointLightRadius" RadiusInput.

Definition updateCamera (r : Resources) : M unit :=
  writeBuffer (projectionBuffer r) 0
    (Ext "getProjectionMatrix(...).byteLength").

Definition onResize (pipeline : Handle) (r : Resources) : M unit :=
  configure ;;
  draw pipeline r ;;
  updateCamera r.

Definition run : M unit :=
  requireElement "canvas" "No Canvas" ;;
  initWebGPU "Not Support WebGPU" ;;
  pipeline <- initPipeline ;;
  r <- createResources pipeline ;;
  draw pipeline r ;;
  updateCamera r ;;
  addEventListener (Window "resize") (Resize pipeline r).

Definition call (cb : Cb) (_ : Payload) : M unit :=
  match cb with
  | Frame p r dv => frame p r dv
  | Resize p r => onResize p r
  | AmbientInput | RadiusInput => ret tt
  end.

Definition frameClosure (cb : Cb) : bool :=
  match cb with
  | Frame _ _ _ => true
  | _ => false
  end.

Definition script : Script :=
  {| Globals := G; Closure := Cb; globals0 := tt; entry := run; invoke := call;
     isFrame := frameClosure |}.

End BaseLighting2.

(** ** cube_canvasTexture: a cube textured from a 2D canvas, copied each frame *)

Module CanvasTexture.

Record Resources := {
  verticesBuffer : Handle;
  depthTexture : Handle;
  uniformBuffer : Handle;
  uniformGroup : Handle;
  textureGroup : Handle;
  cavasTexture : Handle
}.

Definition G := unit.

(** The pointer listeners draw on the 2D canvas only. *)
Inductive Cb :=
| Frame (pipeline : Handle) (r : Resources) (depthView : Handle)
| Resize (pipeline : Handle) (r : Resources)
| Pointer.

Definition M := WebGPU.M G Cb.

Definition initPipeline : M Handle :=
  vs <- createShaderModule "cube_canvasTexture/cube.vert.wgsl" ;;
  fs <- createShaderModule "cube_canvasTexture/cube_canvasTexture.frag.wgsl" ;;
  createRenderPipeline None vs (Some fs).

Definition createResources (pipeline : Handle) : M Resources :=
  verticesBuffer <- createBuffer (Ext "cubeVertexArray.byteLength") ;;
  depthTexture <- createTexture ;;
  uniformBuffer <- createBuffer (Lit (4 * 16)) ;;
  uniformGroup <-
    createBindGroup pipeline 0 [BindBuffer uniformBuffer 0 None] ;;
  cavasTexture <- createTexture ;;
  sampler <- createSampler ;;
  textureView <- createView cavasTexture ;;
  textureGroup <-
    createBindGroup pipeline 1 [BindSampler sampler; BindView textureView] ;;
  ret {| verticesBuffer := verticesBuffer; depthTexture := depthTexture;
         uniformBuffer := uniformBuffer; uniformGroup := uniformGroup;
         textureGroup := textureGroup; cavasTexture := cavasTexture |}.

Definition frame (pipeline : Handle) (r : Resources) (depthView : Handle)
  : M unit :=
  writeBuffer (uniformBuffer r) 0 (Lit 64) ;;
  emit (CopyExternalImageToTexture (cavasTexture r)) ;;
  v <- currentTextureView ;;
  submit [[RenderPass
             {| colorAttachments := [{| view := v; resolveTarget := None |}];
                depthStencilAttachment := Some depthView |}
             [SetPipeline pipeline;
              SetBindGroup 0 (uniformGroup r);
              SetBindGroup 1 (textureGroup r);
              SetVertexBuffer 0 (verticesBuffer r);
              Draw (Ext "cubeVertexCount") 1]]] ;;
  requestAnimationFrame (Frame pipeline r depthView).

(** [draw] ends with a direct call [frame()]. *)
Definition draw (pipeline : Handle) (r : Resources) : M unit :=
  _ <- currentTextureView ;;
  depthView <- createView (depthTexture r) ;;
  frame pipeline r depthView.

Definition onResize (pipeline : Handle) (r : Resources) : M unit :=
  configure ;;
  draw pipeline r.

Definition run : M unit :=
  b <- getBrowser ;;
  if negb (query b "canvas#webgpu") || negb (query b "canvas#canvas")
  then throw "No Canvas" else
  if negb (ctx2d b) then throw "No support 2d" else
  addEventListener (Element "canvas#canvas" "pointerdown") Pointer ;;
  addEventListener (Element "canvas#canvas" "pointermove") Pointer ;;
  addEventListener (Element "canvas#canvas" "pointerup") Pointer ;;
  addEventListener (Element "canvas#canvas" "pointerout") Pointer ;;
  initWebGPU "Not Support WebGPU" ;;
  pipeline <- initPipeline ;;
  r <- createResources pipeline ;;
  draw pipeline r ;;
  addEventListener (Window "resize") (Resize pipeline r).

Definition call (cb : Cb) (_ : Payload) : M unit :=
  match cb with
  | Frame p r dv => frame p r dv
  | Resize p r => onResize p r
  | Pointer => ret tt
  end.

Definition frameClosure (cb : Cb) : bool :=
  match cb with
  | Frame _ _ _ => true
  | _ => false
  end.

Definition script : Script :=
  {| Globals := G; Closure := Cb; globals0 := tt; entry := run; invoke := call;
     isFrame := frameClosure |}.

End CanvasTexture.

(** ** two_cubes: two cubes sharing one uniform buffer *)

Module TwoCubes.

Definition matrixSize : N := 4 * 16.
Definition offset : N := 256.
Definition uniformBufferSize : N := offset + matrixSize.

Definition G := unit.

Inductive Cb :=
| Frame (pipeline cubeVerticesBuffer uniformBuffer uniformBindGroup
         uniformBindGroup2 depthView : Handle)
| Resize (pipeline : Handle).

Definition M := WebGPU.M G Cb.

Definition initPipeline : M Handle :=
  vs <- createShaderModule "two_cubes/cube.vert.wgsl" ;;
  fs <- createShaderModule "two_cubes/cube.frag.wgsl" ;;
  createRenderPipeline None vs (Some fs).

Definition frame (pipeline cubeVerticesBuffer uniformBuffer uniformBindGroup
  uniformBindGroup2 depthView : Handle) : M unit :=
  writeBuffer uniformBuffer 0 (Lit 64) ;;
  writeBuffer uniformBuffer offset (Lit 64) ;;
  v <- currentTextureView ;;
  submit [[RenderPass
             {| colorAttachments := [{| view := v; resolveTarget := None |}];
                depthStencilAttachment := Some depthView |}
             [SetPipeline pipeline;
              SetVertexBuffer 0 cubeVerticesBuffer;
              SetBindGroup 0 uniformBindGroup;
              Draw (Ext "cubeVertexCount") 1;
              SetBindGroup 0 uniformBindGroup2;
              Draw (Ext "cubeVertexCount") 1]]] ;;
  requestAnimationFrame
    (Frame pipeline cubeVerticesBuffer uniformBuffer uniformBindGroup
       uniformBindGroup2 depthView).

Definition draw (pipeline : Handle) : M unit :=
  cubeVerticesBuffer <- createBuffer (Ext "cubeVertexArray.byteLength") ;;
  depthTexture <- createTexture ;;
  uniformBuffer <- createBuffer (Lit uniformBufferSize) ;;
  uniformBindGroup <-
    createBindGroup pipeline 0
      [BindBuffer uniformBuffer 0 (Some matrixSize)] ;;
  uniformBindGroup2 <-
    createBindGroup pipeline 0
      [BindBuffer uniformBuffer offset (Some matrixSize)] ;;
  _ <- currentTextureView ;;
  depthView <- createView depthTexture ;;
  requestAnimationFrame
    (Frame pipeline cubeVerticesBuffer uniformBuffer uniformBindGroup
       uniformBindGroup2 depthView).

Definition onResize (pipeline : Handle) : M unit :=
  configure ;;
  draw pipeline.

Definition run : M unit :=
  requireElement "canvas" "No Canvas" ;;
  initWebGPU "Not Support WebGPU" ;;
  pipeline <- initPipeline ;;
  draw pipeline ;;
  addEventListener (Window "resize") (Resize pipeline).

Definition call (cb : Cb) (_ : Payload) : M unit :=
  match cb with
  | Frame p vb ub g1 g2 dv => frame p vb ub g1 g2 dv
  | Resize p => onResize p
  end.

Definition frameClosure (cb : Cb) : bool :=
  match cb with
  | Frame _ _ _ _ _ _ => true
  | _ => false
  end.

Definition script : Script :=
  {| Globals := G; Closure := Cb; globals0 := tt; entry := run; invoke := call;
     isFrame := frameClosure |}.

End TwoCubes.

(** ** cube_imageTexture: a cube textured from a fetched image

    [draw] is [async] and nobody awaits it: it runs up to its
    [await fetch(imageUrl)] and returns; the rest of it runs when the
    browser has the image, and never if one of the three awaited promises
    rejects.  No call is made between the three awaits, so they are one
    suspension. *)

Module ImageTexture.

Definition G := unit.

(** [Loaded] is the rest of one [draw] activation, from the line after its
    awaits on, with the variables it has captured. *)
Inductive Cb :=
| Frame (pipeline cubeVerticesBuffer uniformBuffer uniformBindGroup
         textureGroup depthView : Handle)
| Resize (pipeline : Handle)
| Loaded (pipeline cubeVerticesBuffer uniformBuffer uniformBindGroup
          depthView : Handle).

Definition M := WebGPU.M G Cb.

Definition initPipeline : M Handle :=
  vs <- createShaderModule "cube_imageTexture/cube.vert.wgsl" ;;
  fs <- createShaderModule "cube_imageTexture/cube_imageTexture.frag.wgsl" ;;
  createRenderPipeline None vs (Some fs).

Definition frame (pipeline cubeVerticesBuffer uniformBuffer uniformBindGroup
  textureGroup depthView : Handle) : M unit :=
  writeBuffer uniformBuffer 0 (Lit 64) ;;
  v <- currentTextureView ;;
  submit [[RenderPass
             {| colorAttachments := [{| view := v; resolveTarget := None |}];
                depthStencilAttachment := Some depthView |}
             [SetPipeline pipeline;
              SetBindGroup 0 uniformBindGroup;
              SetBindGroup 1 textureGroup;
              SetVertexBuffer 0 cubeVerticesBuffer;
              Draw (Ext "cubeVertexCount") 1]]] ;;
  requestAnimationFrame
    (Frame pipeline cubeVerticesBuffer uniformBuffer uniformBindGroup
       textureGroup depthView).

(** [draw], up to its awaits. *)
Definition draw (pipeline : Handle) : M unit :=
  cubeVerticesBuffer <- createBuffer (Ext "cubeVertexArray.byteLength") ;;
  depthTexture <- createTexture ;;
  uniformBuffer <- createBuffer (Lit (4 * 16)) ;;
  uniformBindGroup <-
    createBindGroup pipeline 0 [BindBuffer uniformBuffer 0 None] ;;
  _ <- currentTextureView ;;
  depthView <- createView depthTexture ;;
  suspend
    (Loaded pipeline cubeVerticesBuffer uniformBuffer uniformBindGroup
       depthView).

(** [draw], after its awaits; it ends with a direct call [frame()]. *)
Definition onLoaded (pipeline cubeVerticesBuffer uniformBuffer
  uniformBindGroup depthView : Handle) : M unit :=
  texture <- createTexture ;;
  emit (CopyExternalImageToTexture texture) ;;
  sampler <- createSampler ;;
  textureView <- createView texture ;;
  textureGroup <-
    createBindGroup pipeline 1 [BindSampler sampler; BindView textureView] ;;
  frame pipeline cubeVerticesBuffer uniformBuffer uniformBindGroup
    textureGroup depthView.

Definition onResize (pipeline : Handle) : M unit :=
  configure ;;
  draw pipeline.

Definition run : M unit :=
  requireElement "canvas" "No Canvas" ;;
  initWebGPU "Not Support WebGPU" ;;
  pipeline <- initPipeline ;;
  draw pipeline ;;
  addEventListener (Window "resize") (Resize pipeline).

Definition call (cb : Cb) (_ : Payload) : M unit :=
  match cb with
  | Frame p vb ub g1 g2 dv => frame p vb ub g1 g2 dv
  | Resize p => onResize p
  | Loaded p vb ub g1 dv => onLoaded p vb ub g1 dv
  end.

Definition frameClosure (cb : Cb) : bool :=
  match cb with
  | Frame _ _ _ _ _ _ => true
  | _ => false
  end.

Definition script : Script :=
  {| Globals := G; Closure := Cb; globals0 := tt; entry := run; invoke := call;
     isFrame := frameClosure |}.

End ImageTexture.

(** ** cube_spriteTexture: a cube textured from a sprite sheet *)

Module SpriteTexture.

Record Resources := {
  verticesBuffer : Handle;
  depthTexture : Handle;
  uniformBuffer : Handle;
  uniformGroup : Handle;
  textureGroup : Handle;
  uvBuffer : Handle
}.

(** [count] is a variable of one [draw] activation, shared by that
    activation and its [frame]: the script's state holds one counter for
    every activation of [draw], and a frame closure knows the index of its
    own. *)
Definition G := list nat.

Inductive Cb :=
| Frame (pipeline : Handle) (r : Resources) (depthView : Handle)
    (counter : nat)
| Resize (pipeline : Handle) (r : Resources).

(** [l] with its [i]-th element replaced by [v]. *)
Fixpoint store (i : nat) (v : nat) (l : list nat) : list nat :=
  match l, i with
  | [], _ => []
  | _ :: rest, O => v :: rest
  | x :: rest, S j => x :: store j v rest
  end.

Definition M := WebGPU.M G Cb.

Definition initPipeline : M Handle :=
  vs <- createShaderModule "cube_spriteTexture/cube.vert.wgsl" ;;
  fs <- createShaderModule "cube_spriteTexture/cube_spriteTexture.frag.wgsl" ;;
  createRenderPipeline None vs (Some fs).

Definition createResources (pipeline : Handle) : M Resources :=
  verticesBuffer <- createBuffer (Ext "cubeVertexArray.byteLength") ;;
  depthTexture <- createTexture ;;
  uniformBuffer <- createBuffer (Lit (4 * 16)) ;;
  uniformGroup <-
    createBindGroup pipeline 0 [BindBuffer uniformBuffer 0 None] ;;
  awaitImage ;;
  texture <- createTexture ;;
  emit (CopyExternalImageToTexture texture) ;;
  sampler <- createSampler ;;
  uvBuffer <- createBuffer (Lit (4 * 4)) ;;
  writeBuffer uvBuffer 0 (Lit 16) ;;
  textureView <- createView texture ;;
  textureGroup <-
    createBindGroup pipeline 1
      [BindSampler sampler; BindView textureView;
       BindBuffer uvBuffer 0 None] ;;
  ret {| verticesBuffer := verticesBuffer; depthTexture := depthTexture;
         uniformBuffer := uniformBuffer; uniformGroup := uniformGroup;
         textureGroup := textureGroup; uvBuffer := uvBuffer |}.

Definition frame (pipeline : Handle) (r : Resources) (depthView : Handle)
  (counter : nat) : M unit :=
  counters <- getGlobals ;;
  let count := S (nth counter counters 0) in
  setGlobals (store counter count counters) ;;
  (if Nat.eqb (count mod 30) 0 then writeBuffer (uvBuffer r) 0 (Lit 16)
   else ret tt) ;;
  writeBuffer (uniformBuffer r) 0 (Lit 64) ;;
  v <- currentTextureView ;;
  submit [[RenderPass
             {| colorAttachments := [{| view := v; resolveTarget := None |}];
                depthStencilAttachment := Some depthView |}
             [SetPipeline pipeline;
              SetBindGroup 0 (uniformGroup r);
              SetBindGroup 1 (textureGroup r);
              SetVertexBuffer 0 (verticesBuffer r);
              Draw (Ext "cubeVertexCount") 1]]] ;;
  requestAnimationFrame (Frame pipeline r depthView counter).

(** [let count = 0] adds a counter; [draw] ends with a direct call
    [frame()]. *)
Definition draw (pipeline : Handle) (r : Resources) : M unit :=
  _ <- currentTextureView ;;
  depthView <- createView (depthTexture r) ;;
  counters <- getGlobals ;;
  setGlobals (counters ++ [0]) ;;
  frame pipeline r depthView (List.length counters).

Definition onResize (pipeline : Handle) (r : Resources) : M unit :=
  configure ;;
  draw pipeline r.

Definition run : M unit :=
  requireElement "canvas" "No Canvas" ;;
  initWebGPU "Not Support WebGPU" ;;
  pipeline <- initPipeline ;;
  r <- createResources pipeline ;;
  draw pipeline r ;;
  addEventListener (Window "resize") (Resize pipeline r).

Definition call (cb : Cb) (_ : Payload) : M unit :=
  match cb with
  | Frame p r dv n => frame p r dv n
  | Resize p r => onResize p r
  end.

Definition frameClosure (cb : Cb) : bool :=
  match cb with
  | Frame _ _ _ _ => true
  | _ => false
  end.

Definition script : Script :=
  {| Globals := G; Closure := Cb; globals0 := []; entry := run; invoke := call;
     isFrame := frameClosure |}.

End SpriteTexture.

(** ** color_triangle: one triangle whose colour comes from a uniform *)

Module ColorTriangle.

Record PipelineObj := {
  pipeline : Handle;
  colorBuffer : Handle;
  uniformGroup : Handle
}.

Definition G := unit.

Inductive Cb :=
| ColorInput (p : PipelineObj)
| Resize (p : PipelineObj).

Definition M := WebGPU.M G Cb.

Definition colorSelector : string :=
  String.append "input[type="
    (String.append dquote (String.append "color" (String.append dquote "]"))).

Definition initPipeline : M PipelineObj :=
  vs <- createShaderModule "color_triangle/triangle.vert.wgsl" ;;
  fs <- createShaderModule "color_triangle/color.frag.wgsl" ;;
  pipeline <- createRenderPipeline None vs (Some fs) ;;
  colorBuffer <- createBuffer (Lit (4 * 4)) ;;
  writeBuffer colorBuffer 0 (Lit 16) ;;
  uniformGroup <-
    createBindGroup pipeline 0 [BindBuffer colorBuffer 0 None] ;;
  ret {| pipeline := pipeline; colorBuffer := colorBuffer;
         uniformGroup := uniformGroup |}.

(** [draw] encodes and submits once; it registers no frame callback. *)
Definition draw (pipeline uniformGroup : Handle) : M unit :=
  v <- currentTextureView ;;
  submit [[RenderPass
             {| colorAttachments := [{| view := v; resolveTarget := None |}];
                depthStencilAttachment := None |}
             [SetPipeline pipeline;
              SetBindGroup 0 uniformGroup;
              Draw (Lit 3) 1]]].

Definition onColorInput (p : PipelineObj) : M unit :=
  writeBuffer (colorBuffer p) 0 (Lit 16) ;;
  draw (pipeline p) (uniformGroup p).

Definition onResize (p : PipelineObj) : M unit :=
  configure ;;
  draw (pipeline p) (uniformGroup p).

Definition run : M unit :=
  requireElement "canvas" "No Canvas" ;;
  initWebGPU "Not Support WebGPU" ;;
  p <- initPipeline ;;
  draw (pipeline p) (uniformGroup p) ;;
  b <- getBrowser ;;
  (if query b colorSelector
   then addEventListener (Element colorSelector "input") (ColorInput p)
   else ret tt) ;;
  addEventListener (Window "resize") (Resize p).

Definition call (cb : Cb) (_ : Payload) : M unit :=
  match cb with
  | ColorInput p => onColorInput p
  | Resize p => onResize p
  end.

Definition frameClosure (cb : Cb) : bool := false.

Definition script : Script :=
  {| Globals := G; Closure := Cb; globals0 := tt; entry := run; invoke := call;
     isFrame := frameClosure |}.

End ColorTriangle.

(** ** instanced_cubes: a 4x4 grid of cubes in one instanced draw *)

Module InstancedCubes.

Definition xCount : N := 4.
Definition yCount : N := 4.
Definition numInstances : N := xCount * yCount.
Definition matrixSize : N := 4 * 16.
Definition uniformBufferSize : N := numInstances * matrixSize.

Definition G := unit.

Inductive Cb :=
| Frame (pipeline cubeVerticesBuffer uniformBuffer uniformBindGroup
         depthView : Handle)
| Resize (pipeline : Handle).

Definition M := WebGPU.M G Cb.

Definition initPipeline : M Handle :=
  vs <- createShaderModule "./shaders/instanced_cubes.vert.wgsl" ;;
  fs <- createShaderModule "./shaders/cube.frag.wgsl" ;;
  createRenderPipeline None vs (Some fs).

Definition frame (pipeline cubeVerticesBuffer uniformBuffer uniformBindGroup
  depthView : Handle) : M unit :=
  writeBuffer uniformBuffer 0 (Lit (16 * numInstances * 4)) ;;
  v <- currentTextureView ;;
  submit [[RenderPass
             {| colorAttachments := [{| view := v; resolveTarget := None |}];
                depthStencilAttachment := Some depthView |}
             [SetPipeline pipeline;
              SetVertexBuffer 0 cubeVerticesBuffer;
              SetBindGroup 0 uniformBindGroup;
              Draw (Ext "cubeVertexCount") 1;
              SetBindGroup 0 uniformBindGroup;
              Draw (Ext "cubeVertexCount") numInstances]]] ;;
  requestAnimationFrame
    (Frame pipeline cubeVerticesBuffer uniformBuffer uniformBindGroup
       depthView).

Definition draw (pipeline : Handle) : M unit :=
  cubeVerticesBuffer <- createBuffer (Ext "cubeVertexArray.byteLength") ;;
  depthTexture <- createTexture ;;
  _ <- currentTextureView ;;
  depthView <- createView depthTexture ;;
  uniformBuffer <- createBuffer (Lit uniformBufferSize) ;;
  uniformBindGroup <-
    createBindGroup pipeline 0 [BindBuffer uniformBuffer 0 None] ;;
  requestAnimationFrame
    (Frame pipeline cubeVerticesBuffer uniformBuffer uniformBindGroup
       depthView).

Definition onResize (pipeline : Handle) : M unit :=
  configure ;;
  draw pipeline.

Definition run : M unit :=
  requireElement "canvas" "No Canvas" ;;
  initWebGPU "Not Support WebGPU" ;;
  pipeline <- initPipeline ;;
  draw pipeline ;;
  addEventListener (Window "resize") (Resize pipeline).

Definition call (cb : Cb) (_ : Payload) : M unit :=
  match cb with
  | Frame p vb ub bg dv => frame p vb ub bg dv
  | Resize p => onResize p
  end.

Definition frameClosure (cb : Cb) : bool :=
  match cb with
  | Frame _ _ _ _ _ => true
  | _ => false
  end.

Definition script : Script :=
  {| Globals := G; Closure := Cb; globals0 := tt; entry := run; invoke := call;
     isFrame := frameClosure |}.

End InstancedCubes.

(** ** deferredRendering: G-buffer pass, light update, then composite *)

Module Deferred.

(** [const settings = { mode: 'rendering', numLights: 32 }] *)
Record Settings := {
  mode : string;
  numLights : nat
}.

Definition settings0 : Settings := {| mode := "rendering"; numLights := 32 |}.

Definition kMaxNumLights : N := 1024.

(** [Math.ceil(a / b)] on non-negative integers, [b > 0]. *)
Definition Math_ceil_div (a b : N) : N :=
  if N.eqb (a mod b) 0 then a / b else N.succ (a / b).

Record Pipelines := {
  writeGBuffersPipeline : Handle;
  gBuffersDebugViewPipeline : Handle;
  deferredRenderingPipeline : Handle;
  lightUpdateComputePipeline : Handle
}.

Record Resources := {
  depthTexture : Handle;
  dragonVertexBuffer : Handle;
  dragonIndexBuffer : Handle;
  gBufferTexture2DFloat16 : Handle;
  gBufferTextureAlbedo : Handle;
  gBufferTextureViews : Handle * Handle * Handle;
  gBufferTexturesBindGroup : Handle;
  modelUniformBuffer : Handle;
  cameraUniformBuffer : Handle;
  sceneUniformBindGroup : Handle;
  lightsBuffer : Handle;
  configUniformBuffer : Handle;
  lightExtentBuffer : Handle;
  lightsBufferBindGroup : Handle;
  lightsBufferComputeBindGroup : Handle
}.

Definition G := Settings.

Inductive Cb :=
| Frame (p : Pipelines) (r : Resources) (depthView : Handle)
| Resize (p : Pipelines) (r : Resources)
| GuiMode
| GuiNumLights (configUniformBuffer : Handle).

Definition M := WebGPU.M G Cb.

Definition initPipeline : M Pipelines :=
  vsWrite <- createShaderModule "deferredRendering/writeGBuffers.vert.wgsl" ;;
  fsWrite <- createShaderModule "deferredRendering/writeGBuffers.frag.wgsl" ;;
  writeGBuffersPipeline <- createRenderPipeline None vsWrite (Some fsWrite) ;;
  gBufferTextureBindGroupLayout <- createBindGroupLayout ;;
  lightsBufferBindGroupLayout <- createBindGroupLayout ;;
  debugLayout <- createPipelineLayout [gBufferTextureBindGroupLayout] ;;
  vsQuad <- createShaderModule "deferredRendering/textureQuad.vert.wgsl" ;;
  fsDebug <-
    createShaderModule "deferredRendering/gBuffersDebugView.frag.wgsl" ;;
  gBuffersDebugViewPipeline <-
    createRenderPipeline (Some debugLayout) vsQuad (Some fsDebug) ;;
  deferredLayout <-
    createPipelineLayout
      [gBufferTextureBindGroupLayout; lightsBufferBindGroupLayout] ;;
  vsQuad2 <- createShaderModule "deferredRendering/textureQuad.vert.wgsl" ;;
  fsDeferred <-
    createShaderModule "deferredRendering/deferredRendering.frag.wgsl" ;;
  deferredRenderingPipeline <-
    createRenderPipeline (Some deferredLayout) vsQuad2 (Some fsDeferred) ;;
  cs <- createShaderModule "deferredRendering/lightUpdate.cmp.wgsl" ;;
  lightUpdateComputePipeline <- createComputePipeline None cs ;;
  ret {| writeGBuffersPipeline := writeGBuffersPipeline;
         gBuffersDebugViewPipeline := gBuffersDebugViewPipeline;
         deferredRenderingPipeline := deferredRenderingPipeline;
         lightUpdateComputePipeline := lightUpdateComputePipeline |}.

Definition createResources (p : Pipelines) : M Resources :=
  depthTexture <- createTexture ;;
  dragonVertexBuffer <- createBuffer (Ext "mesh.positions.length * 8 * 4") ;;
  dragonIndexBuffer <- createBuffer (Ext "mesh.triangles.length * 3 * 2") ;;
  gBufferTexture2DFloat16 <- createTexture ;;
  gBufferTextureAlbedo <- createTexture ;;
  view0 <- createView gBufferTexture2DFloat16 ;;
  view1 <- createView gBufferTextureAlbedo ;;
  view2 <- createView depthTexture ;;
  gBufferTexturesBindGroup <-
    createBindGroup (gBuffersDebugViewPipeline p) 0
      [BindView view0; BindView view1; BindView view2] ;;
  modelUniformBuffer <- createBuffer (Lit (4 * 16 * 2)) ;;
  cameraUniformBuffer <- createBuffer (Lit (4 * 16 * 2)) ;;
  sceneUniformBindGroup <-
    createBindGroup (writeGBuffersPipeline p) 0
      [BindBuffer modelUniformBuffer 0 None;
       BindBuffer cameraUniformBuffer 0 None] ;;
  lightsBuffer <- createBuffer (Lit (4 * 8 * kMaxNumLights)) ;;
  configUniformBuffer <- createBuffer (Lit 4) ;;
  addEventListener (Gui "mode") GuiMode ;;
  addEventListener (Gui "numLights") (GuiNumLights configUniformBuffer) ;;
  lightExtentBuffer <- createBuffer (Lit (4 * 8)) ;;
  lightsBufferBindGroup <-
    createBindGroup (deferredRenderingPipeline p) 1
      [BindBuffer lightsBuffer 0 None;
       BindBuffer configUniformBuffer 0 None;
       BindBuffer cameraUniformBuffer 0 None] ;;
  lightsBufferComputeBindGroup <-
    createBindGroup (lightUpdateComputePipeline p) 0
      [BindBuffer lightsBuffer 0 None;
       BindBuffer configUniformBuffer 0 None;
       BindBuffer lightExtentBuffer 0 None] ;;
  ret {| depthTexture := depthTexture;
         dragonVertexBuffer := dragonVertexBuffer;
         dragonIndexBuffer := dragonIndexBuffer;
         gBufferTexture2DFloat16 := gBufferTexture2DFloat16;
         gBufferTextureAlbedo := gBufferTextureAlbedo;
         gBufferTextureViews := (view0, view1, view2);
         gBufferTexturesBindGroup := gBufferTexturesBindGroup;
         modelUniformBuffer := modelUniformBuffer;
         cameraUniformBuffer := cameraUniformBuffer;
         sceneUniformBindGroup := sceneUniformBindGroup;
         lightsBuffer := lightsBuffer;
         configUniformBuffer := configUniformBuffer;
         lightExtentBuffer := lightExtentBuffer;
         lightsBufferBindGroup := lightsBufferBindGroup;
         lightsBufferComputeBindGroup := lightsBufferComputeBindGroup |}.

Definition gBufferPass (p : Pipelines) (r : Resources) (depthView : Handle)
  : Pass :=
  let '(view0, view1, _) := gBufferTextureViews r in
  RenderPass
    {| colorAttachments :=
         [{| view := view0; resolveTarget := None |};
          {| view := view1; resolveTarget := None |}];
       depthStencilAttachment := Some depthView |}
    [SetPipeline (writeGBuffersPipeline p);
     SetBindGroup 0 (sceneUniformBindGroup r);
     SetVertexBuffer 0 (dragonVertexBuffer r);
     SetIndexBuffer (dragonIndexBuffer r);
     DrawIndexed (Ext "mesh.triangles.length * 3") 1 0].

Definition lightPass (p : Pipelines) (r : Resources) : Pass :=
  ComputePass
    [SetPipeline (lightUpdateComputePipeline p);
     SetBindGroup 0 (lightsBufferComputeBindGroup r);
     DispatchWorkgroups (Math_ceil_div kMaxNumLights 64)].

Definition debugViewPass (p : Pipelines) (r : Resources) (v : Handle) : Pass :=
  RenderPass
    {| colorAttachments := [{| view := v; resolveTarget := None |}];
       depthStencilAttachment := None |}
    [SetPipeline (gBuffersDebugViewPipeline p);
     SetBindGroup 0 (gBufferTexturesBindGroup r);
     Draw (Lit 6) 1].

Definition deferredRenderingPass (p : Pipelines) (r : Resources) (v : Handle)
  : Pass :=
  RenderPass
    {| colorAttachments := [{| view := v; resolveTarget := None |}];
       depthStencilAttachment := None |}
    [SetPipeline (deferredRenderingPipeline p);
     SetBindGroup 0 (gBufferTexturesBindGroup r);
     SetBindGroup 1 (lightsBufferBindGroup r);
     Draw (Lit 6) 1].

Definition frame (p : Pipelines) (r : Resources) (depthView : Handle)
  : M unit :=
  writeBuffer (cameraUniformBuffer r) 0 (Lit 64) ;;
  writeBuffer (cameraUniformBuffer r) 64 (Lit 64) ;;
  v <- currentTextureView ;;
  settings <- getGlobals ;;
  submit [[gBufferPass p r depthView;
           lightPass p r;
           if String.eqb (mode settings) "gBuffers view"
           then debugViewPass p r v
           else deferredRenderingPass p r v]] ;;
  requestAnimationFrame (Frame p r depthView).

Definition draw (p : Pipelines) (r : Resources) : M unit :=
  writeBuffer (lightExtentBuffer r) 0 (Lit 32) ;;
  writeBuffer (modelUniformBuffer r) 0 (Lit 64) ;;
  writeBuffer (modelUniformBuffer r) 64 (Lit 64) ;;
  depthView <- createView (depthTexture r) ;;
  _ <- currentTextureView ;;
  requestAnimationFrame (Frame p r depthView).

Definition onResize (p : Pipelines) (r : Resources) : M unit :=
  configure ;;
  draw p r.

(** The dat.gui controllers: the first stores the chosen mode, the second
    stores the slider value and runs the script's [onChange] handler. *)
Definition onGuiMode (x : Payload) : M unit :=
  match x with
  | PStr m =>
      settings <- getGlobals ;;
      setGlobals {| mode := m; numLights := numLights settings |}
  | _ => ret tt
  end.

Definition onGuiNumLights (configUniformBuffer : Handle) (x : Payload)
  : M unit :=
  match x with
  | PNum n =>
      settings <- getGlobals ;;
      setGlobals {| mode := mode settings; numLights := n |} ;;
      writeBuffer configUniformBuffer 0 (Lit 4)
  | _ => ret tt
  end.

Definition run : M unit :=
  requireElement "canvas" "No Canvas" ;;
  initWebGPU "Not Support WebGPU" ;;
  p <- initPipeline ;;
  r <- createResources p ;;
  draw p r ;;
  addEventListener (Window "resize") (Resize p r).

(** The module's top level: before it calls [run] it appends the panel of
    stats.js to the document, and that panel is made of canvas elements. *)
Definition main : M unit :=
  appendChild "canvas" ;;
  run.

Definition call (cb : Cb) (x : Payload) : M unit :=
  match cb with
  | Frame p r dv => frame p r dv
  | Resize p r => onResize p r
  | GuiMode => onGuiMode x
  | GuiNumLights b => onGuiNumLights b x
  end.

Definition frameClosure (cb : Cb) : bool :=
  match cb with
  | Frame _ _ _ => true
  | _ => false
  end.

Definition script : Script :=
  {| Globals := G; Closure := Cb; globals0 := settings0; entry := main;
     invoke := call; isFrame := frameClosure |}.

End Deferred.

(** ** The twelve scripts *)

Inductive Demo :=
| cube
| multisample
| shadowMapping
| base_lighting
| base_lighting2
| cube_canvasTexture
| two_cubes
| cube_imageTexture
| cube_spriteTexture
| color_triangle
| instanced_cubes
| deferredRendering.

Definition scriptOf (d : Demo) : Script :=
  match d with
  | cube => Cube.script
  | multisample => Multisample.script
  | shadowMapping => ShadowMapping.script
  | base_lighting => BaseLighting.script
  | base_lighting2 => BaseLighting2.script
  | cube_canvasTexture => CanvasTexture.script
  | two_cubes => TwoCubes.script
  | cube_imageTexture => ImageTexture.script
  | cube_spriteTexture => SpriteTexture.script
  | color_triangle => ColorTriangle.script
  | instanced_cubes => InstancedCubes.script
  | deferredRendering => Deferred.script
  end.

(** A page on which every start-up check passes. *)
Definition fullBrowser : Browser :=
  {| query := fun _ => true; gpu := true; adapter := true; ctx2d := true;
     image := true |}.

Definition resize : External := Dispatch (Window "resize") PNone.

(** ** Buffer contents

    [device.queue.writeBuffer(buffer, bufferOffset, data, dataOffset, size)]
    with [data] an [ArrayBuffer]: offsets and size count bytes.  The call is
    rejected when the source range leaves [data], when the destination
    range leaves the buffer, or when [bufferOffset] or [size] is not a
    multiple of 4; otherwise it copies [size] bytes and touches nothing
    else. *)

Module Memory.

Definition Bytes := list Byte.byte.

(** A typed-array view, as the scripts use it: [m.buffer], [m.byteOffset],
    [m.byteLength]. *)
Record TypedArray := {
  buffer : Bytes;
  byteOffset : nat;
  byteLength : nat
}.

(** The bytes a view covers. *)
Definition contents (m : TypedArray) : Bytes :=
  firstn (byteLength m) (skipn (byteOffset m) (buffer m)).

(** What [mat4.create()] of gl-matrix hands out: a [Float32Array] of 16
    elements on a buffer of its own. *)
Definition isMat4 (m : TypedArray) : Prop :=
  byteOffset m = 0 /\ byteLength m = 64 /\ List.length (buffer m) = 64.

Definition createBuffer (size : nat) : Bytes := repeat Byte.x00 size.

Definition writeBuffer (gpuBuffer : Bytes) (bufferOffset : nat) (data : Bytes)
  (dataOffset size : nat) : option Bytes :=
  if Nat.leb (dataOffset + size) (List.length data)
     && Nat.leb (bufferOffset + size) (List.length gpuBuffer)
     && Nat.eqb (bufferOffset mod 4) 0
     && Nat.eqb (size mod 4) 0
  then Some (firstn bufferOffset gpuBuffer
             ++ firstn size (skipn dataOffset data)
             ++ skipn (bufferOffset + size) gpuBuffer)
  else None.

(** The part of a buffer a bind-group entry [{buffer, offset, size}] makes
    visible to the shader. *)
Definition bound (gpuBuffer : Bytes) (offset size : nat) : Bytes :=
  firstn size (skipn offset gpuBuffer).

End Memory.

(** The two uniform uploads of [two_cubes]'s [frame], on the bytes of
    [uniformBuffer]; [m1] and [m2] are the matrices returned by
    [getTransformationMatrix] and [getTransformationMatrix2]. *)

Module TwoCubesUniforms.

Import Memory.

Definition upload1 (uniformBuffer : Bytes) (m1 : TypedArray) : option Bytes :=
  writeBuffer uniformBuffer 0 (buffer m1) (byteOffset m1) (byteLength m1).

Definition upload2 (uniformBuffer : Bytes) (m2 : TypedArray) : option Bytes :=
  writeBuffer uniformBuffer (N.to_nat TwoCubes.offset)
    (buffer m2) (byteOffset m2) (byteLength m2).

Definition frameUploads (uniformBuffer : Bytes) (m1 m2 : TypedArray)
  : option Bytes :=
  match upload1 uniformBuffer m1 with
  | Some b1 => upload2 b1 m2
  | None => None
  end.

(** What [uniformBindGroup] and [uniformBindGroup2] show of the buffer. *)
Definition region1 (uniformBuffer : Bytes) : Bytes :=
  bound uniformBuffer 0 (N.to_nat TwoCubes.matrixSize).

Definition region2 (uniformBuffer : Bytes) : Bytes :=
  bound uniformBuffer (N.to_nat TwoCubes.offset)
    (N.to_nat TwoCubes.matrixSize).

End TwoCubesUniforms.

(** ** Fragment shaders

    The numbers of a shader are [f32] values.  The model is IEEE 754
    binary32 with round to nearest, ties to even: a finite value is kept as
    the rational number it denotes (so the two zeros are one value, and
    subnormal numbers are kept rather than flushed to zero), every
    operation rounds its exact result, a result of magnitude 2^128 or more
    is an infinity, and an undefined one is [NaN]. *)

Module F32.

Local Open Scope Q_scope.

Inductive f32 :=
| Finite (q : Q)
| Infinity (negative : bool)
| NaN.

Definition pow2 (k : Z) : Q := Qpower 2 k.

(** [q] is an integer of magnitude below 2^24, times 2^k. *)
Definition onGrid (q : Q) (k : Z) : bool :=
  let m := Qred (q * pow2 (- k)) in
  Pos.eqb (Qden m) 1 && (Z.abs (Qnum m) <? 2 ^ 24)%Z.

(** The exponents of the last mantissa bit, subnormal numbers included:
    -149 to 104. *)
Definition exponents : list Z :=
  map (fun i => (Z.of_nat i - 149)%Z) (seq 0 254).

Definition representable (q : Q) : bool := existsb (onGrid q) exponents.

(** For [q <> 0], the [e] with 2^e <= |q| < 2^(e+1). *)
Definition magnitude (q : Q) : Z :=
  let l := (Z.log2 (Z.abs (Qnum q)) - Z.log2 (Zpos (Qden q)))%Z in
  if Qle_bool (pow2 l) (Qabs q) then l else (l - 1)%Z.

(** The integer nearest to [x >= 0], the even one of two. *)
Definition roundHalfEven (x : Q) : Z :=
  let m := Qfloor x in
  match Qcompare (x - inject_Z m) (1 # 2) with
  | Lt => m
  | Gt => (m + 1)%Z
  | Eq => if Z.even m then m else (m + 1)%Z
  end.

Definition isNegative (q : Q) : bool := (Qnum q <? 0)%Z.

Definition isZero (q : Q) : bool := Qeq_bool q 0.

Definition nearest (q : Q) : f32 :=
  let k := Z.max (magnitude q - 23) (-149) in
  let m := roundHalfEven (Qabs q * pow2 (- k)) in
  let r := inject_Z m * pow2 k in
  if Qle_bool (pow2 128) r then Infinity (isNegative q)
  else Finite (Qred (if isNegative q then - r else r)).

(** The [f32] value of an exact result; finite values are kept in lowest
    terms. *)
Definition round (q : Q) : f32 :=
  let q := Qred q in
  if representable q then Finite q else nearest q.

(** A literal of the shader source. *)
Definition lit (q : Q) : f32 := round q.

Definition fneg (x : f32) : f32 :=
  match x with
  | Finite q => Finite (- q)
  | Infinity s => Infinity (negb s)
  | NaN => NaN
  end.

Definition fadd (x y : f32) : f32 :=
  match x, y with
  | NaN, _ | _, NaN => NaN
  | Finite a, Finite b => round (a + b)
  | Infinity s, Infinity t => if Bool.eqb s t then Infinity s else NaN
  | Infinity s, Finite _ | Finite _, Infinity s => Infinity s
  end.

Definition fsub (x y : f32) : f32 := fadd x (fneg y).

Definition fmul (x y : f32) : f32 :=
  match x, y with
  | NaN, _ | _, NaN => NaN
  | Finite a, Finite b => round (a * b)
  | Infinity s, Infinity t => Infinity (xorb s t)
  | Infinity s, Finite a | Finite a, Infinity s =>
      if isZero a then NaN else Infinity (xorb s (isNegative a))
  end.

(** A zero divisor counts as the positive zero. *)
Definition fdiv (x y : f32) : f32 :=
  match x, y with
  | NaN, _ | _, NaN => NaN
  | Finite a, Finite b =>
      if isZero b
      then if isZero a then NaN else Infinity (isNegative a)
      else round (a / b)
  | Infinity _, Infinity _ => NaN
  | Infinity s, Finite b => Infinity (xorb s (isNegative b))
  | Finite _, Infinity _ => Finite 0
  end.

Definition floor (x : f32) : f32 :=
  match x with
  | Finite q => Finite (inject_Z (Qfloor q))
  | _ => x
  end.

(** [x < y] and [x == y]: false as soon as one side is [NaN]. *)
Definition flt (x y : f32) : bool :=
  match x, y with
  | NaN, _ | _, NaN => false
  | Finite a, Finite b => negb (Qle_bool b a)
  | Finite _, Infinity s => negb s
  | Infinity s, Finite _ => s
  | Infinity s, Infinity t => s && negb t
  end.

Definition feq (x y : f32) : bool :=
  match x, y with
  | Finite a, Finite b => Qeq_bool a b
  | Infinity s, Infinity t => Bool.eqb s t
  | _, _ => false
  end.

(** The values of the type that are binary32 numbers: a finite one is a
    representable rational in lowest terms. *)
Definition isBinary32 (x : f32) : bool :=
  match x with
  | Finite q =>
      Z.eqb (Qnum (Qred q)) (Qnum q) && Pos.eqb (Qden (Qred q)) (Qden q)
      && representable q
  | _ => true
  end.

End F32.

(** *** base_lighting2/base_lighting.frag.wgsl *)

Module BaseLighting2Frag.

Import F32.

Record vec3 := { x : f32; y : f32; z : f32 }.

Record vec4 := { r : f32; g : f32; b : f32; a : f32 }.

Definition rgb (c : vec4) : vec3 := {| x := r c; y := g c; z := b c |}.
Definition xyz (c : vec4) : vec3 := {| x := r c; y := g c; z := b c |}.

Definition vec4_of (v : vec3) (w : f32) : vec4 :=
  {| r := x v; g := y v; b := z v; a := w |}.

Definition add (u v : vec3) : vec3 :=
  {| x := fadd (x u) (x v); y := fadd (y u) (y v); z := fadd (z u) (z v) |}.

Definition sub (u v : vec3) : vec3 :=
  {| x := fsub (x u) (x v); y := fsub (y u) (y v); z := fsub (z u) (z v) |}.

(** Component-wise product of two vectors. *)
Definition mul (u v : vec3) : vec3 :=
  {| x := fmul (x u) (x v); y := fmul (y u) (y v); z := fmul (z u) (z v) |}.

Definition scale (v : vec3) (k : f32) : vec3 :=
  {| x := fmul (x v) k; y := fmul (y v) k; z := fmul (z v) k |}.

(** The builtin functions the shader calls.  The language bounds their
    error without fixing their results, so the shader is modelled for any
    implementation of them. *)
Record Builtins := {
  length : vec3 -> f32;
  normalize : vec3 -> vec3;
  dot : vec3 -> vec3 -> f32;
  max : f32 -> f32 -> f32;
  pow : f32 -> f32 -> f32
}.

(** [objectColor.r == 1.0 && objectColor.g == 1.0 && objectColor.b == 1.0] *)
Definition isLightMarker (c : vec3) : bool :=
  feq (x c) (lit 1) && feq (y c) (lit 1) && feq (z c) (lit 1).

(** [ambientIntensity] and [pointLight] are the two uniforms of group 1;
    [pointLight] is an array of two [vec4]. *)
Definition main (fn : Builtins) (ambientIntensity : f32)
  (pointLight : vec4 * vec4) (fragPosition fragNormal : vec3)
  (fragUV : f32 * f32) (fragColor : vec4) : vec4 :=
  let objectColor := rgb fragColor in
  if isLightMarker objectColor then vec4_of objectColor (lit 1) else
  let ambientLightColor := {| x := lit 1; y := lit 1; z := lit 1 |} in
  let pointLightColor := {| x := lit 1; y := lit 1; z := lit 1 |} in
  let lightResult := {| x := lit 0; y := lit 0; z := lit 0 |} in
  let lightResult := add lightResult (scale ambientLightColor ambientIntensity) in
  let pointLightPosition := xyz (fst pointLight) in
  let pointLightIntensity := r (snd pointLight) in
  let pointLightRadius := g (snd pointLight) in
  let L := sub pointLightPosition fragPosition in
  let distance := length fn L in
  let lightResult :=
    if flt distance pointLightRadius then
      let diffuse := max fn (dot fn (normalize fn L) fragNormal) (lit 0) in
      let distanceFactor :=
        pow fn (fsub (lit 1) (fdiv distance pointLightRadius)) (lit 2) in
      add lightResult
        (scale (scale (scale pointLightColor pointLightIntensity) diffuse)
           distanceFactor)
    else lightResult in
  vec4_of (mul objectColor lightResult) (lit 1).

(** An implementation of the builtins to run the shader with: exact where
    the vector lies along the x axis and the exponent is 2. *)
Definition alongX : Builtins :=
  {| length := fun v => if flt (x v) (lit 0) then fneg (x v) else x v;
     normalize := fun v =>
       let l := if flt (x v) (lit 0) then fneg (x v) else x v in
       {| x := fdiv (x v) l; y := fdiv (y v) l; z := fdiv (z v) l |};
     dot := fun u v =>
       fadd (fadd (fmul (x u) (x v)) (fmul (y u) (y v))) (fmul (z u) (z v));
     max := fun e1 e2 => if flt e1 e2 then e2 else e1;
     pow := fun e1 _ => fmul e1 e1 |}.

End BaseLighting2Frag.

(** *** deferredRendering/writeGBuffers.frag.wgsl *)

Module WriteGBuffersFrag.

Import F32.

Record vec2 := { x2 : f32; y2 : f32 }.

Record vec3 := { x : f32; y : f32; z : f32 }.

Record vec4 := { r : f32; g : f32; b : f32; a : f32 }.

Record GBufferOutput := {
  normal : vec4;
  albedo : vec4
}.

Definition main (fragNormal : vec3) (fragUV : vec2) : GBufferOutput :=
  let uv := {| x2 := floor (fmul (lit 30) (x2 fragUV));
               y2 := floor (fmul (lit 30) (y2 fragUV)) |} in
  let c :=
    fadd (lit (2 # 10))
      (fmul (lit (5 # 10))
         (fsub (fadd (x2 uv) (y2 uv))
            (fmul (lit 2) (floor (fdiv (fadd (x2 uv) (y2 uv)) (lit 2)))))) in
  {| normal := {| r := x fragNormal; g := y fragNormal; b := z fragNormal;
                  a := lit 1 |};
     albedo := {| r := c; g := c; b := c; a := lit 1 |} |}.

(** The parity of [floor(x) + floor(y)]: 0 or 1. *)
Definition parity (x y : Q) : Z := ((Qfloor x + Qfloor y) mod 2)%Z.

End WriteGBuffersFrag.

(** ** What the properties below are stated with *)

(** How many draw calls each script puts into a command buffer. *)
Definition drawsPerSubmit (d : Demo) : nat :=
  match d with
  | cube | multisample | cube_canvasTexture | cube_imageTexture
  | cube_spriteTexture | color_triangle => 1
  | base_lighting | base_lighting2 | two_cubes | instanced_cubes
  | deferredRendering => 2
  | shadowMapping => 4
  end.

(** The scripts whose [draw] starts a [requestAnimationFrame] loop. *)
Definition usesAnimationFrames (d : Demo) : bool :=
  match d with
  | multisample | color_triangle => false
  | _ => true
  end.

(** The script whose [draw] is suspended at an [await] before it calls
    [frame]. *)
Definition loadsInDraw (d : Demo) : bool :=
  match d with
  | cube_imageTexture => true
  | _ => false
  end.

(** The scripts whose [draw], re-run by the resize listener, allocates
    buffers, textures or bind groups again, and the one whose resize
    listener replaces a texture. *)
Definition allocatesOnResize (d : Demo) : bool :=
  match d with
  | cube | multisample | two_cubes | cube_imageTexture | instanced_cubes
  | shadowMapping => true
  | _ => false
  end.

Definition reconfiguresOnResize (d : Demo) : bool :=
  match d with
  | shadowMapping => false
  | _ => true
  end.

Definition destroysOnResize (d : Demo) : bool :=
  match d with
  | shadowMapping => true
  | _ => false
  end.

(** The start-up checks of a script, read off a page: the failure of the
    first one that fails.  deferredRendering has appended a canvas of its
    own before it looks for one; cube_spriteTexture awaits its image after
    the checks. *)
Definition gpuCheck (notSupported : string) (b : Browser) : option Failure :=
  if negb (gpu b) then Some (Error notSupported)
  else if negb (adapter b) then Some (Error "No Adapter Found")
  else None.

Definition startupCheck (d : Demo) (b : Browser) : option Failure :=
  match d with
  | cube_canvasTexture =>
      if negb (query b "canvas#webgpu" && query b "canvas#canvas")
      then Some (Error "No Canvas")
      else if negb (ctx2d b) then Some (Error "No support 2d")
      else gpuCheck "Not Support WebGPU" b
  | multisample =>
      if negb (query b "canvas") then Some (Error "No Canvas")
      else gpuCheck "Not Support WebGpu" b
  | deferredRendering => gpuCheck "Not Support WebGPU" b
  | cube_spriteTexture =>
      if negb (query b "canvas") then Some (Error "No Canvas")
      else match gpuCheck "Not Support WebGPU" b with
           | Some e => Some e
           | None => if image b then None else Some (Rejection imageRequest)
           end
  | _ =>
      if negb (query b "canvas") then Some (Error "No Canvas")
      else gpuCheck "Not Support WebGPU" b
  end.

(** The pipelines a script builds while loading. *)
Definition bootPipelines (d : Demo) : list Handle :=
  pipelinesBuilt (events (boot (scriptOf d) fullBrowser)).

(** The pipeline handles a closure has captured. *)
Definition held (d : Demo) : Closure (scriptOf d) -> list Handle :=
  match d return Closure (scriptOf d) -> list Handle with
  | cube => fun cb =>
      match cb with
      | Cube.Frame p _ _ _ _ | Cube.Resize p => [p]
      end
  | multisample => fun cb =>
      match cb with
      | Multisample.Resize p => [p]
      end
  | shadowMapping => fun cb =>
      match cb with
      | ShadowMapping.Frame p _ | ShadowMapping.Resize p _ =>
          [ShadowMapping.shadowPipeline p; ShadowMapping.renderPipeline p]
      end
  | base_lighting => fun cb =>
      match cb with
      | BaseLighting.Frame p _ _ | BaseLighting.Resize p _ => [p]
      end
  | base_lighting2 => fun cb =>
      match cb with
      | BaseLighting2.Frame p _ _ | BaseLighting2.Resize p _ => [p]
      | _ => []
      end
  | cube_canvasTexture => fun cb =>
      match cb with
      | CanvasTexture.Frame p _ _ | CanvasTexture.Resize p _ => [p]
      | _ => []
      end
  | two_cubes => fun cb =>
      match cb with
      | TwoCubes.Frame p _ _ _ _ _ | TwoCubes.Resize p => [p]
      end
  | cube_imageTexture => fun cb =>
      match cb with
      | ImageTexture.Frame p _ _ _ _ _ | ImageTexture.Resize p
      | ImageTexture.Loaded p _ _ _ _ => [p]
      end
  | cube_spriteTexture => fun cb =>
      match cb with
      | SpriteTexture.Frame p _ _ _ | SpriteTexture.Resize p _ => [p]
      end
  | color_triangle => fun cb =>
      match cb with
      | ColorTriangle.ColorInput p | ColorTriangle.Resize p =>
          [ColorTriangle.pipeline p]
      end
  | instanced_cubes => fun cb =>
      match cb with
      | InstancedCubes.Frame p _ _ _ _ | InstancedCubes.Resize p => [p]
      end
  | deferredRendering => fun cb =>
      match cb with
      | Deferred.Frame p _ _ | Deferred.Resize p _ =>
          [Deferred.writeGBuffersPipeline p;
           Deferred.gBuffersDebugViewPipeline p;
           Deferred.deferredRenderingPipeline p;
           Deferred.lightUpdateComputePipeline p]
      | _ => []
      end
  end.

Fixpoint handles_eqb (l1 l2 : list Handle) : bool :=
  match l1, l2 with
  | [], [] => true
  | h1 :: t1, h2 :: t2 => Nat.eqb h1 h2 && handles_eqb t1 t2
  | _, _ => false
  end.

Definition memberOf (l : list Handle) (h : Handle) : bool :=
  existsb (Nat.eqb h) l.

(** A closure is sound when the pipelines it holds are the ones built while
    the script loaded. *)
Definition sound (d : Demo) (cb : Closure (scriptOf d)) : bool :=
  match held d cb with
  | [] => true
  | l => handles_eqb l (bootPipelines d)
  end.

Definition oneBufferOf (d : Demo) (cbs : list CommandBuffer) : bool :=
  match cbs with
  | [c] => Nat.eqb (drawsIn c) (drawsPerSubmit d)
  | _ => false
  end.

(** What a script may do once it has loaded. *)
Definition lawful (d : Demo) (e : Event (Closure (scriptOf d))) : bool :=
  negb (isPipelineBuild e)
  && forallb (memberOf (bootPipelines d)) (pipelinesUsed [e])
  && (allocatesOnResize d || negb (isResourceCreate e))
  && (destroysOnResize d || negb (isDestroy e))
  && match e with
     | Submit cbs => oneBufferOf d cbs
     | RequestAnimationFrame cb => sound d cb && isFrame (scriptOf d) cb
     | AddEventListener t cb =>
         sound d cb && negb (Target_eqb (Window "resize") t)
     | Await _ cb => sound d cb && loadsInDraw d
     | _ => true
     end.

(** A call that allocates nothing, releases nothing and leaves the canvas
    configuration alone. *)
Definition quiet {Cb : Type} (e : Event Cb) : bool :=
  negb (isResourceCreate e) && negb (isDestroy e) && negb (isConfigure e).

(** What one activation of [frame] does: one submit, one re-registration,
    and otherwise quiet calls only. *)
Definition frameLike (d : Demo) (out : list (Event (Closure (scriptOf d))))
  : bool :=
  Nat.eqb (List.length (submitted out)) 1
  && match requested out with
     | [cb] => isFrame (scriptOf d) cb
     | _ => false
     end
  && forallb quiet out.

(** What the resize listener does: reconfigure first (where it does at all),
    then draw again, which submits, starts a frame loop or, in
    cube_imageTexture, waits for the image; whether it allocates and whether
    it destroys is fixed by the script. *)
Definition resizeLike (d : Demo) (out : list (Event (Closure (scriptOf d))))
  : bool :=
  (if reconfiguresOnResize d
   then match out with Configure :: _ => true | _ => false end
   else negb (existsb isConfigure out))
  && (if usesAnimationFrames d
      then if loadsInDraw d
           then Nat.eqb (List.length (awaited out)) 1
                && Nat.eqb (List.length (requested out)) 0
           else Nat.eqb (List.length (requested out)) 1
                && Nat.eqb (List.length (awaited out)) 0
      else Nat.eqb (List.length (submitted out)) 1
           && Nat.eqb (List.length (requested out)) 0
           && Nat.eqb (List.length (awaited out)) 0)
  && Bool.eqb (existsb isResourceCreate out) (allocatesOnResize d)
  && Bool.eqb (existsb isDestroy out) (destroysOnResize d).

(** The page a script has reached after loading and a run of browser
    events, and everything it did on the way. *)
Definition pageAfter (d : Demo) (b : Browser) (es : list External)
  : Page (scriptOf d) :=
  fst (steps (scriptOf d) es (loaded (scriptOf d) b)).

Definition traceAfter (d : Demo) (b : Browser) (es : list External)
  : list (Event (Closure (scriptOf d))) :=
  snd (steps (scriptOf d) es (loaded (scriptOf d) b)).

(** A page is tidy when every closure the browser holds for it is one the
    script may have handed over: [good] ones, and frame callbacks only in
    the animation-frame queue. *)
Definition tidy (P : Script) (good : Closure P -> bool) (pg : Page P) : Prop :=
  Forall (fun cb => good cb = true /\ isFrame P cb = true) (rafQueue pg) /\
  Forall (fun l => good (snd l) = true) (listeners pg) /\
  Forall (fun cb => good cb = true) (awaiting pg).

Definition onResizeTarget {Cb : Type} (l : Target * Cb) : bool :=
  Target_eqb (Window "resize") (fst l).

(** The closures that are the rest of a suspended [draw]. *)
Definition continuationClosure (d : Demo) : Closure (scriptOf d) -> bool :=
  match d return Closure (scriptOf d) -> bool with
  | cube_imageTexture => fun cb =>
      match cb with
      | ImageTexture.Loaded _ _ _ _ _ => true
      | _ => false
      end
  | _ => fun _ => false
  end.

(** The source names of the shader modules each pipeline of a trace is
    built from, looked up among the modules created before it, and the
    number of shader stages each pipeline is given. *)
Definition shaderCode {Cb : Type} (seen : list (Event Cb)) (h : Handle)
  : list string :=
  flat_map (fun e =>
              match e with
              | CreateShaderModule x code => if Nat.eqb x h then [code] else []
              | _ => []
              end) seen.

Fixpoint pipelineShadersFrom {Cb : Type} (seen out : list (Event Cb))
  : list (list string) :=
  match out with
  | [] => []
  | e :: rest =>
      match e with
      | CreateRenderPipeline _ _ vs fs =>
          [shaderCode seen vs
           ++ match fs with Some f => shaderCode seen f | None => [] end]
      | CreateComputePipeline _ _ cs => [shaderCode seen cs]
      | _ => []
      end ++ pipelineShadersFrom (seen ++ [e]) rest
  end.

Definition pipelineShaders {Cb : Type} (out : list (Event Cb))
  : list (list string) :=
  pipelineShadersFrom [] out.

Definition pipelineStages {Cb : Type} (out : list (Event Cb)) : list nat :=
  flat_map (fun e =>
              match e with
              | CreateRenderPipeline _ _ _ (Some _) => [2]
              | CreateRenderPipeline _ _ _ None => [1]
              | CreateComputePipeline _ _ _ => [1]
              | _ => []
              end) out.

(** Every pipeline is built from a vertex and a fragment shader, except the
    depth-only shadow pipeline of shadowMapping and the compute pipeline of
    deferredRendering. *)
Definition stagesOf (d : Demo) : list nat :=
  match d with
  | shadowMapping => [1; 2]
  | deferredRendering => [2; 2; 2; 1]
  | _ => [2]
  end.

Definition registersNothing {Cb : Type} (e : Event Cb) : bool :=
  match e with
  | AddEventListener _ _ => false
  | _ => true
  end.

Definition requestsNoFrame {Cb : Type} (e : Event Cb) : bool :=
  match e with
  | RequestAnimationFrame _ => false
  | _ => true
  end.

(** A submit of shadowMapping's two passes whose second pass, the lit
    scene, has the view [v] as its depth attachment. *)
Definition rendersWithDepth {Cb : Type} (v : Handle) (e : Event Cb) : bool :=
  match e with
  | Submit [[_; RenderPass descriptor _]] =>
      match depthStencilAttachment descriptor with
      | Some x => Nat.eqb x v
      | None => false
      end
  | Submit _ => false
  | _ => true
  end.

(** What a window resize does on a page of shadowMapping: it destroys the
    render depth texture the script holds, creates another one and a view
    of it, keeps these two as the script's render depth texture and view,
    and allocates and destroys nothing else; the frames after it render
    the lit scene with the new view. *)
Definition replacesDepthTexture (pg : Page ShadowMapping.script) : Prop :=
  let g := globals (state pg) in
  let n := next (state pg) in
  let after := step ShadowMapping.script resize pg in
  firstn 3 (snd after)
  = [DestroyTexture (ShadowMapping.renderDepthTexture g);
     CreateTexture n; CreateView (S n) n]
  /\ filter isDestroy (snd after)
     = [DestroyTexture (ShadowMapping.renderDepthTexture g)]
  /\ filter isResourceCreate (snd after) = [CreateTexture n]
  /\ globals (state (fst after))
     = {| ShadowMapping.renderDepthTexture := n;
          ShadowMapping.renderDepthView := S n |}
  /\ forallb (rendersWithDepth (S n))
       (snd (step ShadowMapping.script AnimationFrame (fst after))) = true.

Definition onShadowMapping (d : Demo)
  (Q : Page ShadowMapping.script -> Prop) : Page (scriptOf d) -> Prop :=
  match d return Page (scriptOf d) -> Prop with
  | shadowMapping => Q
  | _ => fun _ => True
  end.

(** A page is native to a history of calls when every closure the browser
    holds for it was [born] of those calls. *)
Definition native (P : Script)
  (born : list (Event (Closure P)) -> Closure P -> Prop)
  (h : list (Event (Closure P))) (pg : Page P) : Prop :=
  Forall (born h) (rafQueue pg)
  /\ Forall (fun l => born h (snd l)) (listeners pg)
  /\ Forall (born h) (awaiting pg).

(** A frame callback of two_cubes is born of the calls [h] when they
    created its uniform buffer with 320 bytes, and its two bind groups on
    bytes [0,64) and [256,320) of that buffer. *)
Definition twoCubesBorn (h : list (Event TwoCubes.Cb)) (cb : TwoCubes.Cb)
  : Prop :=
  match cb with
  | TwoCubes.Frame p vb ub g1 g2 dv =>
      In (CreateBuffer ub (Lit 320)) h
      /\ In (CreateBindGroup g1 p 0 [BindBuffer ub 0 (Some 64%N)]) h
      /\ In (CreateBindGroup g2 p 0 [BindBuffer ub 256 (Some 64%N)]) h
  | TwoCubes.Resize _ => True
  end.

(** What loading a script must leave behind. *)
Definition bootLike (d : Demo) (out : list (Event (Closure (scriptOf d))))
  : bool :=
  handles_eqb (pipelinesBuilt out) (bootPipelines d)
  && forallb (fun cb => sound d cb && isFrame (scriptOf d) cb) (requested out)
  && forallb (fun l => sound d (snd l)) (listened out)
  && forallb (sound d) (awaited out)
  && Nat.eqb (List.length (requested out))
       (if usesAnimationFrames d && negb (loadsInDraw d) then 1 else 0)
  && Nat.eqb (List.length (awaited out)) (if loadsInDraw d then 1 else 0)
  && Nat.eqb (List.length (filter onResizeTarget (listened out))) 1
  && forallb (oneBufferOf d) (submitted out)
  && negb (existsb isDestroy out)
  && handles_eqb (map (@List.length string) (pipelineShaders out))
       (pipelineStages out)
  && handles_eqb (pipelineStages out) (stagesOf d)
  && forallb (continuationClosure d) (awaited out)
  && Nat.eqb (List.length (submitted out))
       (if usesAnimationFrames d
        then match d with
             | cube_canvasTexture | cube_spriteTexture => 1
             | _ => 0
             end
        else 1).

(** The stage a pass is: the pipeline it selects first, and for a compute
    pass the workgroup counts it dispatches. *)
Inductive Stage :=
| RenderWith (pipeline : Handle)
| ComputeWith (pipeline : Handle) (workgroups : list N).

Definition dispatches (cs : list PassCmd) : list N :=
  flat_map (fun c => match c with DispatchWorkgroups n => [n] | _ => [] end) cs.

Definition stageOf (p : Pass) : option Stage :=
  match p with
  | RenderPass _ (SetPipeline h :: _) => Some (RenderWith h)
  | ComputePass (SetPipeline h :: cs) => Some (ComputeWith h (dispatches cs))
  | _ => None
  end.

(** The shape of a deferred-rendering frame on a loaded page, where the
    four pipelines have the handles 2, 8, 12 and 14: G-buffer write, light
    update on 16 workgroups, then debug view or deferred rendering. *)
Definition deferredStages (c : CommandBuffer) : bool :=
  match map stageOf c with
  | [Some (RenderWith 2); Some (ComputeWith 14 [16%N]); Some (RenderWith h)] =>
      Nat.eqb h 8 || Nat.eqb h 12
  | _ => false
  end.

Definition deferredSubmit (e : Event Deferred.Cb) : bool :=
  match e with
  | Submit [c] => deferredStages c
  | Submit _ => false
  | _ => true
  end.

(** A page with WebGPU but no adapter to hand out. *)
Definition noAdapterBrowser : Browser :=
  {| query := fun _ => true; gpu := true; adapter := false; ctx2d := true;
     image := true |}.

(** A zero-filled 320-byte uniform buffer and two 16-float matrices, to run
    the two_cubes uploads on. *)
Definition sampleUniformBuffer : Memory.Bytes := Memory.createBuffer 320.

Definition sampleMatrix (fill : Byte.byte) : Memory.TypedArray :=
  {| Memory.buffer := repeat fill 64; Memory.byteOffset := 0;
     Memory.byteLength := 64 |}.


(** ** More of what the scripts do: what it is stated with *)

Definition isResize (e : External) : bool :=
  match e with
  | Dispatch t _ => Target_eqb (Window "resize") t
  | _ => false
  end.

(** How many window resizes a run of browser events contains. *)
Definition resizes (es : list External) : nat :=
  List.length (filter isResize es).

(** The browser rejects a promise. *)
Definition isRejection (e : External) : bool :=
  match e with
  | Settle _ fulfilled => negb fulfilled
  | _ => false
  end.

(** The closures that are activations of a script's resize listener. *)
Definition resizeClosure (d : Demo) : Closure (scriptOf d) -> bool :=
  match d return Closure (scriptOf d) -> bool with
  | cube => fun cb =>
      match cb with Cube.Resize _ => true | _ => false end
  | multisample => fun cb =>
      match cb with Multisample.Resize _ => true end
  | shadowMapping => fun cb =>
      match cb with ShadowMapping.Resize _ _ => true | _ => false end
  | base_lighting => fun cb =>
      match cb with BaseLighting.Resize _ _ => true | _ => false end
  | base_lighting2 => fun cb =>
      match cb with BaseLighting2.Resize _ _ => true | _ => false end
  | cube_canvasTexture => fun cb =>
      match cb with CanvasTexture.Resize _ _ => true | _ => false end
  | two_cubes => fun cb =>
      match cb with TwoCubes.Resize _ => true | _ => false end
  | cube_imageTexture => fun cb =>
      match cb with ImageTexture.Resize _ => true | _ => false end
  | cube_spriteTexture => fun cb =>
      match cb with SpriteTexture.Resize _ _ => true | _ => false end
  | color_triangle => fun cb =>
      match cb with ColorTriangle.Resize _ => true | _ => false end
  | instanced_cubes => fun cb =>
      match cb with InstancedCubes.Resize _ => true | _ => false end
  | deferredRendering => fun cb =>
      match cb with Deferred.Resize _ _ => true | _ => false end
  end.

(** A listener is in its place when it listens for window resizes exactly
    if it is a resize closure, and is neither a frame callback nor the rest
    of a suspended function. *)
Definition inPlace (d : Demo) (l : Target * Closure (scriptOf d)) : bool :=
  Bool.eqb (resizeClosure d (snd l)) (Target_eqb (Window "resize") (fst l))
  && negb (isFrame (scriptOf d) (snd l))
  && negb (continuationClosure d (snd l)).

(** How many closures a piece of script code hands the browser to call
    later on its own: frame callbacks and continuations. *)
Definition handedOver {P : Script} (out : list (Event (Closure P))) : nat :=
  List.length (requested out) + List.length (awaited out).

(** The frame loops of a page: those running and those about to start. *)
Definition loops {P : Script} (pg : Page P) : nat :=
  List.length (rafQueue pg) + List.length (awaiting pg).

(** How many times a trace writes into the buffer [b]. *)
Definition uploadsTo {Cb : Type} (b : Handle) (out : list (Event Cb)) : nat :=
  List.length
    (filter (fun e => match e with
                      | WriteBuffer x _ _ => Nat.eqb x b
                      | _ => false
                      end) out).

(** What a closure hands over when the browser calls it: a frame callback
    itself, a continuation the frame callback it starts, the resize
    listener one more frame loop where the script has loops, any other
    listener nothing. *)
Definition handsOver (d : Demo) (cb : Closure (scriptOf d)) : nat :=
  if isFrame (scriptOf d) cb || continuationClosure d cb then 1
  else if resizeClosure d cb && usesAnimationFrames d then 1
  else 0.

(** The objects cube_spriteTexture holds once it has loaded. *)
Definition spriteResources : SpriteTexture.Resources :=
  {| SpriteTexture.verticesBuffer := 3;
     SpriteTexture.depthTexture := 4;
     SpriteTexture.uniformBuffer := 5;
     SpriteTexture.uniformGroup := 6;
     SpriteTexture.textureGroup := 11;
     SpriteTexture.uvBuffer := 9 |}.

(** The pipeline of the third pass of a submitted command buffer. *)
Definition thirdPassUses {Cb : Type} (h : Handle) (e : Event Cb) : bool :=
  match e with
  | Submit [c] =>
      match map stageOf c with
      | [_; _; Some (RenderWith x)] => Nat.eqb x h
      | _ => false
      end
  | Submit _ => false
  | _ => true
  end.

(** How many listeners a trace registers for the events of [t]. *)
Definition registrations {P : Script} (t : Target)
  (out : list (Event (Closure P))) : nat :=
  List.length (filter (fun l => Target_eqb t (fst l)) (listened out)).

(** The two sliders of base_lighting2. *)
Definition ambientSlider : Target := Element "#ambientIntensity" "input".
Definition radiusSlider : Target := Element "#pointLightRadius" "input".
(** ** Proofs *)

(** *** Sample runs *)

Example cube_loads :
  events (boot Cube.script fullBrowser)
  = [RequestAdapter; RequestDevice; Configure;
     CreateShaderModule 0 "cube/cube.vert.wgsl";
     CreateShaderModule 1 "cube/cube.frag.wgsl";
     CreateRenderPipeline 2 None 0 (Some 1);
     CreateBuffer 3 (Ext "cubeVertexArray.byteLength");
     CreateTexture 4;
     CreateBuffer 5 (Lit 64);
     CreateBindGroup 6 2 0 [BindBuffer 5 0 None];
     CurrentTextureView 7;
     CreateView 8 4;
     RequestAnimationFrame (Cube.Frame 2 3 5 6 8);
     AddEventListener (Window "resize") (Cube.Resize 2)].
Proof. vm_compute. reflexivity. Qed.

Example cube_first_frame :
  snd (step Cube.script AnimationFrame (loaded Cube.script fullBrowser))
  = [WriteBuffer 5 0 (Lit 64);
     CurrentTextureView 9;
     Submit [[RenderPass
                {| colorAttachments :=
                     [{| view := 9; resolveTarget := None |}];
                   depthStencilAttachment := Some 8 |}
                [SetPipeline 2; SetBindGroup 0 6; SetVertexBuffer 0 3;
                 Draw (Ext "cubeVertexCount") 1]]];
     RequestAnimationFrame (Cube.Frame 2 3 5 6 8)].
Proof. vm_compute. reflexivity. Qed.

(** After a resize two frame loops run side by side. *)
Example cube_loops_after_resize :
  List.length (rafQueue (pageAfter cube fullBrowser [resize])) = 2
  /\ List.length
       (submitted (snd (step Cube.script AnimationFrame
                          (pageAfter cube fullBrowser [resize])))) = 2.
Proof. split; vm_compute; reflexivity. Qed.

Example no_canvas_no_calls :
  boot Cube.script
    {| query := fun _ => false; gpu := true; adapter := true; ctx2d := true;
       image := true |}
  = Throw (Error "No Canvas")
      {| browser :=
           {| query := fun _ => false; gpu := true; adapter := true;
              ctx2d := true; image := true |};
         next := 0; globals := tt |} [].
Proof. reflexivity. Qed.

Example workgroups :
  Deferred.Math_ceil_div 1024 64 = 16%N
  /\ Deferred.Math_ceil_div 1025 64 = 17%N
  /\ Deferred.Math_ceil_div 1 64 = 1%N.
Proof. repeat split; reflexivity. Qed.

(** Switching the GUI to the G-buffers view changes the third pass of the
    next frame. *)
Example deferred_third_pass :
  map (map (map stageOf))
    (submitted
       (snd (steps Deferred.script
               [AnimationFrame; Dispatch (Gui "mode") (PStr "gBuffers view");
                AnimationFrame]
               (loaded Deferred.script fullBrowser))))
  = [[[Some (RenderWith 2); Some (ComputeWith 14 [16%N]); Some (RenderWith 12)]];
     [[Some (RenderWith 2); Some (ComputeWith 14 [16%N]); Some (RenderWith 8)]]].
Proof. vm_compute. reflexivity. Qed.

(** The checkerboard at two fragments of neighbouring squares. *)
Example checkerboard_samples :
  WriteGBuffersFrag.r
    (WriteGBuffersFrag.albedo
       (WriteGBuffersFrag.main
          {| WriteGBuffersFrag.x := F32.lit 0; WriteGBuffersFrag.y := F32.lit 1;
             WriteGBuffersFrag.z := F32.lit 0 |}
          {| WriteGBuffersFrag.x2 := F32.lit (1 # 10);
             WriteGBuffersFrag.y2 := F32.lit 0 |}))
  = F32.lit (7 # 10)
  /\ WriteGBuffersFrag.r
       (WriteGBuffersFrag.albedo
          (WriteGBuffersFrag.main
             {| WriteGBuffersFrag.x := F32.lit 0;
                WriteGBuffersFrag.y := F32.lit 1;
                WriteGBuffersFrag.z := F32.lit 0 |}
             {| WriteGBuffersFrag.x2 := F32.lit (1 # 10);
                WriteGBuffersFrag.y2 := F32.lit ((-1) # 100) |}))
     = F32.lit (2 # 10).
Proof. split; vm_compute; reflexivity. Qed.

(** The product [30.0 * fragUV.x] is rounded before [floor] is taken: at
    the binary32 number of 0.7 it is 21 although the exact product lies
    below 21. *)
Example checkerboard_rounded_product :
  let u := F32.lit (7 # 10) in
  u = F32.Finite (11744051 # 16777216)
  /\ Qfloor (30 * (11744051 # 16777216)) = 20%Z
  /\ F32.fmul (F32.lit 30) u = F32.Finite 21
  /\ WriteGBuffersFrag.r
       (WriteGBuffersFrag.albedo
          (WriteGBuffersFrag.main
             {| WriteGBuffersFrag.x := F32.lit 0;
                WriteGBuffersFrag.y := F32.lit 1;
                WriteGBuffersFrag.z := F32.lit 0 |}
             {| WriteGBuffersFrag.x2 := u; WriteGBuffersFrag.y2 := F32.lit 0 |}))
     = F32.lit (7 # 10).
Proof. repeat split; vm_compute; reflexivity. Qed.

(** Where [30.0 * fragUV.x] overflows, the colour is not a number. *)
Example checkerboard_overflow :
  F32.isBinary32 (F32.Finite (inject_Z (2 ^ 127))) = true
  /\ F32.fmul (F32.lit 30) (F32.Finite (inject_Z (2 ^ 127)))
     = F32.Infinity false
  /\ WriteGBuffersFrag.r
       (WriteGBuffersFrag.albedo
          (WriteGBuffersFrag.main
             {| WriteGBuffersFrag.x := F32.lit 0;
                WriteGBuffersFrag.y := F32.lit 1;
                WriteGBuffersFrag.z := F32.lit 0 |}
             {| WriteGBuffersFrag.x2 := F32.Finite (inject_Z (2 ^ 127));
                WriteGBuffersFrag.y2 := F32.lit 0 |}))
     = F32.NaN.
Proof. repeat split; vm_compute; reflexivity. Qed.

(** Rounding to binary32: to the nearest number, the even one of two, and
    to an infinity from the middle of the last gap on. *)
Example round_samples :
  F32.lit (2 # 10) = F32.Finite (13421773 # 67108864)
  /\ F32.lit (7 # 10) = F32.Finite (11744051 # 16777216)
  /\ F32.fadd (F32.lit (2 # 10)) (F32.lit (5 # 10)) = F32.lit (7 # 10)
  /\ F32.round (inject_Z (2 ^ 24 + 1)) = F32.Finite (inject_Z (2 ^ 24))
  /\ F32.round (inject_Z (2 ^ 24 + 3)) = F32.Finite (inject_Z (2 ^ 24 + 4))
  /\ F32.round (inject_Z (2 ^ 128 - 2 ^ 103 - 1))
     = F32.Finite (inject_Z (2 ^ 128 - 2 ^ 104))
  /\ F32.round (inject_Z (2 ^ 128 - 2 ^ 103)) = F32.Infinity false
  /\ F32.round (1 # 2 ^ 150) = F32.Finite 0
  /\ F32.round (3 # 2 ^ 150) = F32.Finite (1 # 2 ^ 148)
  /\ F32.fdiv (F32.lit 0) (F32.lit 0) = F32.NaN
  /\ F32.fdiv (F32.lit 1) (F32.lit 3) = F32.Finite (11184811 # 33554432).
Proof. repeat split; vm_compute; reflexivity. Qed.

(** At the light's own position [normalize] divides zero by zero, and the
    colour is not a number. *)
Example lighting_at_the_light :
  BaseLighting2Frag.main BaseLighting2Frag.alongX (F32.lit (1 # 2))
    ({| BaseLighting2Frag.r := F32.lit 0; BaseLighting2Frag.g := F32.lit 0;
        BaseLighting2Frag.b := F32.lit 0; BaseLighting2Frag.a := F32.lit 1 |},
     {| BaseLighting2Frag.r := F32.lit 1; BaseLighting2Frag.g := F32.lit 2;
        BaseLighting2Frag.b := F32.lit 0; BaseLighting2Frag.a := F32.lit 0 |})
    {| BaseLighting2Frag.x := F32.lit 0; BaseLighting2Frag.y := F32.lit 0;
       BaseLighting2Frag.z := F32.lit 0 |}
    {| BaseLighting2Frag.x := F32.lit 1; BaseLighting2Frag.y := F32.lit 0;
       BaseLighting2Frag.z := F32.lit 0 |}
    (F32.lit 0, F32.lit 0)
    {| BaseLighting2Frag.r := F32.lit 1; BaseLighting2Frag.g := F32.lit 0;
       BaseLighting2Frag.b := F32.lit 0; BaseLighting2Frag.a := F32.lit 1 |}
  = {| BaseLighting2Frag.r := F32.NaN; BaseLighting2Frag.g := F32.NaN;
       BaseLighting2Frag.b := F32.NaN; BaseLighting2Frag.a := F32.Finite 1 |}.
Proof. vm_compute. reflexivity. Qed.

Example write_past_the_end :
  Memory.writeBuffer (Memory.createBuffer 320) 288
    (Memory.buffer (sampleMatrix Byte.x01)) 0 64 = None.
Proof. reflexivity. Qed.

(** *** The event loop preserves what every callback preserves *)

Section Discipline.

Variable P : Script.
Variable good : Closure P -> bool.
Variable allowed : Event (Closure P) -> bool.

Hypothesis allowed_frame : forall cb,
  allowed (RequestAnimationFrame cb) = true ->
  good cb = true /\ isFrame P cb = true.

Hypothesis allowed_listener : forall t cb,
  allowed (AddEventListener t cb) = true ->
  good cb = true /\ Target_eqb (Window "resize") t = false.

Hypothesis allowed_await : forall w cb,
  allowed (Await w cb) = true -> good cb = true.

Hypothesis invoke_allowed : forall cb p s,
  good cb = true -> forallb allowed (events (invoke P cb p s)) = true.

Hypothesis frame_once : forall cb p s,
  isFrame P cb = true ->
  List.length (requested (events (invoke P cb p s))) = 1 /\
  List.length (submitted (events (invoke P cb p s))) = 1.

Lemma requested_allowed out :
  forallb allowed out = true ->
  Forall (fun cb => good cb = true /\ isFrame P cb = true) (requested out).
Proof.
  induction out as [|e out IH]; simpl; intros H; [constructor|].
  apply andb_prop in H. destruct H as [He Hout].
  apply Forall_app. split; [|now apply IH].
  destruct e; try constructor; auto.
Qed.

Lemma awaited_allowed out :
  forallb allowed out = true ->
  Forall (fun cb => good cb = true) (awaited out).
Proof.
  induction out as [|e out IH]; simpl; intros H; [constructor|].
  apply andb_prop in H. destruct H as [He Hout].
  apply Forall_app. split; [|now apply IH].
  destruct e; try constructor; auto.
  now apply allowed_await in He.
Qed.

Lemma listened_allowed out :
  forallb allowed out = true ->
  Forall (fun l => good (snd l) = true) (listened out) /\
  filter onResizeTarget (listened out) = [].
Proof.
  induction out as [|e out IH]; simpl; intros H; [split; constructor|].
  apply andb_prop in H. destruct H as [He Hout].
  destruct (IH Hout) as [IH1 IH2].
  rewrite filter_app, IH2, app_nil_r.
  split.
  - apply Forall_app. split; [|assumption].
    destruct e; try constructor; auto.
    now apply allowed_listener in He.
  - destruct e; try reflexivity.
    apply allowed_listener in He. destruct He as [_ He].
    cbn [listened flat_map app filter]. unfold onResizeTarget.
    cbn [fst]. now rewrite He.
Qed.

Lemma listening_absorb {A} (o : Outcome (Globals P) (Closure P) A) pg :
  forallb allowed (events o) = true ->
  listening P (Window "resize") (absorb P o pg)
  = listening P (Window "resize") pg.
Proof.
  intros H. unfold listening, absorb. cbn [listeners].
  rewrite filter_app.
  destruct (listened_allowed _ H) as [_ E].
  unfold onResizeTarget in E. rewrite E. now rewrite app_nil_r.
Qed.

Lemma tidy_absorb {A} (o : Outcome (Globals P) (Closure P) A) pg :
  tidy P good pg ->
  forallb allowed (events o) = true ->
  tidy P good (absorb P o pg).
Proof.
  intros (Hq & Hl & Ha) H.
  split; [|split]; simpl; apply Forall_app; split; auto.
  - now apply requested_allowed.
  - now apply listened_allowed.
  - now apply awaited_allowed.
Qed.

Lemma callAll_tidy cbs p : forall pg,
  Forall (fun cb => good cb = true) cbs ->
  tidy P good pg ->
  tidy P good (fst (callAll P cbs p pg)) /\
  forallb allowed (snd (callAll P cbs p pg)) = true /\
  listening P (Window "resize") (fst (callAll P cbs p pg))
  = listening P (Window "resize") pg.
Proof.
  induction cbs as [|cb rest IH]; intros pg Hc Ht; simpl.
  - auto.
  - inversion Hc as [|? ? Hcb Hrest]; subst.
    pose proof (invoke_allowed cb p (state pg) Hcb) as Ho.
    specialize (IH (absorb P (invoke P cb p (state pg)) pg) Hrest
                  (tidy_absorb _ _ Ht Ho)).
    destruct (callAll P rest p (absorb P (invoke P cb p (state pg)) pg))
      as [pg2 o2] eqn:E.
    simpl in *. destruct IH as (I1 & I2 & I3).
    repeat split; try apply I1.
    + rewrite forallb_app, Ho, I2. reflexivity.
    + rewrite I3. now apply listening_absorb.
Qed.

Lemma callAll_frames cbs p : forall pg,
  Forall (fun cb => isFrame P cb = true) cbs ->
  List.length (rafQueue (fst (callAll P cbs p pg)))
  = List.length (rafQueue pg) + List.length cbs /\
  List.length (submitted (snd (callAll P cbs p pg))) = List.length cbs.
Proof.
  induction cbs as [|cb rest IH]; intros pg Hc; simpl.
  - split; [lia | reflexivity].
  - inversion Hc as [|? ? Hcb Hrest]; subst.
    destruct (frame_once cb p (state pg) Hcb) as [F1 F2].
    specialize (IH (absorb P (invoke P cb p (state pg)) pg) Hrest).
    destruct (callAll P rest p (absorb P (invoke P cb p (state pg)) pg))
      as [pg2 o2] eqn:E.
    simpl in *. destruct IH as [I1 I2].
    rewrite length_app, F1 in I1.
    unfold submitted in *. rewrite flat_map_app, length_app, F2, I2.
    split; lia.
Qed.

Lemma callAll_grows cbs p : forall pg,
  List.length (rafQueue pg)
  <= List.length (rafQueue (fst (callAll P cbs p pg))).
Proof.
  induction cbs as [|cb rest IH]; intros pg; simpl.
  - lia.
  - specialize (IH (absorb P (invoke P cb p (state pg)) pg)).
    destruct (callAll P rest p (absorb P (invoke P cb p (state pg)) pg))
      as [pg2 o2] eqn:E.
    simpl in *. rewrite length_app in IH. lia.
Qed.

Lemma listening_good t pg :
  tidy P good pg -> Forall (fun cb => good cb = true) (listening P t pg).
Proof.
  intros (_ & Hl & _). unfold listening.
  induction (listeners pg) as [|l ls IH]; simpl; [constructor|].
  inversion Hl; subst.
  destruct (Target_eqb t (fst l)); simpl; auto.
Qed.

Lemma Forall_without {A} (Q : A -> Prop) l : forall i,
  Forall Q l -> Forall Q (without i l).
Proof.
  induction l as [|x l IH]; intros i H; [destruct i; constructor|].
  inversion H; subst. destruct i; simpl; auto.
Qed.

Lemma step_tidy e pg :
  tidy P good pg ->
  tidy P good (fst (step P e pg)) /\
  forallb allowed (snd (step P e pg)) = true /\
  listening P (Window "resize") (fst (step P e pg))
  = listening P (Window "resize") pg /\
  List.length (rafQueue pg) <= List.length (rafQueue (fst (step P e pg))).
Proof.
  intros Ht. destruct e as [|t p|i ok]; simpl.
  - set (pg0 := {| state := state pg; rafQueue := [];
                   listeners := listeners pg; awaiting := awaiting pg |}).
    assert (Ht0 : tidy P good pg0).
    { destruct Ht as (_ & Hl & Ha). split; [constructor | split; assumption]. }
    assert (Hg : Forall (fun cb => good cb = true) (rafQueue pg)).
    { destruct Ht as [Hq _]. eapply Forall_impl; [|exact Hq].
      intros cb [H _]; exact H. }
    assert (Hf : Forall (fun cb => isFrame P cb = true) (rafQueue pg)).
    { destruct Ht as [Hq _]. eapply Forall_impl; [|exact Hq].
      intros cb [_ H]; exact H. }
    destruct (callAll_tidy (rafQueue pg) PNone pg0 Hg Ht0) as (T1 & T2 & T3).
    destruct (callAll_frames (rafQueue pg) PNone pg0 Hf) as [F1 _].
    repeat split; try apply T1; auto.
    simpl in F1. lia.
  - destruct (callAll_tidy (listening P t pg) p pg (listening_good t pg Ht) Ht)
      as (T1 & T2 & T3).
    repeat split; try apply T1; auto.
    apply callAll_grows.
  - destruct (nth_error (awaiting pg) i) as [k|] eqn:E;
      [|repeat split; try apply Ht; auto].
    set (pg1 := {| state := state pg; rafQueue := rafQueue pg;
                   listeners := listeners pg;
                   awaiting := without i (awaiting pg) |}).
    assert (Ht1 : tidy P good pg1).
    { destruct Ht as (Hq & Hl & Ha).
      split; [exact Hq | split; [exact Hl |]].
      now apply Forall_without. }
    destruct ok; [|repeat split; try apply Ht1; auto].
    assert (Hk : Forall (fun cb => good cb = true) [k]).
    { constructor; [|constructor].
      destruct Ht as (_ & _ & Ha). rewrite Forall_forall in Ha.
      apply Ha. eapply nth_error_In. exact E. }
    destruct (callAll_tidy [k] PNone pg1 Hk Ht1) as (T1 & T2 & T3).
    repeat split; try apply T1; auto.
    apply (callAll_grows [k] PNone pg1).
Qed.

Lemma steps_tidy es : forall pg,
  tidy P good pg ->
  tidy P good (fst (steps P es pg)) /\
  forallb allowed (snd (steps P es pg)) = true /\
  listening P (Window "resize") (fst (steps P es pg))
  = listening P (Window "resize") pg /\
  List.length (rafQueue pg) <= List.length (rafQueue (fst (steps P es pg))).
Proof.
  induction es as [|e rest IH]; intros pg Ht; simpl.
  - repeat split; try apply Ht; auto.
  - destruct (step_tidy e pg Ht) as (S1 & S2 & S3 & S4).
    destruct (step P e pg) as [pg1 o1] eqn:E1. simpl in *.
    destruct (IH pg1 S1) as (I1 & I2 & I3 & I4).
    destruct (steps P rest pg1) as [pg2 o2] eqn:E2. simpl in *.
    repeat split; try apply I1.
    + rewrite forallb_app, S2, I2. reflexivity.
    + congruence.
    + lia.
Qed.

(** One animation frame: every queued callback runs, submits once and
    queues itself again. *)
Lemma frame_step pg :
  tidy P good pg ->
  List.length (rafQueue (fst (step P AnimationFrame pg)))
  = List.length (rafQueue pg) /\
  List.length (submitted (snd (step P AnimationFrame pg)))
  = List.length (rafQueue pg).
Proof.
  intros [Hq _]. simpl.
  assert (Hf : Forall (fun cb => isFrame P cb = true) (rafQueue pg)).
  { eapply Forall_impl; [|exact Hq]. intros cb [_ H]; exact H. }
  destruct (callAll_frames (rafQueue pg) PNone
              {| state := state pg; rafQueue := [];
                 listeners := listeners pg; awaiting := awaiting pg |} Hf)
    as [F1 F2].
  simpl in F1. split; [lia | exact F2].
Qed.

End Discipline.

(** *** What every closure of every script does *)

Lemma handles_eqb_eq l1 l2 : handles_eqb l1 l2 = true -> l1 = l2.
Proof.
  revert l2; induction l1 as [|h t IH]; intros [|h2 t2]; simpl;
    try discriminate; auto.
  intros H. apply andb_prop in H. destruct H as [H1 H2].
  apply Nat.eqb_eq in H1. subst. f_equal. auto.
Qed.

Lemma sound_held d cb :
  sound d cb = true -> held d cb = [] \/ held d cb = bootPipelines d.
Proof.
  unfold sound. destruct (held d cb) eqn:E; auto.
  intros H. right. now apply handles_eqb_eq.
Qed.

Ltac open_records :=
  repeat match goal with
         | x : ShadowMapping.Pipelines |- _ => destruct x
         | x : Deferred.Pipelines |- _ => destruct x
         | x : Deferred.Resources |- _ =>
             destruct x as [? ? ? ? ? [[? ?] ?] ? ? ? ? ? ? ? ? ?]
         | x : ColorTriangle.PipelineObj |- _ => destruct x
         end.

(** Turn soundness of a closure into the values of the handles it holds. *)
Ltac pin H :=
  apply sound_held in H; destruct H as [H|H];
  [ try discriminate H
  | vm_compute in H; try discriminate H; injection H as H; intros; subst ].

Ltac open_state s :=
  let q := fresh "q" in
  destruct s as [[q ? ? ?] ? ?].

(** Compute, splitting on the few tests that depend on the page: an optional
    element, the display mode, the frame counter. *)
Ltac crunch :=
  cbv -[String.eqb Nat.eqb Nat.modulo];
  repeat match goal with
         | |- context [String.eqb ?a ?b] => is_var a; destruct (String.eqb a b)
         | |- context [Nat.eqb (Nat.modulo ?a ?b) 0] =>
             destruct (Nat.eqb (Nat.modulo a b) 0)
         | q : string -> bool |- context [?f ?sel] =>
             constr_eq f q; destruct (q sel)
         end;
  reflexivity.

Ltac settle p s :=
  first
    [ reflexivity
    | destruct p; reflexivity
    | open_state s;
      try match goal with g : Globals _ |- _ => destruct g end;
      first [ crunch | destruct p; crunch ] ].

Lemma invoke_lawful d cb p s :
  sound d cb = true ->
  forallb (lawful d) (events (invoke (scriptOf d) cb p s)) = true.
Proof.
  intros H. destruct d; destruct cb; open_records; pin H; settle p s.
Qed.

Lemma invoke_frameLike d cb p s :
  isFrame (scriptOf d) cb = true ->
  frameLike d (events (invoke (scriptOf d) cb p s)) = true.
Proof.
  intros H. destruct d; destruct cb; try discriminate H; open_records;
    settle p s.
Qed.

Lemma invoke_returns d cb p s : thrown (invoke (scriptOf d) cb p s) = None.
Proof.
  destruct d; destruct cb; open_records; settle p s.
Qed.

Lemma lawful_frame d cb :
  lawful d (RequestAnimationFrame cb) = true ->
  sound d cb = true /\ isFrame (scriptOf d) cb = true.
Proof.
  unfold lawful. intros H.
  apply andb_prop in H. destruct H as [_ H].
  now apply andb_prop in H.
Qed.

Lemma lawful_await d w cb :
  lawful d (Await w cb) = true -> sound d cb = true.
Proof.
  unfold lawful. intros H.
  apply andb_prop in H. destruct H as [_ H].
  now apply andb_prop in H.
Qed.

Lemma lawful_listener d t cb :
  lawful d (AddEventListener t cb) = true ->
  sound d cb = true /\ Target_eqb (Window "resize") t = false.
Proof.
  unfold lawful. intros H.
  apply andb_prop in H. destruct H as [_ H].
  apply andb_prop in H. destruct H as [H1 H2].
  split; [assumption|]. now apply negb_true_iff in H2.
Qed.

Lemma frame_once_all d cb p s :
  isFrame (scriptOf d) cb = true ->
  List.length (requested (events (invoke (scriptOf d) cb p s))) = 1 /\
  List.length (submitted (events (invoke (scriptOf d) cb p s))) = 1.
Proof.
  intros H. pose proof (invoke_frameLike d cb p s H) as F.
  unfold frameLike in F.
  apply andb_prop in F. destruct F as [F _].
  apply andb_prop in F. destruct F as [F1 F2].
  apply Nat.eqb_eq in F1.
  destruct (requested (events (invoke (scriptOf d) cb p s))) as [|? [|]];
    try discriminate F2. auto.
Qed.

(** *** Loading a script *)

(** Evaluate the string comparisons between two literals. *)
Ltac closed_tests :=
  repeat match goal with
         | |- context [String.eqb ?a ?b] =>
             let v := eval vm_compute in (String.eqb a b) in
             match v with true => idtac | false => idtac end;
             change (String.eqb a b) with v
         end;
  cbv -[String.eqb Nat.eqb].

Ltac closed_tests_in H :=
  repeat match type of H with
         | context [String.eqb ?a ?b] =>
             let v := eval vm_compute in (String.eqb a b) in
             match v with true => idtac | false => idtac end;
             change (String.eqb a b) with v in H
         end.

Ltac decide_flags H q :=
  repeat (lazy -[String.eqb] in H; closed_tests_in H; lazy -[String.eqb] in H;
          match type of H with
          | context [?f ?sel] => constr_eq f q; destruct (q sel) eqn:?
          | context [if ?x then _ else _] => is_var x; destruct x
          | context [if negb ?x then _ else _] => is_var x; destruct x
          end; try discriminate H).

Ltac use_flags q :=
  repeat match goal with
         | E : q ?sel = _ |- context [?f ?sel] => constr_eq f q; rewrite E
         end;
  repeat match goal with
         | |- context [?f ?sel] => constr_eq f q; destruct (q sel)
         end.

Ltac boot_cases d b :=
  let q := fresh "q" in
  destruct b as [q [|] [|] [|] [|]]; destruct d;
  cbv -[String.eqb Nat.eqb]; closed_tests; use_flags q.

Lemma boot_thrown d b : thrown (boot (scriptOf d) b) = startupCheck d b.
Proof. boot_cases d b; reflexivity. Qed.

(** An explicit [throw] comes before any GPU object is created. *)
Lemma boot_error_creates_nothing d b msg :
  thrown (boot (scriptOf d) b) = Some (Error msg) ->
  forallb (fun e => negb (isCreate e)) (events (boot (scriptOf d) b)) = true.
Proof. boot_cases d b; try reflexivity; intros H; discriminate H. Qed.

Lemma boot_bootLike d b :
  thrown (boot (scriptOf d) b) = None ->
  bootLike d (events (boot (scriptOf d) b)) = true.
Proof.
  intros H. destruct b as [q g a c i].
  destruct d; decide_flags H q.
  all: cbv -[String.eqb Nat.eqb]; closed_tests; use_flags q; reflexivity.
Qed.

Lemma loaded_queue d b :
  rafQueue (loaded (scriptOf d) b) = requested (events (boot (scriptOf d) b)).
Proof. reflexivity. Qed.

Lemma loaded_listeners d b :
  listeners (loaded (scriptOf d) b) = listened (events (boot (scriptOf d) b)).
Proof. reflexivity. Qed.

Lemma loaded_awaiting d b :
  awaiting (loaded (scriptOf d) b) = awaited (events (boot (scriptOf d) b)).
Proof. reflexivity. Qed.

Lemma loaded_tidy d b :
  thrown (boot (scriptOf d) b) = None ->
  tidy (scriptOf d) (sound d) (loaded (scriptOf d) b).
Proof.
  intros H. apply boot_bootLike in H. unfold bootLike in H.
  repeat (apply andb_prop in H; destruct H as [H ?]).
  split; [|split].
  - rewrite loaded_queue. apply Forall_forall. intros cb Hin.
    match goal with
    | F : forallb _ (requested _) = true |- _ =>
        rewrite forallb_forall in F; specialize (F cb Hin);
        now apply andb_prop in F
    end.
  - rewrite loaded_listeners. apply Forall_forall. intros l Hin.
    match goal with
    | F : forallb _ (listened _) = true |- _ =>
        rewrite forallb_forall in F; exact (F l Hin)
    end.
  - rewrite loaded_awaiting. apply Forall_forall. intros cb Hin.
    match goal with
    | F : forallb _ (awaited _) = true |- _ =>
        rewrite forallb_forall in F; exact (F cb Hin)
    end.
Qed.

Lemma loaded_queue_length d b :
  thrown (boot (scriptOf d) b) = None ->
  List.length (rafQueue (loaded (scriptOf d) b))
  = if usesAnimationFrames d && negb (loadsInDraw d) then 1 else 0.
Proof.
  intros H. apply boot_bootLike in H. unfold bootLike in H.
  repeat (apply andb_prop in H; destruct H as [H ?]).
  rewrite loaded_queue.
  match goal with
  | F : Nat.eqb (List.length (requested _)) _ = true |- _ =>
      now apply Nat.eqb_eq in F
  end.
Qed.

(** Everything a loaded script goes on to do is lawful, whatever the browser
    sends it. *)
Lemma after_loading d b es :
  thrown (boot (scriptOf d) b) = None ->
  tidy (scriptOf d) (sound d) (pageAfter d b es) /\
  forallb (lawful d) (traceAfter d b es) = true /\
  listening (scriptOf d) (Window "resize") (pageAfter d b es)
  = listening (scriptOf d) (Window "resize") (loaded (scriptOf d) b) /\
  List.length (rafQueue (loaded (scriptOf d) b))
  <= List.length (rafQueue (pageAfter d b es)).
Proof.
  intros H. unfold pageAfter, traceAfter.
  apply (steps_tidy (scriptOf d) (sound d) (lawful d)).
  - apply lawful_frame.
  - apply lawful_listener.
  - apply lawful_await.
  - apply invoke_lawful.
  - apply frame_once_all.
  - now apply loaded_tidy.
Qed.

Lemma forallb_weaken {A} (f g : A -> bool) l :
  (forall x, f x = true -> g x = true) ->
  forallb f l = true -> forallb g l = true.
Proof.
  intros Hfg. rewrite !forallb_forall. auto.
Qed.

Lemma Forall_forallb {A} (Q : A -> Prop) (f : A -> bool) l :
  (forall x, Q x -> f x = true) -> Forall Q l -> forallb f l = true.
Proof.
  intros HQ H. induction H; simpl; [reflexivity|].
  rewrite HQ, IHForall; auto.
Qed.

Lemma callAll_events (P : Script) (Q : Event (Closure P) -> bool)
  (C : Closure P -> Prop) :
  (forall cb p s, C cb -> forallb Q (events (invoke P cb p s)) = true) ->
  forall cbs p pg, Forall C cbs -> forallb Q (snd (callAll P cbs p pg)) = true.
Proof.
  intros HQ cbs p. induction cbs as [|cb rest IH]; intros pg Hc; simpl.
  - reflexivity.
  - inversion Hc; subst.
    specialize (IH (absorb P (invoke P cb p (state pg)) pg)).
    destruct (callAll P rest p (absorb P (invoke P cb p (state pg)) pg))
      as [pg2 o2].
    simpl in *. rewrite forallb_app, HQ, IH; auto.
Qed.

Lemma submitted_lawful d out :
  forallb (lawful d) out = true ->
  Forall (fun cbs => exists c, cbs = [c] /\ drawsIn c = drawsPerSubmit d)
    (submitted out).
Proof.
  induction out as [|e out IH]; simpl; intros H; [constructor|].
  apply andb_prop in H. destruct H as [He Hout].
  apply Forall_app. split; [|auto].
  destruct e; try constructor; [|constructor].
  unfold lawful in He. apply andb_prop in He. destruct He as [_ He].
  unfold oneBufferOf in He.
  destruct commandBuffers as [|c [|]]; try discriminate He.
  exists c. split; [reflexivity|]. now apply Nat.eqb_eq.
Qed.

Lemma pipelinesUsed_app {Cb} (o1 o2 : list (Event Cb)) :
  pipelinesUsed (o1 ++ o2) = pipelinesUsed o1 ++ pipelinesUsed o2.
Proof.
  unfold pipelinesUsed, submitted.
  now rewrite flat_map_app, !concat_app, !flat_map_app.
Qed.

Lemma pipelinesUsed_lawful d out :
  forallb (lawful d) out = true ->
  incl (pipelinesUsed out) (bootPipelines d).
Proof.
  induction out as [|e out IH]; simpl; intros H.
  - intros h [].
  - apply andb_prop in H. destruct H as [He Hout].
    change (e :: out) with ([e] ++ out). rewrite pipelinesUsed_app.
    apply incl_app; [|auto].
    unfold lawful in He.
    repeat (apply andb_prop in He; destruct He as [He ?]).
    match goal with
    | F : forallb (memberOf _) _ = true |- _ => rewrite forallb_forall in F;
        intros h Hin; specialize (F h Hin); unfold memberOf in F;
        apply existsb_exists in F; destruct F as (h' & Hin' & E);
        apply Nat.eqb_eq in E; now subst
    end.
Qed.

(** *** The deferred-rendering script *)


(** On the loaded page, after any run of browser events, every submit of an
    animation frame has that shape, however many frame loops the resizes
    have started. *)
Lemma deferred_frames_on_page b es :
  thrown (boot Deferred.script b) = None ->
  forallb deferredSubmit
    (snd (step Deferred.script AnimationFrame
            (pageAfter deferredRendering b es))) = true.
Proof.
  intros H. cbn [step].
  apply (callAll_events Deferred.script deferredSubmit
           (fun cb => sound deferredRendering cb = true
                      /\ isFrame Deferred.script cb = true)).
  - intros cb p s [S F].
    destruct cb; try discriminate F; open_records; pin S; settle p s.
  - destruct (after_loading deferredRendering b es H) as ([T _] & _).
    exact T.
Qed.

(** C2, as the script has it.  [initPipeline] makes fifteen calls and
    builds four pipelines and no others, in this order: the G-buffer write,
    G-buffers debug view and deferred rendering render pipelines, then the
    light-update compute pipeline; their handles are distinct, and the two
    full-screen pipelines have explicit layouts that share their first
    bind group layout.  The pipelines are tied together by what
    [createResources] binds and the passes select: the two views the
    G-buffer pass renders into are the first two entries of the bind group
    that both the debug view pass and the deferred rendering pass select at
    index 0, and the lights buffer is bound in the group the compute pass
    selects and in the group the deferred rendering pass selects at
    index 1. *)
Theorem C2_four_pipelines (s : St Deferred.Settings) :
  match Deferred.initPipeline s with
  | Throw _ _ _ => False
  | Ok p s1 o1 =>
      let n := next s in
      o1 = [CreateShaderModule n "deferredRendering/writeGBuffers.vert.wgsl";
            CreateShaderModule (1 + n)
              "deferredRendering/writeGBuffers.frag.wgsl";
            CreateRenderPipeline (2 + n) None n (Some (1 + n));
            CreateBindGroupLayout (3 + n);
            CreateBindGroupLayout (4 + n);
            CreatePipelineLayout (5 + n) [3 + n];
            CreateShaderModule (6 + n) "deferredRendering/textureQuad.vert.wgsl";
            CreateShaderModule (7 + n)
              "deferredRendering/gBuffersDebugView.frag.wgsl";
            CreateRenderPipeline (8 + n) (Some (5 + n)) (6 + n) (Some (7 + n));
            CreatePipelineLayout (9 + n) [3 + n; 4 + n];
            CreateShaderModule (10 + n)
              "deferredRendering/textureQuad.vert.wgsl";
            CreateShaderModule (11 + n)
              "deferredRendering/deferredRendering.frag.wgsl";
            CreateRenderPipeline (12 + n) (Some (9 + n)) (10 + n)
              (Some (11 + n));
            CreateShaderModule (13 + n) "deferredRendering/lightUpdate.cmp.wgsl";
            CreateComputePipeline (14 + n) None (13 + n)]
      /\ pipelinesBuilt o1
         = [Deferred.writeGBuffersPipeline p;
            Deferred.gBuffersDebugViewPipeline p;
            Deferred.deferredRenderingPipeline p;
            Deferred.lightUpdateComputePipeline p]
      /\ List.length (filter isPipeline o1) = 4
      /\ NoDup (pipelinesBuilt o1)
      /\ match Deferred.createResources p s1 with
         | Throw _ _ _ => False
         | Ok r s2 o2 =>
             let '(view0, view1, view2) := Deferred.gBufferTextureViews r in
             In (CreateBindGroup (Deferred.gBufferTexturesBindGroup r)
                   (Deferred.gBuffersDebugViewPipeline p) 0
                   [BindView view0; BindView view1; BindView view2]) o2
             /\ In (CreateBindGroup (Deferred.lightsBufferBindGroup r)
                      (Deferred.deferredRenderingPipeline p) 1
                      [BindBuffer (Deferred.lightsBuffer r) 0 None;
                       BindBuffer (Deferred.configUniformBuffer r) 0 None;
                       BindBuffer (Deferred.cameraUniformBuffer r) 0 None]) o2
             /\ In (CreateBindGroup (Deferred.lightsBufferComputeBindGroup r)
                      (Deferred.lightUpdateComputePipeline p) 0
                      [BindBuffer (Deferred.lightsBuffer r) 0 None;
                       BindBuffer (Deferred.configUniformBuffer r) 0 None;
                       BindBuffer (Deferred.lightExtentBuffer r) 0 None]) o2
             /\ In (CreateBindGroup (Deferred.sceneUniformBindGroup r)
                      (Deferred.writeGBuffersPipeline p) 0
                      [BindBuffer (Deferred.modelUniformBuffer r) 0 None;
                       BindBuffer (Deferred.cameraUniformBuffer r) 0 None]) o2
             /\ forall depthView v : Handle,
                  Deferred.gBufferPass p r depthView
                  = RenderPass
                      {| colorAttachments :=
                           [{| view := view0; resolveTarget := None |};
                            {| view := view1; resolveTarget := None |}];
                         depthStencilAttachment := Some depthView |}
                      [SetPipeline (Deferred.writeGBuffersPipeline p);
                       SetBindGroup 0 (Deferred.sceneUniformBindGroup r);
                       SetVertexBuffer 0 (Deferred.dragonVertexBuffer r);
                       SetIndexBuffer (Deferred.dragonIndexBuffer r);
                       DrawIndexed (Ext "mesh.triangles.length * 3") 1 0]
                  /\ Deferred.lightPass p r
                     = ComputePass
                         [SetPipeline (Deferred.lightUpdateComputePipeline p);
                          SetBindGroup 0
                            (Deferred.lightsBufferComputeBindGroup r);
                          DispatchWorkgroups 16]
                  /\ Deferred.debugViewPass p r v
                     = RenderPass
                         {| colorAttachments :=
                              [{| view := v; resolveTarget := None |}];
                            depthStencilAttachment := None |}
                         [SetPipeline (Deferred.gBuffersDebugViewPipeline p);
                          SetBindGroup 0 (Deferred.gBufferTexturesBindGroup r);
                          Draw (Lit 6) 1]
                  /\ Deferred.deferredRenderingPass p r v
                     = RenderPass
                         {| colorAttachments :=
                              [{| view := v; resolveTarget := None |}];
                            depthStencilAttachment := None |}
                         [SetPipeline (Deferred.deferredRenderingPipeline p);
                          SetBindGroup 0 (Deferred.gBufferTexturesBindGroup r);
                          SetBindGroup 1 (Deferred.lightsBufferBindGroup r);
                          Draw (Lit 6) 1]
         end
  end.
Proof.
  destruct s as [b n g].
  cbv -[In].
  split; [reflexivity|]. split; [reflexivity|]. split; [reflexivity|].
  split; [repeat constructor; simpl; intuition lia|].
  split; [do 8 right; left; reflexivity|].
  split; [do 17 right; left; reflexivity|].
  split; [do 18 right; left; reflexivity|].
  split; [do 11 right; left; reflexivity|].
  intros depthView v. repeat split.
Qed.

(** C2 with three pipelines does not hold: loading the script builds
    four. *)
Lemma C2_counterexample :
  ~ List.length
      (filter isPipeline
         (events (Deferred.initPipeline (state (blank Deferred.script fullBrowser)))))
    = 3.
Proof. vm_compute. discriminate. Qed.

(** *** Start-up failures *)

Lemma boot_rejection d b w :
  thrown (boot (scriptOf d) b) = Some (Rejection w) ->
  d = cube_spriteTexture /\ w = imageRequest
  /\ filter isResourceCreate (events (boot (scriptOf d) b))
     = [CreateRenderPipeline 2 None 0 (Some 1);
        CreateBuffer 3 (Ext "cubeVertexArray.byteLength");
        CreateTexture 4;
        CreateBuffer 5 (Lit 64);
        CreateBindGroup 6 2 0 [BindBuffer 5 0 None]].
Proof.
  boot_cases d b; intros H; try discriminate H.
  all: injection H as <-; repeat split.
Qed.

(** C3, as the scripts have it.  Loading a script fails exactly when one of
    its start-up checks fails, with that check's error: the canvas element
    is missing (in cube_canvasTexture either of its two canvases, or the
    2D context of the second; never in deferredRendering, which has
    appended a canvas of its own before it looks for one), [navigator.gpu]
    is absent, or no adapter is found; and, in cube_spriteTexture, when the
    awaited image request is rejected.  Every error thrown comes before any
    GPU object is created; the rejection in cube_spriteTexture comes after
    the pipeline, two buffers, a texture and a bind group have been
    created.  No frame callback, event listener or continuation fails, and
    a rejected image request inside cube_imageTexture's [draw] ends that
    activation of [draw] without a call. *)
Theorem C3_startup_checks (d : Demo) (b : Browser) :
  thrown (boot (scriptOf d) b) = startupCheck d b
  /\ match startupCheck d b with
     | Some (Error _) =>
         forallb (fun e => negb (isCreate e)) (events (boot (scriptOf d) b))
         = true
     | Some (Rejection w) =>
         d = cube_spriteTexture /\ w = imageRequest
         /\ filter isResourceCreate (events (boot (scriptOf d) b))
            = [CreateRenderPipeline 2 None 0 (Some 1);
               CreateBuffer 3 (Ext "cubeVertexArray.byteLength");
               CreateTexture 4;
               CreateBuffer 5 (Lit 64);
               CreateBindGroup 6 2 0 [BindBuffer 5 0 None]]
     | None => True
     end
  /\ thrown (boot (scriptOf deferredRendering) b) <> Some (Error "No Canvas")
  /\ (forall cb p s, thrown (invoke (scriptOf d) cb p s) = None)
  /\ (forall pg i,
        let after := step (scriptOf d) (Settle i false) pg in
        snd after = [] /\ state (fst after) = state pg
        /\ rafQueue (fst after) = rafQueue pg
        /\ listeners (fst after) = listeners pg).
Proof.
  split; [apply boot_thrown|]. split; [|split; [|split]].
  - rewrite <- boot_thrown.
    destruct (thrown (boot (scriptOf d) b)) as [[msg|w]|] eqn:E; [| |exact I].
    + now apply (boot_error_creates_nothing d b msg).
    + now apply boot_rejection.
  - rewrite (boot_thrown deferredRendering b). cbn [startupCheck].
    unfold gpuCheck. destruct (gpu b), (adapter b); discriminate.
  - intros. apply invoke_returns.
  - intros pg i. cbn [step].
    destruct (nth_error (awaiting pg) i); auto.
Qed.

(** C3 with the WebGPU check alone does not hold: with WebGPU present but
    no adapter, loading the cube script throws all the same. *)
Lemma C3_counterexample :
  ~ (thrown (boot (scriptOf cube) noAdapterBrowser) <> None
     <-> gpu noAdapterBrowser = false).
Proof.
  intros [H _].
  assert (E : thrown (boot (scriptOf cube) noAdapterBrowser)
              = Some (Error "No Adapter Found")) by reflexivity.
  rewrite E in H. discriminate H. discriminate.
Qed.

(** *** Draw calls and submits *)

(** C4, as the scripts have it.  Every [queue.submit] a script makes, while
    loading or afterwards, passes exactly one command buffer, and that
    buffer holds a number of draw calls fixed by the script: one for cube,
    multisample, color_triangle and the three textured cubes, two for
    base_lighting, base_lighting2, two_cubes, instanced_cubes and
    deferredRendering, four for shadowMapping.  In an animation frame each
    queued frame callback makes exactly one such submit. *)
Theorem C4_one_submit_per_frame (d : Demo) (b : Browser) (es : list External) :
  thrown (boot (scriptOf d) b) = None ->
  let single := fun cbs => exists c, cbs = [c] /\ drawsIn c = drawsPerSubmit d in
  let pg := pageAfter d b es in
  let out := snd (step (scriptOf d) AnimationFrame pg) in
  Forall single (submitted (events (boot (scriptOf d) b)))
  /\ Forall single (submitted (traceAfter d b es))
  /\ Forall single (submitted out)
  /\ List.length (submitted out) = List.length (rafQueue pg).
Proof.
  intros H single pg out.
  destruct (after_loading d b es H) as (T & L & _ & _).
  destruct (step_tidy (scriptOf d) (sound d) (lawful d)
              (lawful_frame d) (lawful_listener d) (lawful_await d)
              (invoke_lawful d)
              (frame_once_all d) AnimationFrame pg T) as (_ & L1 & _ & _).
  destruct (frame_step (scriptOf d) (sound d) (frame_once_all d) pg T)
    as [_ F].
  repeat split.
  - pose proof (boot_bootLike d b H) as B. unfold bootLike in B.
    repeat (apply andb_prop in B; destruct B as [B ?]).
    match goal with
    | F : forallb (oneBufferOf d) _ = true |- _ =>
        rewrite forallb_forall in F; apply Forall_forall; intros cbs Hin;
        specialize (F cbs Hin); unfold oneBufferOf in F;
        destruct cbs as [|c [|]]; try discriminate F;
        exists c; split; [reflexivity | now apply Nat.eqb_eq]
    end.
  - now apply submitted_lawful.
  - now apply submitted_lawful.
  - exact F.
Qed.

Lemma C4_one_submit_per_frame_witness :
  thrown (boot (scriptOf shadowMapping) fullBrowser) = None
  /\ let single :=
       fun cbs => exists c, cbs = [c] /\ drawsIn c = drawsPerSubmit shadowMapping in
     let pg := pageAfter shadowMapping fullBrowser [resize; AnimationFrame] in
     let out := snd (step (scriptOf shadowMapping) AnimationFrame pg) in
     Forall single (submitted (events (boot (scriptOf shadowMapping) fullBrowser)))
     /\ Forall single
          (submitted (traceAfter shadowMapping fullBrowser [resize; AnimationFrame]))
     /\ Forall single (submitted out)
     /\ List.length (submitted out) = List.length (rafQueue pg).
Proof.
  split; [reflexivity|].
  apply (C4_one_submit_per_frame shadowMapping fullBrowser
           [resize; AnimationFrame]).
  reflexivity.
Defined.

(** C4 with a single draw call does not hold: the first frame of
    base_lighting submits a command buffer with two draw calls. *)
Lemma C4_counterexample :
  ~ Forall (Forall (fun c => drawsIn c <= 1))
      (submitted (snd (step (scriptOf base_lighting) AnimationFrame
                         (loaded (scriptOf base_lighting) fullBrowser)))).
Proof.
  intros H.
  assert (B : forallb (forallb (fun c => Nat.leb (drawsIn c) 1))
                (submitted (snd (step (scriptOf base_lighting) AnimationFrame
                                   (loaded (scriptOf base_lighting) fullBrowser))))
              = true).
  { eapply Forall_forallb; [|exact H]. intros cbs Hc.
    eapply Forall_forallb; [|exact Hc]. intros c Hle. now apply Nat.leb_le. }
  vm_compute in B. discriminate B.
Qed.

(** *** The frame loop *)

Lemma requested_app (P : Script) (o1 o2 : list (Event (Closure P))) :
  requested (o1 ++ o2) = requested o1 ++ requested o2.
Proof. apply flat_map_app. Qed.

Lemma listened_app (P : Script) (o1 o2 : list (Event (Closure P))) :
  listened (o1 ++ o2) = listened o1 ++ listened o2.
Proof. apply flat_map_app. Qed.

Lemma awaited_app (P : Script) (o1 o2 : list (Event (Closure P))) :
  awaited (o1 ++ o2) = awaited o1 ++ awaited o2.
Proof. apply flat_map_app. Qed.

(** What a run of callbacks leaves with the browser is what it found there
    and what the callbacks registered. *)
Lemma callAll_absorbs (P : Script) cbs p : forall pg,
  rafQueue (fst (callAll P cbs p pg))
  = rafQueue pg ++ requested (snd (callAll P cbs p pg))
  /\ listeners (fst (callAll P cbs p pg))
     = listeners pg ++ listened (snd (callAll P cbs p pg))
  /\ awaiting (fst (callAll P cbs p pg))
     = awaiting pg ++ awaited (snd (callAll P cbs p pg)).
Proof.
  induction cbs as [|cb rest IH]; intros pg; simpl.
  - now rewrite !app_nil_r.
  - specialize (IH (absorb P (invoke P cb p (state pg)) pg)).
    destruct (callAll P rest p (absorb P (invoke P cb p (state pg)) pg))
      as [pg2 o2].
    simpl in *. destruct IH as (I1 & I2 & I3).
    rewrite I1, I2, I3, requested_app, listened_app, awaited_app, !app_assoc.
    auto.
Qed.

Lemma callAll_forall (P : Script) (Q : Event (Closure P) -> bool) cbs p :
  forall pg,
  Forall (fun cb => forall s, forallb Q (events (invoke P cb p s)) = true) cbs ->
  forallb Q (snd (callAll P cbs p pg)) = true.
Proof.
  induction cbs as [|cb rest IH]; intros pg Hc; simpl.
  - reflexivity.
  - inversion Hc as [|? ? Hcb Hrest]; subst.
    specialize (IH (absorb P (invoke P cb p (state pg)) pg) Hrest).
    destruct (callAll P rest p (absorb P (invoke P cb p (state pg)) pg))
      as [pg2 o2].
    simpl in *. now rewrite forallb_app, Hcb, IH.
Qed.

(** What every callback of a script does, every run of browser events
    does. *)
Lemma steps_forall (P : Script) (Q : Event (Closure P) -> bool) :
  (forall cb p s, forallb Q (events (invoke P cb p s)) = true) ->
  forall es pg, forallb Q (snd (steps P es pg)) = true.
Proof.
  intros H es. induction es as [|e rest IH]; intros pg; simpl; [reflexivity|].
  assert (S1 : forallb Q (snd (step P e pg)) = true).
  { destruct e as [|t p|i ok]; cbn [step].
    - apply callAll_forall. apply Forall_forall. intros cb _ s. apply H.
    - apply callAll_forall. apply Forall_forall. intros cb _ s. apply H.
    - destruct (nth_error (awaiting pg) i); [|reflexivity].
      destruct ok; [|reflexivity].
      apply callAll_forall. apply Forall_forall. intros cb _ s. apply H. }
  specialize (IH (fst (step P e pg))).
  destruct (step P e pg) as [pg1 o1]. cbn [fst snd] in *.
  destruct (steps P rest pg1) as [pg2 o2]. cbn [snd] in *.
  now rewrite forallb_app, S1, IH.
Qed.

Lemma listened_none (P : Script) (out : list (Event (Closure P))) :
  forallb registersNothing out = true -> listened out = [].
Proof.
  induction out as [|e out IH]; simpl; [reflexivity|].
  intros H. apply andb_prop in H. destruct H as [He Ho].
  destruct e; try discriminate He; simpl; auto.
Qed.

Lemma requested_none (P : Script) (out : list (Event (Closure P))) :
  forallb requestsNoFrame out = true -> requested out = [].
Proof.
  induction out as [|e out IH]; simpl; [reflexivity|].
  intros H. apply andb_prop in H. destruct H as [He Ho].
  destruct e; try discriminate He; simpl; auto.
Qed.

Lemma step_absorbs (P : Script) e pg :
  listeners (fst (step P e pg))
  = listeners pg ++ listened (snd (step P e pg)).
Proof.
  destruct e as [|t p|i ok]; cbn [step].
  - apply (callAll_absorbs P (rafQueue pg) PNone
             {| state := state pg; rafQueue := []; listeners := listeners pg;
                awaiting := awaiting pg |}).
  - apply callAll_absorbs.
  - destruct (nth_error (awaiting pg) i) as [k|];
      [|cbn; now rewrite app_nil_r].
    destruct ok; [|cbn; now rewrite app_nil_r].
    apply (callAll_absorbs P [k] PNone
             {| state := state pg; rafQueue := rafQueue pg;
                listeners := listeners pg;
                awaiting := without i (awaiting pg) |}).
Qed.

(** A script whose callbacks register no listener keeps the listeners it
    has when it has loaded. *)
Lemma steps_listeners (P : Script) :
  (forall cb p s, forallb registersNothing (events (invoke P cb p s)) = true) ->
  forall es pg, listeners (fst (steps P es pg)) = listeners pg.
Proof.
  intros H es. induction es as [|e rest IH]; intros pg; simpl; [reflexivity|].
  pose proof (step_absorbs P e pg) as E.
  pose proof (steps_forall P registersNothing H [e] pg) as N.
  cbn [steps] in N.
  specialize (IH (fst (step P e pg))).
  destruct (step P e pg) as [pg1 o1]. cbn [fst snd] in *.
  rewrite app_nil_r in N. rewrite (listened_none P o1 N), app_nil_r in E.
  destruct (steps P rest pg1) as [pg2 o2]. cbn [fst] in *. congruence.
Qed.

(** A run of callbacks keeps what each callback keeps. *)
Lemma callAll_keeps (P : Script) (I : St (Globals P) -> Prop)
  (Q : Event (Closure P) -> bool) (C : Closure P -> Prop) :
  (forall cb p s, C cb -> I s ->
     I (final (invoke P cb p s))
     /\ forallb Q (events (invoke P cb p s)) = true) ->
  forall cbs p pg, Forall C cbs -> I (state pg) ->
    I (state (fst (callAll P cbs p pg)))
    /\ forallb Q (snd (callAll P cbs p pg)) = true.
Proof.
  intros HQ cbs p. induction cbs as [|cb rest IH]; intros pg Hc Hi; simpl.
  - auto.
  - inversion Hc as [|? ? Hcb Hrest]; subst.
    destruct (HQ cb p (state pg) Hcb Hi) as [H1 H2].
    specialize (IH (absorb P (invoke P cb p (state pg)) pg) Hrest H1).
    destruct (callAll P rest p (absorb P (invoke P cb p (state pg)) pg))
      as [pg2 o2].
    simpl in *. destruct IH as [I1 I2].
    split; [assumption|]. now rewrite forallb_app, H2, I2.
Qed.

(** Every activation of [frame] hands the browser the closure it is. *)
Lemma invoke_requeues d cb p s :
  isFrame (scriptOf d) cb = true ->
  requested (events (invoke (scriptOf d) cb p s)) = [cb].
Proof.
  intros H. destruct d; destruct cb; try discriminate H; open_records;
    settle p s.
Qed.

(** It encodes the same commands whenever the script's variables are the
    same. *)
Lemma invoke_recodes d cb p s1 s2 :
  isFrame (scriptOf d) cb = true ->
  globals s1 = globals s2 ->
  map (map (map passCmds)) (submitted (events (invoke (scriptOf d) cb p s1)))
  = map (map (map passCmds))
      (submitted (events (invoke (scriptOf d) cb p s2))).
Proof.
  intros H E. destruct s1 as [b1 n1 g1], s2 as [b2 n2 g2].
  cbn [globals] in E. subst g2.
  destruct d; destruct cb; try discriminate H; open_records;
    try reflexivity;
    try match goal with g : Globals _ |- _ => destruct g end;
    crunch.
Qed.

Lemma callAll_requeues (P : Script) cbs p : forall pg,
  Forall (fun cb => forall s, requested (events (invoke P cb p s)) = [cb]) cbs ->
  requested (snd (callAll P cbs p pg)) = cbs.
Proof.
  induction cbs as [|cb rest IH]; intros pg Hc; simpl; [reflexivity|].
  inversion Hc as [|? ? Hcb Hrest]; subst.
  specialize (IH (absorb P (invoke P cb p (state pg)) pg) Hrest).
  destruct (callAll P rest p (absorb P (invoke P cb p (state pg)) pg))
    as [pg2 o2].
  simpl in *. now rewrite requested_app, Hcb, IH.
Qed.

Lemma queue_frames d b es :
  thrown (boot (scriptOf d) b) = None ->
  Forall (fun cb => isFrame (scriptOf d) cb = true)
    (rafQueue (pageAfter d b es)).
Proof.
  intros H. destruct (after_loading d b es H) as ([T _] & _).
  eapply Forall_impl; [|exact T]. intros cb [_ F]; exact F.
Qed.

(** An animation frame leaves the queue as it found it. *)
Lemma frame_step_requeues d b es :
  thrown (boot (scriptOf d) b) = None ->
  rafQueue (fst (step (scriptOf d) AnimationFrame (pageAfter d b es)))
  = rafQueue (pageAfter d b es).
Proof.
  intros H. cbn [step].
  destruct (callAll_absorbs (scriptOf d) (rafQueue (pageAfter d b es)) PNone
              {| state := state (pageAfter d b es); rafQueue := [];
                 listeners := listeners (pageAfter d b es);
                 awaiting := awaiting (pageAfter d b es) |}) as [Q _].
  rewrite Q. cbn [rafQueue app].
  apply callAll_requeues.
  eapply Forall_impl; [|apply (queue_frames d b es H)].
  intros cb F s. now apply invoke_requeues.
Qed.

Lemma invoke_registers_nothing d cb p s :
  usesAnimationFrames d = false ->
  forallb (fun e => registersNothing e && requestsNoFrame e)
    (events (invoke (scriptOf d) cb p s)) = true.
Proof.
  intros U. destruct d; try discriminate U; destruct cb; open_records;
    settle p s.
Qed.

Lemma boot_requests_no_frame d b :
  usesAnimationFrames d = false ->
  forallb requestsNoFrame (events (boot (scriptOf d) b)) = true.
Proof.
  intros U. destruct d; try discriminate U.
  all: destruct b as [q [|] [|] [|] [|]];
    cbv -[String.eqb Nat.eqb]; closed_tests; use_flags q; reflexivity.
Qed.

Lemma boot_submits d b :
  thrown (boot (scriptOf d) b) = None ->
  List.length (submitted (events (boot (scriptOf d) b)))
  = if usesAnimationFrames d
    then match d with
         | cube_canvasTexture | cube_spriteTexture => 1
         | _ => 0
         end
    else 1.
Proof.
  intros H. apply boot_bootLike in H. unfold bootLike in H.
  repeat (apply andb_prop in H; destruct H as [H ?]).
  match goal with
  | F : Nat.eqb (List.length (submitted _)) _ = true |- _ =>
      now apply Nat.eqb_eq in F
  end.
Qed.
(** *** The resize listener *)

Lemma resize_listener_any_page d b :
  thrown (boot (scriptOf d) b) = None ->
  listening (scriptOf d) (Window "resize") (loaded (scriptOf d) b)
  = listening (scriptOf d) (Window "resize") (loaded (scriptOf d) fullBrowser).
Proof.
  intros H. destruct b as [q g a c i].
  destruct d; decide_flags H q.
  all: cbv -[String.eqb Nat.eqb]; closed_tests; use_flags q; reflexivity.
Qed.

Lemma resize_listener_does d :
  exists rz,
    listening (scriptOf d) (Window "resize") (loaded (scriptOf d) fullBrowser)
    = [rz]
    /\ forall p s, resizeLike d (events (invoke (scriptOf d) rz p s)) = true.
Proof.
  destruct d;
    match goal with
    | |- exists rz, ?l = _ /\ _ =>
        let v := eval vm_compute in l in
        match v with
        | [?rz] => exists rz; split; [vm_compute; reflexivity|]
        end
    end;
    intros p s; settle p s.
Qed.

Lemma resize_step d b es :
  thrown (boot (scriptOf d) b) = None ->
  resizeLike d (snd (step (scriptOf d) resize (pageAfter d b es))) = true.
Proof.
  intros H. destruct (after_loading d b es H) as (_ & _ & E & _).
  unfold resize. cbn [step]. rewrite E, (resize_listener_any_page d b H).
  destruct (resize_listener_does d) as (rz & -> & R).
  cbn [callAll]. cbn [snd]. rewrite app_nil_r. apply R.
Qed.

(** In cube_imageTexture the page has loaded with one [draw] waiting for
    its image and nothing queued; when the image arrives, one frame
    callback is queued. *)
Lemma image_loads b :
  thrown (boot (scriptOf cube_imageTexture) b) = None ->
  rafQueue (loaded (scriptOf cube_imageTexture) b) = []
  /\ List.length (awaiting (loaded (scriptOf cube_imageTexture) b)) = 1
  /\ List.length
       (rafQueue (fst (step (scriptOf cube_imageTexture) (Settle 0 true)
                         (loaded (scriptOf cube_imageTexture) b)))) = 1.
Proof.
  intros H. destruct b as [q g a c i].
  decide_flags H q.
  all: cbv -[String.eqb Nat.eqb]; closed_tests; use_flags q; auto.
Qed.

Lemma color_listeners b es :
  thrown (boot (scriptOf color_triangle) b) = None ->
  listening (scriptOf color_triangle)
    (Element ColorTriangle.colorSelector "input")
    (pageAfter color_triangle b es)
  = if query b ColorTriangle.colorSelector
    then [ColorTriangle.ColorInput
            {| ColorTriangle.pipeline := 2; ColorTriangle.colorBuffer := 3;
               ColorTriangle.uniformGroup := 4 |}]
    else [].
Proof.
  intros H. unfold listening, pageAfter.
  rewrite (steps_listeners (scriptOf color_triangle)).
  - destruct b as [q g a c i]. decide_flags H q.
    all: cbv -[String.eqb Nat.eqb]; closed_tests; use_flags q; reflexivity.
  - intros cb p s.
    eapply forallb_weaken;
      [|apply (invoke_registers_nothing color_triangle cb p s eq_refl)].
    intros e He. now apply andb_prop in He.
Qed.

Lemma Target_eqb_sym a b : Target_eqb a b = Target_eqb b a.
Proof.
  destruct a, b; simpl; try reflexivity;
    now rewrite ?(String.eqb_sym type), ?(String.eqb_sym selector),
      ?(String.eqb_sym property).
Qed.

Lemma multisample_listeners b es t :
  thrown (boot (scriptOf multisample) b) = None ->
  Target_eqb (Window "resize") t = false ->
  listening (scriptOf multisample) t (pageAfter multisample b es) = [].
Proof.
  intros H T. unfold listening, pageAfter.
  rewrite (steps_listeners (scriptOf multisample)).
  - assert (L : listeners (loaded (scriptOf multisample) b)
                = [(Window "resize", Multisample.Resize 2)]).
    { destruct b as [q g a c i]. decide_flags H q.
      all: cbv -[String.eqb Nat.eqb]; closed_tests; use_flags q;
        reflexivity. }
    rewrite L. cbn [filter fst]. now rewrite Target_eqb_sym, T.
  - intros cb p s.
    eapply forallb_weaken;
      [|apply (invoke_registers_nothing multisample cb p s eq_refl)].
    intros e He. now apply andb_prop in He.
Qed.

(** C5, as the scripts have it.  In every script except multisample and
    color_triangle, [draw] starts a frame loop.  Every activation of
    [frame] submits once and hands the browser the very closure it is, and
    whenever the script's variables are the same it encodes the same
    commands; so on every page the script reaches, an animation frame runs
    every queued callback, makes one submit for each and leaves the queue
    as it was.  At least one frame callback is queued once the page has
    loaded, except in cube_imageTexture: there the page loads with nothing
    queued and one [draw] waiting for its image, and a frame callback is
    queued from the moment the image has arrived.  multisample and
    color_triangle never call [requestAnimationFrame]: an animation frame
    does nothing, and they submit once when they load, once on every
    resize and, in color_triangle, once on every input of the colour
    picker, if the page has one. *)
Theorem C5_frame_loops (d : Demo) (b : Browser) (es : list External) :
  thrown (boot (scriptOf d) b) = None ->
  let pg := pageAfter d b es in
  let after := step (scriptOf d) AnimationFrame pg in
  if usesAnimationFrames d
  then (forall cb p s,
          isFrame (scriptOf d) cb = true ->
          List.length (submitted (events (invoke (scriptOf d) cb p s))) = 1
          /\ requested (events (invoke (scriptOf d) cb p s)) = [cb])
       /\ (forall cb p s1 s2,
             isFrame (scriptOf d) cb = true -> globals s1 = globals s2 ->
             map (map (map passCmds))
               (submitted (events (invoke (scriptOf d) cb p s1)))
             = map (map (map passCmds))
                 (submitted (events (invoke (scriptOf d) cb p s2))))
       /\ Forall (fun cb => isFrame (scriptOf d) cb = true) (rafQueue pg)
       /\ List.length (submitted (snd after)) = List.length (rafQueue pg)
       /\ rafQueue (fst after) = rafQueue pg
       /\ (if loadsInDraw d
           then rafQueue (loaded (scriptOf d) b) = []
                /\ List.length (awaiting (loaded (scriptOf d) b)) = 1
                /\ 1 <= List.length
                          (rafQueue (pageAfter d b (Settle 0 true :: es)))
           else 1 <= List.length (rafQueue pg))
  else forallb requestsNoFrame (events (boot (scriptOf d) b)) = true
       /\ forallb requestsNoFrame (traceAfter d b es) = true
       /\ rafQueue pg = [] /\ after = (pg, [])
       /\ List.length (submitted (events (boot (scriptOf d) b))) = 1
       /\ List.length (submitted (snd (step (scriptOf d) resize pg))) = 1
       /\ forall p,
            List.length
              (submitted
                 (snd (step (scriptOf d)
                         (Dispatch (Element ColorTriangle.colorSelector "input")
                            p) pg)))
            = match d with
              | color_triangle =>
                  if query b ColorTriangle.colorSelector then 1 else 0
              | _ => 0
              end.
Proof.
  intros H pg after.
  destruct (after_loading d b es H) as (T & _ & _ & Hlen).
  pose proof (queue_frames d b es H) as Q. fold pg in Q, Hlen, T.
  rewrite (loaded_queue_length d b H) in Hlen.
  destruct (usesAnimationFrames d) eqn:U.
  - destruct (frame_step (scriptOf d) (sound d) (frame_once_all d) pg T)
      as [F1 F2].
    split; [|split; [|split; [|split; [|split]]]]; auto.
    + intros cb p s F. split.
      * apply (frame_once_all d cb p s F).
      * now apply invoke_requeues.
    + intros cb p s1 s2. apply invoke_recodes.
    + apply (frame_step_requeues d b es H).
    + destruct (loadsInDraw d) eqn:L; [|exact Hlen].
      destruct d; try discriminate L.
      destruct (image_loads b H) as (I1 & I2 & I3).
      split; [exact I1|]. split; [exact I2|].
      unfold pageAfter. cbn [steps].
      pose proof (step_tidy (scriptOf cube_imageTexture)
                    (sound cube_imageTexture) (lawful cube_imageTexture)
                    (lawful_frame _) (lawful_listener _) (lawful_await _)
                    (invoke_lawful _) (frame_once_all _) (Settle 0 true)
                    (loaded (scriptOf cube_imageTexture) b)
                    (loaded_tidy cube_imageTexture b H)) as (S1 & _).
      destruct (step (scriptOf cube_imageTexture) (Settle 0 true)
                  (loaded (scriptOf cube_imageTexture) b)) as [pg1 o1].
      cbn [fst] in *.
      pose proof (steps_tidy (scriptOf cube_imageTexture)
                    (sound cube_imageTexture) (lawful cube_imageTexture)
                    (lawful_frame _) (lawful_listener _) (lawful_await _)
                    (invoke_lawful _) (frame_once_all _) es pg1 S1)
        as (_ & _ & _ & G).
      destruct (steps (scriptOf cube_imageTexture) es pg1) as [pg2 o2].
      cbn [fst] in *. lia.
  - assert (E : rafQueue pg = []).
    { destruct (rafQueue pg) as [|cb rest]; [reflexivity|].
      inversion Q as [|? ? F _]; subst.
      destruct d; try discriminate U; discriminate F. }
    split; [now apply boot_requests_no_frame|].
    split.
    { unfold traceAfter. apply steps_forall. intros cb p s.
      eapply forallb_weaken; [|apply (invoke_registers_nothing d cb p s U)].
      intros e He. now apply andb_prop in He. }
    split; [exact E|].
    split.
    { unfold after. cbn [step]. rewrite E. cbn [callAll].
      destruct pg as [st q l w]. cbn in E. now subst. }
    split; [rewrite (boot_submits d b H), U; reflexivity|].
    split.
    { pose proof (resize_step d b es H) as R. fold pg in R.
      unfold resizeLike in R. rewrite U in R.
      repeat (apply andb_prop in R; destruct R as [R ?]).
      repeat match goal with
             | F : _ && _ = true |- _ => apply andb_prop in F; destruct F
             end.
      match goal with
      | F : Nat.eqb (List.length (submitted _)) 1 = true |- _ =>
          now apply Nat.eqb_eq in F
      end. }
    intros p. cbn [step]. subst pg.
    destruct d; try discriminate U.
    + rewrite (multisample_listeners b es
                 (Element ColorTriangle.colorSelector "input") H eq_refl).
      reflexivity.
    + rewrite (color_listeners b es H).
      destruct (query b ColorTriangle.colorSelector); [|reflexivity].
      cbn [callAll snd].
      destruct (state (pageAfter color_triangle b es)) as [br n g].
      reflexivity.
Qed.

Lemma C5_frame_loops_witness :
  thrown (boot (scriptOf cube_imageTexture) fullBrowser) = None
  /\ let d := cube_imageTexture in
     let b := fullBrowser in
     let es := [AnimationFrame; resize] in
     let pg := pageAfter d b es in
     let after := step (scriptOf d) AnimationFrame pg in
     if usesAnimationFrames d
     then (forall cb p s,
             isFrame (scriptOf d) cb = true ->
             List.length (submitted (events (invoke (scriptOf d) cb p s))) = 1
             /\ requested (events (invoke (scriptOf d) cb p s)) = [cb])
          /\ (forall cb p s1 s2,
                isFrame (scriptOf d) cb = true -> globals s1 = globals s2 ->
                map (map (map passCmds))
                  (submitted (events (invoke (scriptOf d) cb p s1)))
                = map (map (map passCmds))
                    (submitted (events (invoke (scriptOf d) cb p s2))))
          /\ Forall (fun cb => isFrame (scriptOf d) cb = true) (rafQueue pg)
          /\ List.length (submitted (snd after)) = List.length (rafQueue pg)
          /\ rafQueue (fst after) = rafQueue pg
          /\ (if loadsInDraw d
              then rafQueue (loaded (scriptOf d) b) = []
                   /\ List.length (awaiting (loaded (scriptOf d) b)) = 1
                   /\ 1 <= List.length
                             (rafQueue (pageAfter d b (Settle 0 true :: es)))
              else 1 <= List.length (rafQueue pg))
     else forallb requestsNoFrame (events (boot (scriptOf d) b)) = true
          /\ forallb requestsNoFrame (traceAfter d b es) = true
          /\ rafQueue pg = [] /\ after = (pg, [])
          /\ List.length (submitted (events (boot (scriptOf d) b))) = 1
          /\ List.length (submitted (snd (step (scriptOf d) resize pg))) = 1
          /\ forall p,
               List.length
                 (submitted
                    (snd (step (scriptOf d)
                            (Dispatch
                               (Element ColorTriangle.colorSelector "input") p)
                            pg)))
               = match d with
                 | color_triangle =>
                     if query b ColorTriangle.colorSelector then 1 else 0
                 | _ => 0
                 end.
Proof.
  split; [reflexivity|].
  apply (C5_frame_loops cube_imageTexture fullBrowser [AnimationFrame; resize]).
  reflexivity.
Defined.

(** C5 for every script does not hold: color_triangle's [draw] registers
    no frame callback, so after loading nothing is queued and an animation
    frame submits nothing. *)
Lemma C5_counterexample :
  ~ (rafQueue (loaded (scriptOf color_triangle) fullBrowser) <> []
     \/ submitted (snd (step (scriptOf color_triangle) AnimationFrame
                          (loaded (scriptOf color_triangle) fullBrowser)))
        <> []).
Proof.
  intros [H|H]; apply H; vm_compute; reflexivity.
Qed.

(** *** Lifetime of GPU objects *)

Lemma frames_quiet d b es :
  thrown (boot (scriptOf d) b) = None ->
  forallb quiet
    (snd (step (scriptOf d) AnimationFrame (pageAfter d b es))) = true.
Proof.
  intros H. cbn [step].
  apply (callAll_events (scriptOf d) quiet
           (fun cb => isFrame (scriptOf d) cb = true)).
  - intros cb p s F. pose proof (invoke_frameLike d cb p s F) as L.
    unfold frameLike in L. now apply andb_prop in L.
  - now apply queue_frames.
Qed.

(** A frame of shadowMapping renders the lit scene with the depth view the
    script holds at that moment, and leaves the script's variables alone. *)
Lemma shadow_frame_depth cb p s v :
  isFrame ShadowMapping.script cb = true ->
  ShadowMapping.renderDepthView (globals s) = v ->
  ShadowMapping.renderDepthView
    (globals (final (invoke ShadowMapping.script cb p s))) = v
  /\ forallb (rendersWithDepth v)
       (events (invoke ShadowMapping.script cb p s)) = true.
Proof.
  intros F E. subst v.
  destruct cb as [pl r|pl r]; [|discriminate F].
  destruct s as [br n [t w]]. cbn [globals ShadowMapping.renderDepthView].
  split; [reflexivity|].
  cbv -[Nat.eqb]. now rewrite Nat.eqb_refl.
Qed.

Lemma shadow_resize_replaces b es :
  thrown (boot (scriptOf shadowMapping) b) = None ->
  replacesDepthTexture (pageAfter shadowMapping b es).
Proof.
  intros H. unfold replacesDepthTexture.
  destruct (after_loading shadowMapping b es H) as (T & _ & E & _).
  pose proof (queue_frames shadowMapping b es H) as Q.
  set (pg := pageAfter shadowMapping b es) in *. clearbody pg.
  assert (L : listening ShadowMapping.script (Window "resize") pg
              = listening ShadowMapping.script (Window "resize")
                  (loaded ShadowMapping.script fullBrowser)).
  { exact (eq_trans E (resize_listener_any_page shadowMapping b H)). }
  assert (R : step ShadowMapping.script resize pg
              = callAll ShadowMapping.script
                  (listening ShadowMapping.script (Window "resize")
                     (loaded ShadowMapping.script fullBrowser)) PNone pg).
  { unfold resize. cbn [step]. now rewrite L. }
  rewrite R.
  destruct pg as [[br n [t w]] q l k].
  cbn [state globals next ShadowMapping.renderDepthTexture].
  match goal with
  | |- context [callAll _ ?cbs _ _] =>
      let v := eval vm_compute in cbs in change cbs with v
  end.
  cbn [callAll invoke ShadowMapping.script ShadowMapping.call state].
  set (o := ShadowMapping.onResize _ _ _).
  let v := eval cbv in (events o) in
  assert (Eo : @events (Globals ShadowMapping.script)
                 (Closure ShadowMapping.script) unit o = v) by reflexivity.
  let v := eval cbv in (final o) in
  assert (Fo : @final (Globals ShadowMapping.script)
                 (Closure ShadowMapping.script) unit o = v) by reflexivity.
  cbn [fst snd]. rewrite app_nil_r, Eo.
  split; [reflexivity|]. split; [reflexivity|]. split; [reflexivity|].
  unfold absorb. cbn [state]. rewrite Fo. split; [reflexivity|].
  cbn [step rafQueue state listeners awaiting].
  rewrite Eo.
  eapply callAll_keeps
    with (I := fun s => ShadowMapping.renderDepthView (globals s) = S n)
         (C := fun cb => isFrame ShadowMapping.script cb = true).
  - intros cb p s F I. now apply shadow_frame_depth.
  - cbn [requested flat_map app]. apply Forall_app. split; [exact Q|].
    constructor; [reflexivity | constructor].
  - reflexivity.
Qed.

(** C6, as the scripts have it.  Pipelines, shader modules and layouts are
    created while the script loads and never again, and frame callbacks
    create no buffer, texture, pipeline or bind group and destroy nothing.
    In base_lighting, base_lighting2, cube_canvasTexture,
    cube_spriteTexture, color_triangle and deferredRendering nothing at all
    is created or destroyed once the page has loaded.  In the other six
    scripts every resize allocates again, and in shadowMapping, and only
    there, it also destroys: each resize destroys the render depth texture
    the script holds, creates a replacement and a view of it and keeps
    these as its render depth texture and view, with no other allocation,
    and the frames that follow render with the new view. *)
Theorem C6_resource_lifetime (d : Demo) (b : Browser) (es : list External) :
  thrown (boot (scriptOf d) b) = None ->
  let out := traceAfter d b es in
  let frame := snd (step (scriptOf d) AnimationFrame (pageAfter d b es)) in
  let resized := snd (step (scriptOf d) resize (pageAfter d b es)) in
  forallb (fun e => negb (isPipelineBuild e)) out = true
  /\ forallb (fun e => negb (isResourceCreate e) && negb (isDestroy e)) frame
     = true
  /\ (allocatesOnResize d = false ->
      forallb (fun e => negb (isResourceCreate e) && negb (isDestroy e)) out
      = true)
  /\ (destroysOnResize d = false ->
      forallb (fun e => negb (isDestroy e)) out = true)
  /\ existsb isResourceCreate resized = allocatesOnResize d
  /\ existsb isDestroy resized = destroysOnResize d
  /\ onShadowMapping d replacesDepthTexture (pageAfter d b es).
Proof.
  intros H out frame resized.
  destruct (after_loading d b es H) as (_ & L & _ & _). fold out in L.
  pose proof (resize_step d b es H) as R. fold resized in R.
  unfold resizeLike in R.
  repeat (apply andb_prop in R; destruct R as [R ?]).
  split; [|split; [|split; [|split; [|split; [|split]]]]].
  - eapply forallb_weaken; [|exact L]. intros e He. unfold lawful in He.
    repeat (apply andb_prop in He; destruct He as [He ?]). exact He.
  - eapply forallb_weaken; [|apply (frames_quiet d b es H)].
    intros e He. unfold quiet in He. now apply andb_prop in He.
  - intros A. eapply forallb_weaken; [|exact L]. intros e He.
    unfold lawful in He.
    repeat (apply andb_prop in He; destruct He as [He ?]).
    rewrite A in *. cbn [orb] in *.
    apply andb_true_intro. split; [assumption|].
    destruct d; try discriminate A; assumption.
  - intros A. eapply forallb_weaken; [|exact L]. intros e He.
    unfold lawful in He.
    repeat (apply andb_prop in He; destruct He as [He ?]).
    rewrite A in *. assumption.
  - now apply Bool.eqb_prop.
  - now apply Bool.eqb_prop.
  - destruct d; try exact I. now apply shadow_resize_replaces.
Qed.

Lemma C6_resource_lifetime_witness :
  thrown (boot (scriptOf shadowMapping) fullBrowser) = None
  /\ let d := shadowMapping in
     let b := fullBrowser in
     let es := [AnimationFrame; resize; AnimationFrame] in
     let out := traceAfter d b es in
     let frame := snd (step (scriptOf d) AnimationFrame (pageAfter d b es)) in
     let resized := snd (step (scriptOf d) resize (pageAfter d b es)) in
     forallb (fun e => negb (isPipelineBuild e)) out = true
     /\ forallb (fun e => negb (isResourceCreate e) && negb (isDestroy e)) frame
        = true
     /\ (allocatesOnResize d = false ->
         forallb (fun e => negb (isResourceCreate e) && negb (isDestroy e)) out
         = true)
     /\ (destroysOnResize d = false ->
         forallb (fun e => negb (isDestroy e)) out = true)
     /\ existsb isResourceCreate resized = allocatesOnResize d
     /\ existsb isDestroy resized = destroysOnResize d
     /\ onShadowMapping d replacesDepthTexture (pageAfter d b es).
Proof.
  split; [reflexivity|].
  apply (C6_resource_lifetime shadowMapping fullBrowser
           [AnimationFrame; resize; AnimationFrame]).
  reflexivity.
Defined.

(** C6 for every script does not hold: on a resize, shadowMapping destroys
    its render depth texture and creates another one. *)
Lemma C6_counterexample :
  ~ forallb (fun e => negb (isResourceCreate e) && negb (isDestroy e))
      (traceAfter shadowMapping fullBrowser [resize]) = true.
Proof. vm_compute. discriminate. Qed.

(** *** Pipelines and the resize listener *)

Lemma bootPipelines_distinct d : NoDup (bootPipelines d) /\ bootPipelines d <> [].
Proof.
  destruct d; vm_compute; split; try discriminate;
    repeat constructor; simpl; intuition discriminate.
Qed.

Lemma awaited_forallb (P : Script) (K : Closure P -> bool)
  (out : list (Event (Closure P))) :
  forallb (fun e => match e with Await _ cb => K cb | _ => true end) out
  = forallb K (awaited out).
Proof.
  induction out as [|e out IH]; simpl; [reflexivity|].
  rewrite IH. destruct e; try reflexivity.
Qed.

Lemma forallb_without {A} (K : A -> bool) l : forall i,
  forallb K l = true -> forallb K (without i l) = true.
Proof.
  induction l as [|x l IH]; intros i H; [destruct i; reflexivity|].
  simpl in H. apply andb_prop in H. destruct H as [H1 H2].
  destruct i; simpl; [assumption|]. now rewrite H1, IH.
Qed.

(** What the continuations a script hands over have in common, the
    continuations a page is waiting with have. *)
Lemma steps_awaiting (P : Script) (K : Closure P -> bool) :
  (forall cb p s, forallb K (awaited (events (invoke P cb p s))) = true) ->
  forall es pg,
    forallb K (awaiting pg) = true ->
    forallb K (awaiting (fst (steps P es pg))) = true.
Proof.
  intros H es. induction es as [|e rest IH]; intros pg Hp; simpl;
    [assumption|].
  assert (S1 : forallb K (awaiting (fst (step P e pg))) = true).
  { assert (C : forall cbs p pg0,
              forallb K (awaiting pg0) = true ->
              forallb K (awaiting (fst (callAll P cbs p pg0))) = true).
    { intros cbs p pg0 H0.
      destruct (callAll_absorbs P cbs p pg0) as (_ & _ & A).
      rewrite A, forallb_app, H0. cbn [andb].
      rewrite <- awaited_forallb. apply callAll_forall.
      apply Forall_forall. intros cb _ s. rewrite awaited_forallb. apply H. }
    destruct e as [|t p|i ok]; cbn [step].
    - now apply C.
    - now apply C.
    - destruct (nth_error (awaiting pg) i); [|assumption].
      destruct ok.
      + apply C. cbn [awaiting]. now apply forallb_without.
      + cbn [fst awaiting]. now apply forallb_without. }
  specialize (IH (fst (step P e pg)) S1).
  destruct (step P e pg) as [pg1 o1]. cbn [fst] in *.
  destruct (steps P rest pg1) as [pg2 o2]. exact IH.
Qed.

Lemma invoke_continuations d cb p s :
  forallb (continuationClosure d)
    (awaited (events (invoke (scriptOf d) cb p s))) = true.
Proof.
  destruct d; destruct cb; open_records; settle p s.
Qed.

(** The rest of a suspended [draw] submits once and starts a frame loop. *)
Lemma continuation_draws d k p s :
  continuationClosure d k = true ->
  List.length (submitted (events (invoke (scriptOf d) k p s))) = 1
  /\ List.length (requested (events (invoke (scriptOf d) k p s))) = 1.
Proof.
  intros C. destruct d; try discriminate C.
  destruct k; try discriminate C.
  destruct s as [br n g]. split; reflexivity.
Qed.

Lemma awaiting_continuations d b es :
  thrown (boot (scriptOf d) b) = None ->
  forallb (continuationClosure d) (awaiting (pageAfter d b es)) = true.
Proof.
  intros H. unfold pageAfter. apply steps_awaiting.
  - apply invoke_continuations.
  - rewrite loaded_awaiting.
    apply boot_bootLike in H. unfold bootLike in H.
    repeat (apply andb_prop in H; destruct H as [H ?]).
    match goal with
    | F : forallb (continuationClosure d) _ = true |- _ => exact F
    end.
Qed.

(** C7, as the scripts have it.  Every script builds its pipelines while it
    loads (one, two in shadowMapping, four in deferredRendering), each
    once and each from shader modules created just before it: a vertex and
    a fragment shader, except for the depth-only shadow pipeline of
    shadowMapping and the compute pipeline of deferredRendering, which
    have one shader.  No pipeline, shader module or layout is built
    afterwards, and every command buffer submitted later selects only
    those pipelines.  The resize listener runs [draw] again with the same
    pipelines, which submits, starts another frame loop or, in
    cube_imageTexture, waits for the image and then submits and starts
    the loop; before that it reconfigures the canvas context, except in
    shadowMapping, whose listener never calls [context.configure] and
    replaces the render depth texture instead. *)
Theorem C7_pipelines_fixed (d : Demo) (b : Browser) (es : list External) :
  thrown (boot (scriptOf d) b) = None ->
  let resized := snd (step (scriptOf d) resize (pageAfter d b es)) in
  pipelinesBuilt (events (boot (scriptOf d) b)) = bootPipelines d
  /\ NoDup (bootPipelines d)
  /\ bootPipelines d <> []
  /\ map (@List.length string) (pipelineShaders (events (boot (scriptOf d) b)))
     = pipelineStages (events (boot (scriptOf d) b))
  /\ pipelineStages (events (boot (scriptOf d) b)) = stagesOf d
  /\ forallb (fun e => negb (isPipelineBuild e)) (traceAfter d b es) = true
  /\ forallb (fun e => negb (isPipelineBuild e)) resized = true
  /\ incl (pipelinesUsed (traceAfter d b es)) (bootPipelines d)
  /\ incl (pipelinesUsed resized) (bootPipelines d)
  /\ (if reconfiguresOnResize d
      then hd_error resized = Some Configure
      else existsb isConfigure resized = false)
  /\ (if usesAnimationFrames d
      then if loadsInDraw d
           then List.length (awaited resized) = 1 /\ requested resized = []
           else List.length (requested resized) = 1
      else List.length (submitted resized) = 1 /\ requested resized = [])
  /\ Forall (fun k => forall p s,
               List.length (submitted (events (invoke (scriptOf d) k p s))) = 1
               /\ List.length (requested (events (invoke (scriptOf d) k p s)))
                  = 1)
       (awaiting (pageAfter d b es))
  /\ onShadowMapping d replacesDepthTexture (pageAfter d b es).
Proof.
  intros H resized.
  destruct (after_loading d b es H) as (T & L & _ & _).
  destruct (step_tidy (scriptOf d) (sound d) (lawful d)
              (lawful_frame d) (lawful_listener d) (lawful_await d)
              (invoke_lawful d)
              (frame_once_all d) resize (pageAfter d b es) T)
    as (_ & L1 & _ & _).
  fold resized in L1.
  destruct (bootPipelines_distinct d) as [N1 N2].
  pose proof (resize_step d b es H) as R. fold resized in R.
  unfold resizeLike in R.
  repeat (apply andb_prop in R; destruct R as [R ?]).
  pose proof (boot_bootLike d b H) as B. unfold bootLike in B.
  repeat (apply andb_prop in B; destruct B as [B ?]).
  assert (W : forall out, forallb (lawful d) out = true ->
                forallb (fun e : Event (Closure (scriptOf d)) =>
                           negb (isPipelineBuild e)) out = true).
  { intros out Lo. eapply forallb_weaken; [|exact Lo].
    intros e He. unfold lawful in He.
    repeat (apply andb_prop in He; destruct He as [He ?]). exact He. }
  split; [now apply handles_eqb_eq|].
  split; [exact N1|]. split; [exact N2|].
  split; [now apply handles_eqb_eq|].
  split; [now apply handles_eqb_eq|].
  split; [now apply W|]. split; [now apply W|].
  split; [now apply pipelinesUsed_lawful|].
  split; [now apply pipelinesUsed_lawful|].
  split.
  { destruct (reconfiguresOnResize d).
    - destruct resized as [|[] ?]; try discriminate R. reflexivity.
    - now apply negb_true_iff. }
  split.
  { destruct (usesAnimationFrames d).
    - destruct (loadsInDraw d);
        match goal with
        | F : _ && _ = true |- _ => apply andb_prop in F; destruct F as [F1 F2]
        end; apply Nat.eqb_eq in F1, F2.
      + split; [assumption|]. now apply length_zero_iff_nil.
      + assumption.
    - repeat match goal with
             | F : _ && _ = true |- _ => apply andb_prop in F; destruct F
             end.
      repeat match goal with
             | F : Nat.eqb _ _ = true |- _ => apply Nat.eqb_eq in F
             end.
      split; [assumption|]. now apply length_zero_iff_nil. }
  split.
  { pose proof (awaiting_continuations d b es H) as A.
    rewrite forallb_forall in A. apply Forall_forall.
    intros k Hk p s. apply continuation_draws. now apply A. }
  destruct d; try exact I. now apply shadow_resize_replaces.
Qed.

Lemma C7_pipelines_fixed_witness :
  thrown (boot (scriptOf cube_imageTexture) fullBrowser) = None
  /\ let d := cube_imageTexture in
     let b := fullBrowser in
     let es := [resize; AnimationFrame] in
     let resized := snd (step (scriptOf d) resize (pageAfter d b es)) in
     pipelinesBuilt (events (boot (scriptOf d) b)) = bootPipelines d
     /\ NoDup (bootPipelines d)
     /\ bootPipelines d <> []
     /\ map (@List.length string)
          (pipelineShaders (events (boot (scriptOf d) b)))
        = pipelineStages (events (boot (scriptOf d) b))
     /\ pipelineStages (events (boot (scriptOf d) b)) = stagesOf d
     /\ forallb (fun e => negb (isPipelineBuild e)) (traceAfter d b es) = true
     /\ forallb (fun e => negb (isPipelineBuild e)) resized = true
     /\ incl (pipelinesUsed (traceAfter d b es)) (bootPipelines d)
     /\ incl (pipelinesUsed resized) (bootPipelines d)
     /\ (if reconfiguresOnResize d
         then hd_error resized = Some Configure
         else existsb isConfigure resized = false)
     /\ (if usesAnimationFrames d
         then if loadsInDraw d
              then List.length (awaited resized) = 1 /\ requested resized = []
              else List.length (requested resized) = 1
         else List.length (submitted resized) = 1 /\ requested resized = [])
     /\ Forall (fun k => forall p s,
                  List.length (submitted (events (invoke (scriptOf d) k p s)))
                  = 1
                  /\ List.length
                       (requested (events (invoke (scriptOf d) k p s))) = 1)
          (awaiting (pageAfter d b es))
     /\ onShadowMapping d replacesDepthTexture (pageAfter d b es).
Proof.
  split; [reflexivity|].
  apply (C7_pipelines_fixed cube_imageTexture fullBrowser
           [resize; AnimationFrame]).
  reflexivity.
Defined.

(** C7 for every script does not hold: shadowMapping's resize listener
    does not reconfigure the canvas context, and the first of its two
    pipelines is built from a vertex shader alone. *)
Lemma C7_counterexample :
  ~ existsb isConfigure
      (snd (step (scriptOf shadowMapping) resize
              (loaded (scriptOf shadowMapping) fullBrowser))) = true
  /\ pipelineStages (events (boot (scriptOf shadowMapping) fullBrowser))
     = [1; 2].
Proof. split; [vm_compute; discriminate | vm_compute; reflexivity]. Qed.
(** *** binary32 arithmetic *)

Section Binary32.

Import F32.
Local Open Scope Q_scope.

Lemma Qred_inject_Z z : Qred (inject_Z z) = inject_Z z.
Proof. apply Qcanon.Qred_identity. simpl. apply Z.gcd_1_r. Qed.

Lemma round_comp p q : p == q -> round p = round q.
Proof. intros E. unfold round. now rewrite (Qred_complete _ _ E). Qed.

Lemma exponents_In k : (-149 <= k <= 104)%Z -> In k exponents.
Proof.
  intros H. unfold exponents. apply in_map_iff.
  exists (Z.to_nat (k + 149)). split; [lia|]. apply in_seq. lia.
Qed.

Lemma onGrid_int q k z :
  q * pow2 (- k) == inject_Z z -> (Z.abs z < 2 ^ 24)%Z -> onGrid q k = true.
Proof.
  intros E B. unfold onGrid.
  rewrite (Qred_complete _ _ E), Qred_inject_Z. cbn [Qden Qnum inject_Z].
  rewrite Pos.eqb_refl. now apply Z.ltb_lt.
Qed.

Lemma representable_on q k :
  (-149 <= k <= 104)%Z -> onGrid q k = true -> representable q = true.
Proof.
  intros K G. apply existsb_exists. exists k. split; [|exact G].
  now apply exponents_In.
Qed.

Lemma representable_int z :
  (Z.abs z <= 2 ^ 24)%Z -> representable (inject_Z z) = true.
Proof.
  intros B.
  destruct (Z.eq_dec z (2 ^ 24)) as [->|U]; [vm_compute; reflexivity|].
  destruct (Z.eq_dec z (- 2 ^ 24)) as [->|L]; [vm_compute; reflexivity|].
  apply representable_on with (k := 0%Z); [lia|].
  apply onGrid_int with (z := z); [|lia].
  change (pow2 (- 0)) with 1. ring.
Qed.

Lemma representable_half z :
  (Z.abs z <= 2 ^ 24)%Z -> representable (Qred (inject_Z z / 2)) = true.
Proof.
  intros B.
  destruct (Z.eq_dec z (2 ^ 24)) as [->|U]; [vm_compute; reflexivity|].
  destruct (Z.eq_dec z (- 2 ^ 24)) as [->|L]; [vm_compute; reflexivity|].
  apply representable_on with (k := (-1)%Z); [lia|].
  apply onGrid_int with (z := z); [|lia].
  rewrite Qred_correct. change (pow2 (- -1)) with 2. field.
Qed.

(** An integer up to 2^24 and a half of one are results without rounding. *)
Lemma round_int q z :
  q == inject_Z z -> (Z.abs z <= 2 ^ 24)%Z -> round q = Finite (inject_Z z).
Proof.
  intros E B. unfold round.
  rewrite (Qred_complete _ _ E), Qred_inject_Z.
  now rewrite representable_int.
Qed.

Lemma round_half q z :
  q == inject_Z z / 2 -> (Z.abs z <= 2 ^ 24)%Z ->
  round q = Finite (Qred (inject_Z z / 2)).
Proof.
  intros E B. unfold round.
  rewrite (Qred_complete _ _ E). now rewrite representable_half.
Qed.

Lemma floor_half k : Qfloor (inject_Z k / 2) = (k / 2)%Z.
Proof.
  unfold Qdiv, Qmult, Qinv, Qfloor, inject_Z. simpl.
  now rewrite Z.mul_1_r.
Qed.

Lemma floor_range x :
  Qabs x < inject_Z (2 ^ 23) -> (Z.abs (Qfloor x) <= 2 ^ 23)%Z.
Proof.
  intros B.
  assert (U : x < inject_Z (2 ^ 23)).
  { apply Qle_lt_trans with (Qabs x); [apply Qle_Qabs | exact B]. }
  assert (L : inject_Z (- 2 ^ 23) < x).
  { rewrite inject_Z_opp. apply Qabs_Qlt_condition in B. apply B. }
  assert (U' : (Qfloor x < 2 ^ 23)%Z).
  { rewrite Zlt_Qlt. apply Qle_lt_trans with x; [apply Qfloor_le | exact U]. }
  assert (L' : (- 2 ^ 23 < Qfloor x + 1)%Z).
  { rewrite Zlt_Qlt. apply Qlt_trans with x; [exact L | apply Qlt_floor]. }
  lia.
Qed.

Lemma binary32_finite q :
  isBinary32 (Finite q) = true -> Qred q = q /\ representable q = true.
Proof.
  cbn [isBinary32]. intros H.
  apply andb_prop in H as [H R]. apply andb_prop in H as [N D].
  apply Z.eqb_eq in N. apply Pos.eqb_eq in D. split; [|exact R].
  destruct (Qred q) as [n d], q as [n' d']. cbn in N, D. now subst.
Qed.

(** A binary32 number is the result of any computation that yields it
    exactly. *)
Lemma round_binary32 q p :
  isBinary32 (Finite q) = true -> p == q -> round p = Finite q.
Proof.
  intros H E. apply binary32_finite in H as [Q R]. unfold round.
  rewrite (Qred_complete _ _ E), Q. now rewrite R.
Qed.

Lemma lit_0 : lit 0 = Finite 0.
Proof. vm_compute. reflexivity. Qed.

Lemma lit_1 : lit 1 = Finite 1.
Proof. vm_compute. reflexivity. Qed.

Lemma lit_2 : lit 2 = Finite 2.
Proof. vm_compute. reflexivity. Qed.

Lemma fmul_one x : isBinary32 x = true -> fmul (lit 1) x = x.
Proof.
  intros H. rewrite lit_1. destruct x as [q|s|]; cbn [fmul].
  - apply round_binary32; [exact H | ring].
  - now destruct s.
  - reflexivity.
Qed.

Lemma fadd_zero x : isBinary32 x = true -> fadd (lit 0) x = x.
Proof.
  intros H. rewrite lit_0. destruct x as [q|s|]; cbn [fadd].
  - apply round_binary32; [exact H | ring].
  - reflexivity.
  - reflexivity.
Qed.

Lemma feq_one x :
  isBinary32 x = true -> (feq x (lit 1) = true <-> x = Finite 1).
Proof.
  intros H. rewrite lit_1. destruct x as [q|s|]; cbn [feq].
  - apply binary32_finite in H as [Q _]. split.
    + intros E. apply Qeq_bool_iff in E. apply Qred_complete in E.
      rewrite Q in E. now rewrite E.
    + intros E. injection E as ->. reflexivity.
  - split; discriminate.
  - split; discriminate.
Qed.

End Binary32.

(** *** The lighting fragment shader *)

Section LightingShader.

Import F32.
Import BaseLighting2Frag.

Lemma marker_white c :
  isBinary32 (x c) = true -> isBinary32 (y c) = true ->
  isBinary32 (z c) = true ->
  (isLightMarker c = true
   <-> x c = Finite 1 /\ y c = Finite 1 /\ z c = Finite 1).
Proof.
  intros X Y Z. unfold isLightMarker.
  rewrite !andb_true_iff, (feq_one _ X), (feq_one _ Y), (feq_one _ Z).
  tauto.
Qed.

(** C8.  Over binary32 arithmetic and for any implementation of the
    builtins, the shader returns alpha 1.0 on every fragment input; where
    the ambient intensity, the light's intensity and the colour components
    are binary32 values (NaN and the infinities included), an object colour
    of exactly (1,1,1) is returned as (1,1,1,1), and any other colour is
    returned multiplied, component by component, by the light
    ambientIntensity + D, where D is added exactly when
    distance = length(L) < radius holds for L = lightPosition - fragPosition,
    and then D = intensity * max(dot(normalize(L), normal), 0)
    * pow(1 - distance/radius, 2), every operation being the f32 one. *)
Theorem C8_fragment_as_documented (fn : Builtins) ambientIntensity pointLight
  fragPosition fragNormal fragUV fragColor :
  let out :=
    main fn ambientIntensity pointLight fragPosition fragNormal fragUV
      fragColor in
  let white :=
    r fragColor = Finite 1 /\ g fragColor = Finite 1
    /\ b fragColor = Finite 1 in
  let lightPosition := fst pointLight in
  let intensity := r (snd pointLight) in
  let radius := g (snd pointLight) in
  let L := {| x := fsub (r lightPosition) (x fragPosition);
              y := fsub (g lightPosition) (y fragPosition);
              z := fsub (b lightPosition) (z fragPosition) |} in
  let distance := length fn L in
  let D :=
    fmul
      (fmul intensity
         (max fn (dot fn (normalize fn L) fragNormal) (Finite 0)))
      (pow fn (fsub (Finite 1) (fdiv distance radius)) (Finite 2)) in
  let light :=
    if flt distance radius then fadd ambientIntensity D
    else ambientIntensity in
  a out = Finite 1
  /\ (isBinary32 ambientIntensity = true ->
      isBinary32 intensity = true ->
      isBinary32 (r fragColor) = true ->
      isBinary32 (g fragColor) = true ->
      isBinary32 (b fragColor) = true ->
      (white ->
       out = {| r := Finite 1; g := Finite 1; b := Finite 1; a := Finite 1 |})
      /\ (~ white ->
          r out = fmul (r fragColor) light
          /\ g out = fmul (g fragColor) light
          /\ b out = fmul (b fragColor) light)).
Proof.
  intros out white lightPosition intensity radius L distance D light.
  split.
  { unfold out, main. destruct (isLightMarker (rgb fragColor)); apply lit_1. }
  intros HA HI HR HG HB.
  pose proof (marker_white (rgb fragColor) HR HG HB) as W.
  cbn [rgb x y z] in W. fold white in W.
  assert (EL : sub (xyz (fst pointLight)) fragPosition = L) by reflexivity.
  assert (Elight :
    (if flt distance radius
     then
       add (add {| x := lit 0; y := lit 0; z := lit 0 |}
              (scale {| x := lit 1; y := lit 1; z := lit 1 |}
                 ambientIntensity))
         (scale
            (scale (scale {| x := lit 1; y := lit 1; z := lit 1 |} intensity)
               (max fn (dot fn (normalize fn L) fragNormal) (lit 0)))
            (pow fn (fsub (lit 1) (fdiv distance radius)) (lit 2)))
     else
       add {| x := lit 0; y := lit 0; z := lit 0 |}
         (scale {| x := lit 1; y := lit 1; z := lit 1 |} ambientIntensity))
    = {| x := light; y := light; z := light |}).
  { unfold light, D, add, scale. cbn [x y z].
    rewrite (fmul_one _ HA), (fmul_one _ HI), (fadd_zero _ HA).
    rewrite lit_0, lit_1, lit_2.
    destruct (flt distance radius); reflexivity. }
  unfold out, main. rewrite EL. fold distance intensity radius.
  rewrite Elight.
  destruct (isLightMarker (rgb fragColor)) eqn:M.
  - assert (Hw : white) by now apply W.
    split; [|intros N; now elim N].
    intros _. destruct Hw as (Er & Eg & Eb).
    unfold vec4_of, rgb. cbn [x y z]. now rewrite Er, Eg, Eb, lit_1.
  - split.
    + intros Hw. apply W in Hw. discriminate.
    + intros _. repeat split.
Qed.

(** A sample input inside the light's radius: a red object at the
    origin, the light on the x axis at distance 1 with radius 2 and
    intensity 1, the ambient intensity 1/2. *)
Lemma C8_fragment_as_documented_witness :
  main alongX (lit (1 # 2))
    ({| r := lit 1; g := lit 0; b := lit 0; a := lit 1 |},
     {| r := lit 1; g := lit 2; b := lit 0; a := lit 0 |})
    {| x := lit 0; y := lit 0; z := lit 0 |}
    {| x := lit 1; y := lit 0; z := lit 0 |}
    (lit 0, lit 0)
    {| r := lit 1; g := lit 0; b := lit 0; a := lit 1 |}
  = {| r := Finite (3 # 4); g := Finite 0; b := Finite 0; a := Finite 1 |}.
Proof.
  destruct
    (C8_fragment_as_documented alongX (lit (1 # 2))
       ({| r := lit 1; g := lit 0; b := lit 0; a := lit 1 |},
        {| r := lit 1; g := lit 2; b := lit 0; a := lit 0 |})
       {| x := lit 0; y := lit 0; z := lit 0 |}
       {| x := lit 1; y := lit 0; z := lit 0 |}
       (lit 0, lit 0)
       {| r := lit 1; g := lit 0; b := lit 0; a := lit 1 |})
    as (Ha & H).
  destruct (H eq_refl eq_refl eq_refl eq_refl eq_refl) as (_ & Hc).
  destruct Hc as (Hr & Hg & Hb).
  { intros (_ & E & _). vm_compute in E. discriminate. }
  destruct (main _ _ _ _ _ _ _) as [r0 g0 b0 a0].
  cbn [r g b a] in Ha, Hr, Hg, Hb. subst.
  vm_compute. reflexivity.
Defined.

End LightingShader.

(** *** The G-buffer fragment shader *)

Section GBufferShader.

Import F32.
Import WriteGBuffersFrag.
Local Open Scope Q_scope.

Lemma parity_bit x y : (parity x y = 0 \/ parity x y = 1)%Z.
Proof.
  unfold parity. pose proof (Z.mod_pos_bound (Qfloor x + Qfloor y) 2). lia.
Qed.

(** The sum of two integers up to 2^23, less twice the floor of its half:
    every step is exact. *)
Lemma parity_exact k1 k2 :
  (Z.abs k1 <= 2 ^ 23)%Z -> (Z.abs k2 <= 2 ^ 23)%Z ->
  let s := fadd (Finite (inject_Z k1)) (Finite (inject_Z k2)) in
  fsub s (fmul (lit 2) (floor (fdiv s (lit 2))))
  = Finite (inject_Z ((k1 + k2) mod 2)).
Proof.
  intros B1 B2 s.
  assert (Es : s = Finite (inject_Z (k1 + k2))).
  { unfold s. cbn [fadd]. apply round_int; [|lia].
    now rewrite inject_Z_plus. }
  rewrite Es, lit_2. cbn [fdiv].
  change (isZero 2) with false. cbn iota.
  rewrite (round_half _ (k1 + k2)) by (reflexivity || lia).
  cbn [floor].
  rewrite (Qfloor_comp _ _ (Qred_correct _)), floor_half.
  cbn [fmul].
  rewrite (round_int _ (2 * ((k1 + k2) / 2))).
  - cbn [fsub fneg fadd]. apply round_int.
    + rewrite (Z.mod_eq (k1 + k2) 2) by lia.
      rewrite <- inject_Z_opp, <- inject_Z_plus. reflexivity.
    + pose proof (Z.mod_pos_bound (k1 + k2) 2). lia.
  - now rewrite inject_Z_mult.
  - pose proof (Z.mul_div_le (k1 + k2) 2).
    pose proof (Z.mod_pos_bound (k1 + k2) 2).
    pose proof (Z.div_mod (k1 + k2) 2). lia.
Qed.

(** Within the range where the sum of the two floors is exact, the grey
    follows their parity. *)
Lemma gbuffer_grey fragNormal fragUV x0 y0 :
  fmul (lit 30) (x2 fragUV) = Finite x0 ->
  fmul (lit 30) (y2 fragUV) = Finite y0 ->
  Qabs x0 < inject_Z (2 ^ 23) -> Qabs y0 < inject_Z (2 ^ 23) ->
  r (albedo (main fragNormal fragUV))
  = (if (parity x0 y0 =? 0)%Z then lit (2 # 10) else lit (7 # 10)).
Proof.
  intros Ex Ey Bx By.
  unfold main. cbn [albedo r x2 y2].
  rewrite Ex, Ey. cbn [floor].
  rewrite (parity_exact _ _ (floor_range _ Bx) (floor_range _ By)).
  fold (parity x0 y0).
  destruct (parity_bit x0 y0) as [P|P]; rewrite P; vm_compute; reflexivity.
Qed.




End GBufferShader.
(** *** Uniform uploads of two_cubes *)

Section BufferWrites.

Import Memory.

Lemma writeBuffer_inside buf off data doff size :
  doff + size <= List.length data ->
  off + size <= List.length buf ->
  off mod 4 = 0 -> size mod 4 = 0 ->
  writeBuffer buf off data doff size
  = Some (firstn off buf ++ firstn size (skipn doff data)
          ++ skipn (off + size) buf).
Proof.
  intros H1 H2 H3 H4. unfold writeBuffer.
  apply Nat.leb_le in H1, H2. apply Nat.eqb_eq in H3, H4.
  now rewrite H1, H2, H3, H4.
Qed.

Lemma writeBuffer_rejected buf off data doff size :
  List.length buf < off + size -> writeBuffer buf off data doff size = None.
Proof.
  intros H. unfold writeBuffer.
  apply Nat.leb_gt in H. rewrite H.
  now rewrite andb_false_r.
Qed.

Lemma source_length (data : Bytes) doff size :
  doff + size <= List.length data ->
  List.length (firstn size (skipn doff data)) = size.
Proof.
  intros H. rewrite length_firstn, length_skipn. lia.
Qed.

Lemma written_length (buf src : Bytes) off :
  off + List.length src <= List.length buf ->
  List.length (firstn off buf ++ src ++ skipn (off + List.length src) buf)
  = List.length buf.
Proof.
  intros H. rewrite !length_app, length_firstn, length_skipn. lia.
Qed.

Lemma written_outside (buf src : Bytes) off i :
  off + List.length src <= List.length buf ->
  i < off \/ off + List.length src <= i ->
  nth_error (firstn off buf ++ src ++ skipn (off + List.length src) buf) i
  = nth_error buf i.
Proof.
  intros H [Hi|Hi].
  - rewrite nth_error_app1 by (rewrite length_firstn; lia).
    rewrite nth_error_firstn.
    apply Nat.ltb_lt in Hi. now rewrite Hi.
  - rewrite nth_error_app2 by (rewrite length_firstn; lia).
    rewrite length_firstn.
    rewrite nth_error_app2 by lia.
    rewrite nth_error_skipn. f_equal. lia.
Qed.

Lemma written_inside (buf src : Bytes) off :
  off + List.length src <= List.length buf ->
  bound (firstn off buf ++ src ++ skipn (off + List.length src) buf) off
    (List.length src)
  = src.
Proof.
  intros H. unfold bound.
  rewrite skipn_app, length_firstn.
  replace (Nat.min off (List.length buf)) with off by lia.
  rewrite skipn_all2 by (rewrite length_firstn; lia).
  rewrite Nat.sub_diag. cbn [skipn app].
  rewrite firstn_app, firstn_all, Nat.sub_diag. cbn [firstn].
  apply app_nil_r.
Qed.

Lemma bound_ext (b1 b2 : Bytes) off size :
  (forall i, off <= i < off + size -> nth_error b1 i = nth_error b2 i) ->
  bound b1 off size = bound b2 off size.
Proof.
  intros H. unfold bound. apply nth_error_ext. intros i.
  rewrite !nth_error_firstn, !nth_error_skipn.
  destruct (Nat.ltb_spec i size); [|reflexivity].
  apply H. lia.
Qed.

Lemma mat4_contents m :
  isMat4 m -> contents m = buffer m /\ List.length (contents m) = 64.
Proof.
  intros (E1 & E2 & E3).
  assert (E : contents m = buffer m).
  { unfold contents. rewrite E1, E2. cbn [skipn].
    rewrite <- E3. apply firstn_all. }
  rewrite E. auto.
Qed.

(** A write that fits: the destination range receives the view's bytes,
    every other byte of the buffer keeps its value. *)
Lemma writeBuffer_view buf off (m : TypedArray) :
  byteOffset m + byteLength m <= List.length (buffer m) ->
  off + byteLength m <= List.length buf ->
  off mod 4 = 0 -> byteLength m mod 4 = 0 ->
  exists buf',
    writeBuffer buf off (buffer m) (byteOffset m) (byteLength m) = Some buf'
    /\ List.length buf' = List.length buf
    /\ bound buf' off (byteLength m) = contents m
    /\ forall i, i < off \/ off + byteLength m <= i ->
                 nth_error buf' i = nth_error buf i.
Proof.
  intros H1 H2 H3 H4. rewrite writeBuffer_inside by assumption.
  fold (contents m). clear H4.
  assert (E : List.length (contents m) = byteLength m)
    by now apply source_length.
  rewrite <- E in *.
  eexists. split; [reflexivity|]. split; [|split].
  - now apply written_length.
  - now apply written_inside.
  - intros i Hi. now apply written_outside.
Qed.

End BufferWrites.


(** *** Where the closures of a page come from *)

Section Provenance.

Variable P : Script.
Variable born : list (Event (Closure P)) -> Closure P -> Prop.

Hypothesis born_later : forall h o cb, born h cb -> born (h ++ o) cb.

Hypothesis invoke_born : forall h cb p s,
  born h cb ->
  Forall (born (h ++ events (invoke P cb p s)))
    (requested (events (invoke P cb p s)))
  /\ Forall (fun l => born (h ++ events (invoke P cb p s)) (snd l))
       (listened (events (invoke P cb p s)))
  /\ Forall (born (h ++ events (invoke P cb p s)))
       (awaited (events (invoke P cb p s))).

Lemma native_later h o pg : native P born h pg -> native P born (h ++ o) pg.
Proof.
  intros (Q & L & A).
  split; [|split]; eapply Forall_impl; try eassumption; intros;
    now apply born_later.
Qed.

Lemma callAll_native cbs p : forall h pg,
  Forall (born h) cbs -> native P born h pg ->
  native P born (h ++ snd (callAll P cbs p pg)) (fst (callAll P cbs p pg)).
Proof.
  induction cbs as [|cb rest IH]; intros h pg Hc Hn; simpl.
  - now rewrite app_nil_r.
  - inversion Hc as [|? ? Hcb Hrest]; subst.
    destruct (invoke_born h cb p (state pg) Hcb) as (B1 & B2 & B3).
    set (o := invoke P cb p (state pg)) in *.
    assert (Hn1 : native P born (h ++ events o) (absorb P o pg)).
    { destruct (native_later h (events o) pg Hn) as (Q & L & A).
      split; [|split]; cbn [absorb rafQueue listeners awaiting];
        apply Forall_app; auto. }
    assert (Hr : Forall (born (h ++ events o)) rest).
    { eapply Forall_impl; [|exact Hrest]. intros; now apply born_later. }
    specialize (IH (h ++ events o) (absorb P o pg) Hr Hn1).
    destruct (callAll P rest p (absorb P o pg)) as [pg2 o2].
    cbn [fst snd] in *. now rewrite app_assoc.
Qed.

Lemma step_native e h pg :
  native P born h pg ->
  native P born (h ++ snd (step P e pg)) (fst (step P e pg)).
Proof.
  intros Hn. destruct e as [|t p|i ok]; cbn [step].
  - apply callAll_native; [apply Hn|].
    destruct Hn as (_ & L & A). split; [constructor | split; assumption].
  - apply callAll_native; [|exact Hn].
    destruct Hn as (_ & L & _). unfold listening.
    induction (listeners pg) as [|l ls IHl]; simpl; [constructor|].
    inversion L; subst.
    destruct (Target_eqb t (fst l)); simpl; auto.
  - destruct (nth_error (awaiting pg) i) as [k|] eqn:E;
      [|cbn; now rewrite app_nil_r].
    assert (Hk : born h k).
    { destruct Hn as (_ & _ & A). rewrite Forall_forall in A.
      apply A. eapply nth_error_In. exact E. }
    assert (Hn1 : native P born h
                    {| state := state pg; rafQueue := rafQueue pg;
                       listeners := listeners pg;
                       awaiting := without i (awaiting pg) |}).
    { destruct Hn as (Q & L & A).
      split; [exact Q | split; [exact L |]].
      now apply Forall_without. }
    destruct ok.
    + apply callAll_native; [|exact Hn1]. constructor; [exact Hk|constructor].
    + cbn [fst snd]. now rewrite app_nil_r.
Qed.

Lemma steps_native es : forall h pg,
  native P born h pg ->
  native P born (h ++ snd (steps P es pg)) (fst (steps P es pg)).
Proof.
  induction es as [|e rest IH]; intros h pg Hn; simpl.
  - now rewrite app_nil_r.
  - pose proof (step_native e h pg Hn) as S1.
    destruct (step P e pg) as [pg1 o1]. cbn [fst snd] in *.
    specialize (IH (h ++ o1) pg1 S1).
    destruct (steps P rest pg1) as [pg2 o2]. cbn [fst snd] in *.
    now rewrite app_assoc.
Qed.

End Provenance.

Lemma twoCubes_born_later h o cb :
  twoCubesBorn h cb -> twoCubesBorn (h ++ o) cb.
Proof.
  destruct cb; simpl; [|auto].
  intros (H1 & H2 & H3). repeat split; apply in_or_app; now left.
Qed.

Lemma twoCubes_invoke_born h cb p s :
  twoCubesBorn h cb ->
  Forall (twoCubesBorn (h ++ events (invoke TwoCubes.script cb p s)))
    (requested (events (invoke TwoCubes.script cb p s)))
  /\ Forall (fun l => twoCubesBorn
                        (h ++ events (invoke TwoCubes.script cb p s)) (snd l))
       (listened (events (invoke TwoCubes.script cb p s)))
  /\ Forall (twoCubesBorn (h ++ events (invoke TwoCubes.script cb p s)))
       (awaited (events (invoke TwoCubes.script cb p s))).
Proof.
  intros B. destruct s as [br n g]. destruct cb as [pl vb ub g1 g2 dv|pl].
  - split; [|split; constructor].
    constructor; [|constructor].
    now apply (twoCubes_born_later h _ (TwoCubes.Frame pl vb ub g1 g2 dv)).
  - split; [|split; constructor].
    constructor; [|constructor].
    cbn. repeat split; apply in_or_app; right; cbn; auto 10.
Qed.

Lemma twoCubes_native b es :
  thrown (boot TwoCubes.script b) = None ->
  native TwoCubes.script twoCubesBorn
    (events (boot TwoCubes.script b) ++ traceAfter two_cubes b es)
    (pageAfter two_cubes b es).
Proof.
  intros H. unfold traceAfter, pageAfter.
  apply (steps_native TwoCubes.script twoCubesBorn).
  - apply twoCubes_born_later.
  - apply twoCubes_invoke_born.
  - destruct b as [q g a c i].
    change TwoCubes.script with (scriptOf two_cubes) in *.
    decide_flags H q.
    all: split; [|split]; cbv -[String.eqb Nat.eqb In]; closed_tests;
      use_flags q;
      repeat first [apply Forall_cons | apply Forall_nil | split];
      cbn [In]; repeat (first [left; reflexivity | right]).
Qed.

Section TwoCubesRegions.

Import Memory TwoCubesUniforms.

(** C10.  In two_cubes, [draw] creates one 320-byte uniform buffer and two
    bind groups on it, the first showing bytes [0,64), the second bytes
    [256,320), and registers a frame callback that holds exactly these.
    Every activation of [frame] uploads the first cube's matrix at offset 0
    and the second cube's at offset 256 of the buffer it holds, 64 bytes
    each and nothing else, draws once with each bind group and registers
    itself again; and on every page the script reaches, every queued frame
    callback holds a buffer created with 320 bytes and two bind groups
    created on bytes [0,64) and [256,320) of it.  On the buffer's bytes:
    the first upload sets region 1 to the first matrix and changes no byte
    from 64 on, so region 2 is as before; the second upload sets region 2
    to the second matrix and changes no byte outside [256,320), so region 1
    still holds the first matrix. *)
Theorem C10_uniform_regions (pipeline : Handle) (s : St unit)
  (vb ub g1 g2 dv : Handle) (uniformBuffer : Bytes) (m1 m2 : TypedArray)
  (b : Browser) (es : list External) :
  List.length uniformBuffer = N.to_nat TwoCubes.uniformBufferSize ->
  isMat4 m1 -> isMat4 m2 ->
  thrown (boot TwoCubes.script b) = None ->
  (let n := next s in
   events (TwoCubes.draw pipeline s)
   = [CreateBuffer n (Ext "cubeVertexArray.byteLength");
      CreateTexture (1 + n);
      CreateBuffer (2 + n) (Lit 320);
      CreateBindGroup (3 + n) pipeline 0 [BindBuffer (2 + n) 0 (Some 64%N)];
      CreateBindGroup (4 + n) pipeline 0 [BindBuffer (2 + n) 256 (Some 64%N)];
      CurrentTextureView (5 + n);
      CreateView (6 + n) (1 + n);
      RequestAnimationFrame
        (TwoCubes.Frame pipeline n (2 + n) (3 + n) (4 + n) (6 + n))])
  /\ events (TwoCubes.frame pipeline vb ub g1 g2 dv s)
     = [WriteBuffer ub 0 (Lit 64);
        WriteBuffer ub 256 (Lit 64);
        CurrentTextureView (next s);
        Submit [[RenderPass
                   {| colorAttachments :=
                        [{| view := next s; resolveTarget := None |}];
                      depthStencilAttachment := Some dv |}
                   [SetPipeline pipeline;
                    SetVertexBuffer 0 vb;
                    SetBindGroup 0 g1;
                    Draw (Ext "cubeVertexCount") 1;
                    SetBindGroup 0 g2;
                    Draw (Ext "cubeVertexCount") 1]]];
        RequestAnimationFrame (TwoCubes.Frame pipeline vb ub g1 g2 dv)]
  /\ firstn 2 (events (TwoCubes.frame pipeline vb ub g1 g2 dv s))
     = [WriteBuffer ub 0 (Lit 64); WriteBuffer ub 256 (Lit 64)]
  /\ List.length (filter (fun e : Event TwoCubes.Cb =>
                            match e with WriteBuffer _ _ _ => true | _ => false end)
                    (events (TwoCubes.frame pipeline vb ub g1 g2 dv s))) = 2
  /\ Forall
       (twoCubesBorn
          (events (boot TwoCubes.script b) ++ traceAfter two_cubes b es))
       (rafQueue (pageAfter two_cubes b es))
  /\ exists b1 b2,
       upload1 uniformBuffer m1 = Some b1
       /\ upload2 b1 m2 = Some b2
       /\ frameUploads uniformBuffer m1 m2 = Some b2
       /\ region1 b1 = contents m1
       /\ region2 b1 = region2 uniformBuffer
       /\ (forall i, 64 <= i -> nth_error b1 i = nth_error uniformBuffer i)
       /\ region2 b2 = contents m2
       /\ region1 b2 = region1 b1
       /\ (forall i, i < 256 \/ 320 <= i -> nth_error b2 i = nth_error b1 i).
Proof.
  intros L (O1 & B1 & D1) (O2 & B2 & D2) Hb.
  split; [destruct s; reflexivity|].
  split; [destruct s; reflexivity|].
  split; [destruct s; reflexivity|].
  split; [destruct s; reflexivity|].
  split; [apply (twoCubes_native b es Hb)|].
  change (N.to_nat TwoCubes.uniformBufferSize) with 320 in L.
  unfold frameUploads, upload1, upload2, region1, region2.
  change (N.to_nat TwoCubes.offset) with 256.
  change (N.to_nat TwoCubes.matrixSize) with 64.
  destruct (writeBuffer_view uniformBuffer 0 m1) as (b1 & W1 & L1 & I1 & U1);
    [lia | lia | reflexivity | now rewrite B1 |].
  destruct (writeBuffer_view b1 256 m2) as (b2 & W2 & L2 & I2 & U2);
    [lia | lia | reflexivity | now rewrite B2 |].
  rewrite B1 in *. rewrite B2 in *.
  exists b1, b2. rewrite W1, W2.
  split; [reflexivity|]. split; [reflexivity|]. split; [reflexivity|].
  split; [exact I1|].
  split; [apply bound_ext; intros i Hi; apply U1; lia|].
  split; [intros i Hi; apply U1; lia|].
  split; [exact I2|].
  split; [apply bound_ext; intros i Hi; apply U2; lia|].
  intros i Hi; apply U2; lia.
Qed.

Lemma C10_uniform_regions_witness :
  let pipeline := 2 in
  let s := state (loaded TwoCubes.script fullBrowser) in
  let vb := 3 in
  let ub := 5 in
  let g1 := 6 in
  let g2 := 7 in
  let dv := 9 in
  let uniformBuffer := sampleUniformBuffer in
  let m1 := sampleMatrix Byte.x01 in
  let m2 := sampleMatrix Byte.x02 in
  let b := fullBrowser in
  let es := [AnimationFrame; resize; AnimationFrame] in
  (List.length uniformBuffer = N.to_nat TwoCubes.uniformBufferSize
   /\ isMat4 m1 /\ isMat4 m2
   /\ thrown (boot TwoCubes.script b) = None)
  /\ (
  (let n := next s in
   events (TwoCubes.draw pipeline s)
   = [CreateBuffer n (Ext "cubeVertexArray.byteLength");
      CreateTexture (1 + n);
      CreateBuffer (2 + n) (Lit 320);
      CreateBindGroup (3 + n) pipeline 0 [BindBuffer (2 + n) 0 (Some 64%N)];
      CreateBindGroup (4 + n) pipeline 0 [BindBuffer (2 + n) 256 (Some 64%N)];
      CurrentTextureView (5 + n);
      CreateView (6 + n) (1 + n);
      RequestAnimationFrame
        (TwoCubes.Frame pipeline n (2 + n) (3 + n) (4 + n) (6 + n))])
  /\ events (TwoCubes.frame pipeline vb ub g1 g2 dv s)
     = [WriteBuffer ub 0 (Lit 64);
        WriteBuffer ub 256 (Lit 64);
        CurrentTextureView (next s);
        Submit [[RenderPass
                   {| colorAttachments :=
                        [{| view := next s; resolveTarget := None |}];
                      depthStencilAttachment := Some dv |}
                   [SetPipeline pipeline;
                    SetVertexBuffer 0 vb;
                    SetBindGroup 0 g1;
                    Draw (Ext "cubeVertexCount") 1;
                    SetBindGroup 0 g2;
                    Draw (Ext "cubeVertexCount") 1]]];
        RequestAnimationFrame (TwoCubes.Frame pipeline vb ub g1 g2 dv)]
  /\ firstn 2 (events (TwoCubes.frame pipeline vb ub g1 g2 dv s))
     = [WriteBuffer ub 0 (Lit 64); WriteBuffer ub 256 (Lit 64)]
  /\ List.length (filter (fun e : Event TwoCubes.Cb =>
                            match e with WriteBuffer _ _ _ => true | _ => false end)
                    (events (TwoCubes.frame pipeline vb ub g1 g2 dv s))) = 2
  /\ Forall
       (twoCubesBorn
          (events (boot TwoCubes.script b) ++ traceAfter two_cubes b es))
       (rafQueue (pageAfter two_cubes b es))
  /\ exists b1 b2,
       upload1 uniformBuffer m1 = Some b1
       /\ upload2 b1 m2 = Some b2
       /\ frameUploads uniformBuffer m1 m2 = Some b2
       /\ region1 b1 = contents m1
       /\ region2 b1 = region2 uniformBuffer
       /\ (forall i, 64 <= i -> nth_error b1 i = nth_error uniformBuffer i)
       /\ region2 b2 = contents m2
       /\ region1 b2 = region1 b1
       /\ (forall i, i < 256 \/ 320 <= i -> nth_error b2 i = nth_error b1 i)).
Proof.
  intros pipeline s vb ub g1 g2 dv uniformBuffer m1 m2 b es.
  split; [repeat split; reflexivity|].
  apply (C10_uniform_regions pipeline s vb ub g1 g2 dv uniformBuffer m1 m2
           b es);
    repeat split; reflexivity.
Defined.

End TwoCubesRegions.
(** ** More of what the scripts do *)

(** *** How many frame loops run *)

Lemma Target_eqb_eq a b : Target_eqb a b = true -> a = b.
Proof.
  destruct a, b; simpl; try discriminate; intros H.
  - apply String.eqb_eq in H. now subst.
  - apply andb_prop in H. destruct H as [H1 H2].
    apply String.eqb_eq in H1, H2. now subst.
  - apply String.eqb_eq in H. now subst.
Qed.

Lemma invoke_inPlace d cb p s :
  forallb (inPlace d) (listened (events (invoke (scriptOf d) cb p s))) = true.
Proof.
  destruct d; destruct cb; open_records; settle p s.
Qed.

Lemma boot_inPlace d b :
  forallb (inPlace d) (listened (events (boot (scriptOf d) b))) = true.
Proof.
  boot_cases d b; reflexivity.
Qed.

Lemma invoke_handsOver d cb p s :
  handedOver (events (invoke (scriptOf d) cb p s)) = handsOver d cb.
Proof.
  destruct d; destruct cb; open_records; settle p s.
Qed.

Lemma handedOver_app (P : Script) (o1 o2 : list (Event (Closure P))) :
  handedOver (o1 ++ o2) = handedOver o1 + handedOver o2.
Proof.
  unfold handedOver. rewrite requested_app, awaited_app, !length_app. lia.
Qed.

Lemma callAll_handsOver d cbs p : forall pg,
  handedOver (snd (callAll (scriptOf d) cbs p pg))
  = list_sum (map (handsOver d) cbs).
Proof.
  induction cbs as [|cb rest IH]; intros pg; simpl; [reflexivity|].
  specialize (IH (absorb (scriptOf d) (invoke (scriptOf d) cb p (state pg)) pg)).
  destruct (callAll (scriptOf d) rest p
              (absorb (scriptOf d) (invoke (scriptOf d) cb p (state pg)) pg))
    as [pg2 o2].
  cbn [snd] in *. now rewrite handedOver_app, invoke_handsOver, IH.
Qed.

Lemma callAll_loops d cbs p pg :
  loops (fst (callAll (scriptOf d) cbs p pg))
  = loops pg + list_sum (map (handsOver d) cbs).
Proof.
  destruct (callAll_absorbs (scriptOf d) cbs p pg) as (Q & _ & A).
  unfold loops. rewrite Q, A, !length_app.
  rewrite <- (callAll_handsOver d cbs p pg). unfold handedOver. lia.
Qed.

Lemma length_without {A} (l : list A) : forall i x,
  nth_error l i = Some x -> S (List.length (without i l)) = List.length l.
Proof.
  induction l as [|y l IH]; intros [|i] x H; try discriminate H; simpl.
  - reflexivity.
  - now rewrite (IH i x H).
Qed.

Lemma forallb_flat_map {A B} (f : A -> list B) (g : B -> bool) l :
  forallb g (flat_map f l) = forallb (fun a => forallb g (f a)) l.
Proof.
  induction l as [|a l IH]; simpl; [reflexivity|].
  now rewrite forallb_app, IH.
Qed.

Lemma listened_inPlace d (out : list (Event (Closure (scriptOf d)))) :
  forallb (fun e => match e with
                    | AddEventListener t cb => inPlace d (t, cb)
                    | _ => true
                    end) out
  = forallb (inPlace d) (listened out).
Proof.
  unfold listened. rewrite forallb_flat_map.
  induction out as [|e out IH]; simpl; [reflexivity|].
  rewrite IH. destruct e; try reflexivity.
  simpl. now rewrite andb_true_r.
Qed.

Lemma step_inPlace d e pg :
  forallb (inPlace d) (listeners pg) = true ->
  forallb (inPlace d) (listeners (fst (step (scriptOf d) e pg))) = true.
Proof.
  intros H. rewrite step_absorbs, forallb_app, H. cbn [andb].
  rewrite <- listened_inPlace.
  pose proof (steps_forall (scriptOf d)
                (fun e => match e with
                          | AddEventListener t cb => inPlace d (t, cb)
                          | _ => true
                          end)) as S.
  specialize (S (fun cb p s =>
                   eq_trans (listened_inPlace d _) (invoke_inPlace d cb p s))
                [e] pg).
  cbn [steps] in S. destruct (step (scriptOf d) e pg) as [pg1 o1].
  cbn [snd] in *. now rewrite app_nil_r in S.
Qed.

(** The frames of a queue hand over themselves, the listeners of any event
    but a resize nothing. *)
Lemma frames_hand_over d cbs :
  Forall (fun cb => isFrame (scriptOf d) cb = true) cbs ->
  list_sum (map (handsOver d) cbs) = List.length cbs.
Proof.
  induction 1 as [|cb rest F _ IH]; simpl; [reflexivity|].
  unfold handsOver at 1. rewrite F. cbn [orb]. now rewrite IH.
Qed.

Lemma others_hand_over_nothing d t pg :
  forallb (inPlace d) (listeners pg) = true ->
  Target_eqb (Window "resize") t = false ->
  list_sum (map (handsOver d) (listening (scriptOf d) t pg)) = 0.
Proof.
  intros H T. unfold listening.
  induction (listeners pg) as [|l ls IH]; simpl; [reflexivity|].
  simpl in H. apply andb_prop in H. destruct H as [Hl Hls].
  destruct (Target_eqb t (fst l)) eqn:E; [|now apply IH].
  simpl. rewrite (IH Hls). apply Target_eqb_eq in E. subst t.
  unfold inPlace in Hl. rewrite T in Hl.
  apply andb_prop in Hl. destruct Hl as [Hl C].
  apply andb_prop in Hl. destruct Hl as [R F].
  unfold handsOver.
  apply negb_true_iff in C, F. rewrite C, F. cbn [orb].
  destruct (resizeClosure d (snd l)); [discriminate R | reflexivity].
Qed.

Lemma resize_hands_over d b pg :
  thrown (boot (scriptOf d) b) = None ->
  forallb (inPlace d) (listeners pg) = true ->
  listening (scriptOf d) (Window "resize") pg
  = listening (scriptOf d) (Window "resize") (loaded (scriptOf d) b) ->
  list_sum (map (handsOver d) (listening (scriptOf d) (Window "resize") pg))
  = if usesAnimationFrames d then 1 else 0.
Proof.
  intros H _ E. rewrite E, (resize_listener_any_page d b H).
  destruct d; vm_compute; reflexivity.
Qed.

Lemma steps_loops d b es : forall pg,
  thrown (boot (scriptOf d) b) = None ->
  forallb (fun e => negb (isRejection e)) es = true ->
  tidy (scriptOf d) (sound d) pg ->
  forallb (inPlace d) (listeners pg) = true ->
  forallb (continuationClosure d) (awaiting pg) = true ->
  listening (scriptOf d) (Window "resize") pg
  = listening (scriptOf d) (Window "resize") (loaded (scriptOf d) b) ->
  loops (fst (steps (scriptOf d) es pg))
  = loops pg + (if usesAnimationFrames d then resizes es else 0).
Proof.
  intros pg Hb. revert pg.
  induction es as [|e rest IH]; intros pg Hr Ht Hp Hc Hl.
  - simpl. destruct (usesAnimationFrames d); unfold resizes; simpl; lia.
  - cbn [forallb] in Hr. apply andb_prop in Hr. destruct Hr as [He Hr].
    cbn [steps].
    destruct (step_tidy (scriptOf d) (sound d) (lawful d)
                (lawful_frame d) (lawful_listener d) (lawful_await d)
                (invoke_lawful d) (frame_once_all d) e pg Ht)
      as (S1 & _ & S3 & _).
    pose proof (step_inPlace d e pg Hp) as S4.
    pose proof (steps_awaiting (scriptOf d) (continuationClosure d)
                  (invoke_continuations d) [e] pg Hc) as S5.
    cbn [steps] in S5.
    assert (E : loops (fst (step (scriptOf d) e pg))
                = loops pg
                  + (if usesAnimationFrames d
                     then (if isResize e then 1 else 0) else 0)).
    { destruct e as [|t p|i ok].
      - cbn [step isResize].
        rewrite callAll_loops, frames_hand_over.
        + unfold loops. cbn [rafQueue awaiting List.length].
          destruct (usesAnimationFrames d); lia.
        + destruct Ht as [Hq _]. eapply Forall_impl; [|exact Hq].
          intros cb [_ F]; exact F.
      - cbn [step isResize]. rewrite callAll_loops.
        destruct (Target_eqb (Window "resize") t) eqn:T.
        + apply Target_eqb_eq in T. subst t.
          rewrite (resize_hands_over d b pg Hb Hp Hl).
          destruct (usesAnimationFrames d); lia.
        + rewrite (others_hand_over_nothing d t pg Hp T).
          destruct (usesAnimationFrames d); lia.
      - cbn [isRejection] in He. apply negb_true_iff in He.
        apply negb_false_iff in He. subst ok.
        cbn [step isResize].
        destruct (nth_error (awaiting pg) i) as [k|] eqn:N.
        + rewrite callAll_loops. cbn [map list_sum].
          assert (K : continuationClosure d k = true).
          { rewrite forallb_forall in Hc. apply Hc.
            eapply nth_error_In. exact N. }
          unfold handsOver. rewrite K, orb_true_r. cbv iota.
          unfold loops. cbn [rafQueue awaiting].
          change (list_sum [1]) with 1.
          pose proof (length_without (awaiting pg) i k N).
          destruct (usesAnimationFrames d); lia.
        + cbn [fst]. destruct (usesAnimationFrames d); lia. }
    destruct (step (scriptOf d) e pg) as [pg1 o1]. cbn [fst snd] in *.
    specialize (IH pg1 Hr S1 S4).
    destruct (steps (scriptOf d) [] pg1) eqn:Z. cbn [steps] in Z.
    injection Z as <- <-. cbn [fst] in S5.
    specialize (IH S5 (eq_trans S3 Hl)).
    destruct (steps (scriptOf d) rest pg1) as [pg2 o2]. cbn [fst] in *.
    rewrite IH, E. unfold resizes. cbn [filter].
    destruct (usesAnimationFrames d); [|lia].
    destruct (isResize e); simpl; lia.
Qed.

Lemma loaded_loops d b :
  thrown (boot (scriptOf d) b) = None ->
  loops (loaded (scriptOf d) b) = if usesAnimationFrames d then 1 else 0.
Proof.
  intros H. destruct b as [q g a c i].
  destruct d; decide_flags H q.
  all: cbv -[String.eqb Nat.eqb]; closed_tests; use_flags q; reflexivity.
Qed.

Lemma steps_no_awaiting d es : forall pg,
  loadsInDraw d = false -> awaiting pg = [] ->
  awaiting (fst (steps (scriptOf d) es pg)) = [].
Proof.
  intros pg L A.
  pose proof (steps_awaiting (scriptOf d) (fun _ => false)) as S.
  assert (N : forall cb p s,
            forallb (fun _ : Closure (scriptOf d) => false)
              (awaited (events (invoke (scriptOf d) cb p s))) = true).
  { intros cb p s. destruct d; try discriminate L; destruct cb; open_records;
      settle p s. }
  specialize (S N es pg). rewrite A in S. specialize (S eq_refl).
  destruct (awaiting (fst (steps (scriptOf d) es pg))); [reflexivity|].
  discriminate S.
Qed.

(** X1.  Once a script has loaded, and as long as no image request is
    rejected, every window resize starts another frame loop and nothing
    ever stops one: after any run of browser events, the frame callbacks
    queued and the suspended [draw] activations that will queue one are
    together one more than the resizes among the events (none at all in
    multisample and color_triangle).  Only cube_imageTexture ever has a
    suspended [draw]; in every other script the frame callbacks queued are
    that many, and the next animation frame makes as many submits as there
    are frame callbacks queued. *)
Theorem X1_one_more_loop_per_resize (d : Demo) (b : Browser)
  (es : list External) :
  thrown (boot (scriptOf d) b) = None ->
  forallb (fun e => negb (isRejection e)) es = true ->
  let pg := pageAfter d b es in
  loops pg = (if usesAnimationFrames d then 1 + resizes es else 0)
  /\ (loadsInDraw d = false ->
      awaiting pg = []
      /\ List.length (rafQueue pg)
         = if usesAnimationFrames d then 1 + resizes es else 0)
  /\ List.length (submitted (snd (step (scriptOf d) AnimationFrame pg)))
     = List.length (rafQueue pg).
Proof.
  intros H R pg.
  assert (E : loops pg = if usesAnimationFrames d then 1 + resizes es else 0).
  { unfold pg, pageAfter.
    rewrite (steps_loops d b es (loaded (scriptOf d) b) H R);
      [ rewrite (loaded_loops d b H); destruct (usesAnimationFrames d); lia
      | now apply loaded_tidy
      | rewrite loaded_listeners; apply boot_inPlace
      | apply (awaiting_continuations d b [] H)
      | reflexivity ]. }
  split; [exact E|]. split.
  - intros L.
    assert (A : awaiting pg = []).
    { unfold pg, pageAfter. apply steps_no_awaiting; [exact L|].
      rewrite loaded_awaiting.
      destruct b as [q g a c i]. destruct d; try discriminate L;
        decide_flags H q.
      all: cbv -[String.eqb Nat.eqb]; closed_tests; use_flags q;
        reflexivity. }
    split; [exact A|]. unfold loops in E. rewrite A in E. cbn [List.length] in E.
    lia.
  - destruct (after_loading d b es H) as (T & _).
    destruct (frame_step (scriptOf d) (sound d) (frame_once_all d) pg T)
      as [_ F].
    exact F.
Qed.

Lemma X1_one_more_loop_per_resize_witness :
  (thrown (boot (scriptOf cube_imageTexture) fullBrowser) = None
   /\ forallb (fun e => negb (isRejection e))
        [resize; Settle 0 true; AnimationFrame; resize;
         Dispatch (Window "scroll") PNone] = true)
  /\ let d := cube_imageTexture in
     let es := [resize; Settle 0 true; AnimationFrame; resize;
                Dispatch (Window "scroll") PNone] in
     let pg := pageAfter d fullBrowser es in
     loops pg = (if usesAnimationFrames d then 1 + resizes es else 0)
     /\ (loadsInDraw d = false ->
         awaiting pg = []
         /\ List.length (rafQueue pg)
            = if usesAnimationFrames d then 1 + resizes es else 0)
     /\ List.length (submitted (snd (step (scriptOf d) AnimationFrame pg)))
        = List.length (rafQueue pg).
Proof.
  split; [split; reflexivity|].
  apply (X1_one_more_loop_per_resize cube_imageTexture fullBrowser
           [resize; Settle 0 true; AnimationFrame; resize;
            Dispatch (Window "scroll") PNone]);
    reflexivity.
Defined.
(** *** The sprite sheet: when the offset is uploaded *)

Lemma div30_succ c :
  S c / 30 = c / 30 + (if Nat.eqb (S c mod 30) 0 then 1 else 0).
Proof.
  pose proof (Nat.div_mod_eq c 30) as E.
  pose proof (Nat.mod_upper_bound c 30 ltac:(lia)) as B.
  destruct (Nat.eq_dec (c mod 30) 29) as [L|L].
  - assert (M : 0 = S c mod 30)
      by (apply (Nat.mod_unique (S c) 30 (c / 30 + 1) 0); lia).
    assert (D : c / 30 + 1 = S c / 30)
      by (apply (Nat.div_unique (S c) 30 (c / 30 + 1) 0); lia).
    rewrite <- M, <- D. reflexivity.
  - assert (M : S (c mod 30) = S c mod 30)
      by (apply (Nat.mod_unique (S c) 30 (c / 30) (S (c mod 30))); lia).
    assert (D : c / 30 = S c / 30)
      by (apply (Nat.div_unique (S c) 30 (c / 30) (S (c mod 30))); lia).
    rewrite <- M, <- D. cbn [Nat.eqb]. lia.
Qed.

Lemma uploadsTo_app {Cb} b (o1 o2 : list (Event Cb)) :
  uploadsTo b (o1 ++ o2) = uploadsTo b o1 + uploadsTo b o2.
Proof. unfold uploadsTo. now rewrite filter_app, length_app. Qed.

(** One activation of the sprite [frame] whose counter stands at [c]. *)
Lemma sprite_frame_step p r dv br n c :
  let s := {| browser := br; next := n; globals := [c] |} in
  let o := invoke SpriteTexture.script (SpriteTexture.Frame p r dv 0) PNone s in
  events o
  = (if Nat.eqb (S c mod 30) 0
     then [WriteBuffer (SpriteTexture.uvBuffer r) 0 (Lit 16)] else [])
    ++ [WriteBuffer (SpriteTexture.uniformBuffer r) 0 (Lit 64);
        CurrentTextureView n;
        Submit [[RenderPass
                   {| colorAttachments :=
                        [{| view := n; resolveTarget := None |}];
                      depthStencilAttachment := Some dv |}
                   [SetPipeline p;
                    SetBindGroup 0 (SpriteTexture.uniformGroup r);
                    SetBindGroup 1 (SpriteTexture.textureGroup r);
                    SetVertexBuffer 0 (SpriteTexture.verticesBuffer r);
                    Draw (Ext "cubeVertexCount") 1]]];
        RequestAnimationFrame (SpriteTexture.Frame p r dv 0)]
  /\ final o = {| browser := br; next := S n; globals := [S c] |}.
Proof.
  cbv -[Nat.eqb Nat.modulo].
  destruct (Nat.eqb (S c mod 30) 0); split; reflexivity.
Qed.

Lemma sprite_frames n : forall br nx c ls,
  let pg :=
    Build_Page SpriteTexture.script
      {| browser := br; next := nx; globals := [c] |}
      [SpriteTexture.Frame 2 spriteResources 13 0] ls [] in
  let run := steps SpriteTexture.script (repeat AnimationFrame n) pg in
  uploadsTo 9 (snd run) = (c + n) / 30 - c / 30
  /\ uploadsTo 5 (snd run) = n
  /\ fst run
     = Build_Page SpriteTexture.script
         {| browser := br; next := nx + n; globals := [c + n] |}
         [SpriteTexture.Frame 2 spriteResources 13 0] ls [].
Proof.
  induction n as [|n IH]; intros br nx c ls pg run.
  - subst run pg. cbn [repeat steps fst snd].
    rewrite !Nat.add_0_r, Nat.sub_diag. auto.
  - subst run pg.
    cbn [repeat steps step callAll state rafQueue listeners awaiting].
    destruct (sprite_frame_step 2 spriteResources 13 br nx c) as [E F].
    cbv zeta in E, F.
    set (o := invoke SpriteTexture.script
                (SpriteTexture.Frame 2 spriteResources 13 0) PNone
                {| browser := br; next := nx; globals := [c] |}) in *.
    unfold absorb. cbn [state rafQueue listeners awaiting fst snd].
    assert (U1 : uploadsTo 9 (events o)
                 = if Nat.eqb (S c mod 30) 0 then 1 else 0).
    { rewrite E. destruct (Nat.eqb (S c mod 30) 0); reflexivity. }
    assert (U2 : uploadsTo 5 (events o) = 1).
    { rewrite E. destruct (Nat.eqb (S c mod 30) 0); reflexivity. }
    assert (R : requested (events o)
                = [SpriteTexture.Frame 2 spriteResources 13 0]).
    { rewrite E. destruct (Nat.eqb (S c mod 30) 0); reflexivity. }
    assert (L : listened (events o) = []).
    { rewrite E. destruct (Nat.eqb (S c mod 30) 0); reflexivity. }
    assert (A : awaited (events o) = []).
    { rewrite E. destruct (Nat.eqb (S c mod 30) 0); reflexivity. }
    rewrite R, L, A, F, !app_nil_r. cbn [app].
    specialize (IH br (S nx) (S c) ls). cbv zeta in IH.
    destruct (steps SpriteTexture.script (repeat AnimationFrame n) _)
      as [pg2 o2].
    cbn [fst snd] in *. destruct IH as (I1 & I2 & I3).
    rewrite !uploadsTo_app, U1, U2, I1, I2, I3.
    replace (S c + n) with (c + S n) by lia.
    replace (S nx + n) with (nx + S n) by lia.
    repeat split; try lia.
    pose proof (div30_succ c) as D.
    assert (S c / 30 <= (c + S n) / 30)
      by (apply Nat.Div0.div_le_mono; lia).
    lia.
Qed.

Lemma sprite_loaded b :
  thrown (boot SpriteTexture.script b) = None ->
  loaded SpriteTexture.script b
  = Build_Page SpriteTexture.script
      {| browser := b; next := 15; globals := [1] |}
      [SpriteTexture.Frame 2 spriteResources 13 0]
      [(Window "resize", SpriteTexture.Resize 2 spriteResources)] [].
Proof.
  intros H. destruct b as [q g a c i].
  change SpriteTexture.script with (scriptOf cube_spriteTexture) in H.
  decide_flags H q.
  all: cbv -[String.eqb Nat.eqb]; closed_tests; use_flags q; reflexivity.
Qed.

(** X2.  In cube_spriteTexture every activation of [frame] advances the
    counter of its own [draw], uploads the 16-byte sprite offset first when
    the counter has reached a multiple of 30, and then always uploads the
    matrix, submits and registers itself.  So on a page that has loaded,
    with no resize in between, the first [n] animation frames upload the
    matrix [n] times and the offset floor((n + 1) / 30) times, the frame
    that [draw] runs directly being the first; the offset buffer is the one
    bound at binding 2 of the texture bind group. *)
Theorem X2_sprite_offset_every_30_frames (b : Browser) (n : nat) :
  thrown (boot SpriteTexture.script b) = None ->
  (forall p r dv counter s,
     let count := S (nth counter (globals s) 0) in
     let o := SpriteTexture.frame p r dv counter s in
     events o
     = (if Nat.eqb (count mod 30) 0
        then [WriteBuffer (SpriteTexture.uvBuffer r) 0 (Lit 16)] else [])
       ++ [WriteBuffer (SpriteTexture.uniformBuffer r) 0 (Lit 64);
           CurrentTextureView (next s);
           Submit [[RenderPass
                      {| colorAttachments :=
                           [{| view := next s; resolveTarget := None |}];
                         depthStencilAttachment := Some dv |}
                      [SetPipeline p;
                       SetBindGroup 0 (SpriteTexture.uniformGroup r);
                       SetBindGroup 1 (SpriteTexture.textureGroup r);
                       SetVertexBuffer 0 (SpriteTexture.verticesBuffer r);
                       Draw (Ext "cubeVertexCount") 1]]];
           RequestAnimationFrame (SpriteTexture.Frame p r dv counter)]
     /\ globals (final o) = SpriteTexture.store counter count (globals s))
  /\ rafQueue (loaded SpriteTexture.script b)
     = [SpriteTexture.Frame 2 spriteResources 13 0]
  /\ globals (state (loaded SpriteTexture.script b)) = [1]
  /\ In (CreateBindGroup (SpriteTexture.textureGroup spriteResources) 2 1
           [BindSampler 8; BindView 10;
            BindBuffer (SpriteTexture.uvBuffer spriteResources) 0 None])
       (events (boot SpriteTexture.script b))
  /\ let run :=
       steps SpriteTexture.script (repeat AnimationFrame n)
         (loaded SpriteTexture.script b) in
     uploadsTo (SpriteTexture.uvBuffer spriteResources) (snd run)
     = (n + 1) / 30
     /\ uploadsTo (SpriteTexture.uniformBuffer spriteResources) (snd run) = n
     /\ globals (state (fst run)) = [n + 1]
     /\ rafQueue (fst run) = [SpriteTexture.Frame 2 spriteResources 13 0].
Proof.
  intros H. split; [|split; [|split; [|split]]].
  - intros p r dv counter [br nx g].
    cbv -[Nat.eqb Nat.modulo nth SpriteTexture.store].
    destruct (Nat.eqb (S (nth counter g 0) mod 30) 0); split; reflexivity.
  - now rewrite (sprite_loaded b H).
  - now rewrite (sprite_loaded b H).
  - destruct b as [q g a c i].
    change SpriteTexture.script with (scriptOf cube_spriteTexture) in H.
    decide_flags H q.
    all: cbv -[String.eqb Nat.eqb In]; closed_tests; use_flags q;
      cbn [In]; repeat (first [left; reflexivity | right]).
  - rewrite (sprite_loaded b H).
    destruct (sprite_frames n b 15 1
                [(Window "resize", SpriteTexture.Resize 2 spriteResources)])
      as (S1 & S2 & S3).
    cbv zeta in S1, S2, S3. cbv zeta.
    change (SpriteTexture.uvBuffer spriteResources) with 9.
    change (SpriteTexture.uniformBuffer spriteResources) with 5.
    rewrite S1, S2, S3. cbn [state globals rafQueue].
    replace (1 + n) with (n + 1) by lia.
    change (1 / 30) with 0.
    repeat split. lia.
Qed.

Lemma X2_sprite_offset_every_30_frames_witness :
  thrown (boot SpriteTexture.script fullBrowser) = None
  /\ uploadsTo 9
       (snd (steps SpriteTexture.script (repeat AnimationFrame 59)
               (loaded SpriteTexture.script fullBrowser))) = 2.
Proof.
  split; [reflexivity|].
  destruct (X2_sprite_offset_every_30_frames fullBrowser 59 eq_refl)
    as (_ & _ & _ & _ & U & _).
  exact U.
Defined.
(** *** The controls of the deferred-rendering script *)

Lemma deferred_registers_nothing cb p s :
  forallb registersNothing (events (invoke Deferred.script cb p s)) = true.
Proof.
  destruct cb; open_records;
    change (Closure Deferred.script) with Deferred.Cb; settle p s.
Qed.

Lemma deferred_controls b es :
  thrown (boot (scriptOf deferredRendering) b) = None ->
  listening Deferred.script (Gui "mode") (pageAfter deferredRendering b es)
  = [Deferred.GuiMode]
  /\ listening Deferred.script (Gui "numLights")
       (pageAfter deferredRendering b es)
     = [Deferred.GuiNumLights 28].
Proof.
  intros H. unfold listening, pageAfter.
  rewrite (steps_listeners (scriptOf deferredRendering)
             deferred_registers_nothing).
  assert (L : listeners (loaded (scriptOf deferredRendering) b)
              = listeners (loaded Deferred.script fullBrowser)).
  { destruct b as [q g a c i]. decide_flags H q.
    all: cbv -[String.eqb Nat.eqb]; closed_tests; use_flags q; reflexivity. }
  rewrite L. split; vm_compute; reflexivity.
Qed.

Lemma deferred_frame_mode cb p s m :
  sound deferredRendering cb = true /\ isFrame Deferred.script cb = true ->
  Deferred.mode (globals s) = m ->
  Deferred.mode (globals (final (invoke Deferred.script cb p s))) = m
  /\ forallb (thirdPassUses (if String.eqb m "gBuffers view" then 8 else 12))
       (events (invoke Deferred.script cb p s)) = true.
Proof.
  intros [S F] E. subst m.
  destruct cb; try discriminate F; open_records; pin S.
  destruct s as [br n [m nl]]. cbn [globals Deferred.mode].
  split; [reflexivity|].
  cbv -[String.eqb Nat.eqb].
  destruct (String.eqb m "gBuffers view"); reflexivity.
Qed.

(** What the two controls do on any page. *)
Lemma gui_mode_step (pg : Page Deferred.script) m :
  listening Deferred.script (Gui "mode") pg = [Deferred.GuiMode] ->
  step Deferred.script (Dispatch (Gui "mode") (PStr m)) pg
  = (Build_Page Deferred.script
       {| browser := browser (state pg); next := next (state pg);
          globals :=
            {| Deferred.mode := m;
               Deferred.numLights := Deferred.numLights (globals (state pg)) |} |}
       (rafQueue pg) (listeners pg) (awaiting pg), []).
Proof.
  intros L. cbn [step]. rewrite L.
  destruct pg as [[br n g] q l w]. clear L.
  cbn. unfold absorb. cbn. now rewrite !app_nil_r.
Qed.

Lemma gui_numLights_step (pg : Page Deferred.script) cfg k :
  listening Deferred.script (Gui "numLights") pg
  = [Deferred.GuiNumLights cfg] ->
  step Deferred.script (Dispatch (Gui "numLights") (PNum k)) pg
  = (Build_Page Deferred.script
       {| browser := browser (state pg); next := next (state pg);
          globals :=
            {| Deferred.mode := Deferred.mode (globals (state pg));
               Deferred.numLights := k |} |}
       (rafQueue pg) (listeners pg) (awaiting pg),
     [WriteBuffer cfg 0 (Lit 4)]).
Proof.
  intros L. cbn [step]. rewrite L.
  destruct pg as [[br n g] q l w]. clear L.
  cbn. unfold absorb. cbn. now rewrite !app_nil_r.
Qed.

(** X3.  In deferredRendering the two controls of the GUI act on every
    page the script reaches as follows.  Choosing a display mode makes no
    GPU call and starts no frame loop: it only stores the chosen mode, and
    from the next animation frame on the third pass of every frame runs
    the G-buffers debug view pipeline if the mode is ['gBuffers view'] and
    the deferred rendering pipeline for any other value.  Changing the
    number of lights stores it and uploads 4 bytes at offset 0 of the
    config uniform buffer, the 4-byte buffer created while loading, and
    does nothing else. *)
Theorem X3_deferred_controls (b : Browser) (es : list External)
  (m : string) (k : nat) :
  thrown (boot (scriptOf deferredRendering) b) = None ->
  let pg := pageAfter deferredRendering b es in
  let chosen := step Deferred.script (Dispatch (Gui "mode") (PStr m)) pg in
  let changed :=
    step Deferred.script (Dispatch (Gui "numLights") (PNum k)) pg in
  snd chosen = []
  /\ globals (state (fst chosen))
     = {| Deferred.mode := m;
          Deferred.numLights := Deferred.numLights (globals (state pg)) |}
  /\ rafQueue (fst chosen) = rafQueue pg
  /\ match bootPipelines deferredRendering with
     | [_; debugView; deferred; _] =>
         forallb
           (thirdPassUses
              (if String.eqb m "gBuffers view" then debugView else deferred))
           (snd (step Deferred.script AnimationFrame (fst chosen))) = true
     | _ => False
     end
  /\ snd changed = [WriteBuffer 28 0 (Lit 4)]
  /\ In (CreateBuffer 28 (Lit 4)) (events (boot (scriptOf deferredRendering) b))
  /\ globals (state (fst changed))
     = {| Deferred.mode := Deferred.mode (globals (state pg));
          Deferred.numLights := k |}
  /\ rafQueue (fst changed) = rafQueue pg.
Proof.
  intros H pg chosen changed.
  destruct (deferred_controls b es H) as [L1 L2]. fold pg in L1, L2.
  destruct (after_loading deferredRendering b es H) as ([T _] & _).
  fold pg in T.
  assert (B : In (CreateBuffer 28 (Lit 4))
                (events (boot (scriptOf deferredRendering) b))).
  { destruct b as [q g a c i]. decide_flags H q.
    all: cbv -[String.eqb Nat.eqb In]; closed_tests; use_flags q;
      cbn [In]; repeat (first [left; reflexivity | right]). }
  unfold chosen, changed.
  rewrite (gui_mode_step pg m L1), (gui_numLights_step pg 28 k L2).
  clearbody pg. cbn [fst snd state rafQueue globals].
  split; [reflexivity|]. split; [reflexivity|]. split; [reflexivity|].
  split; [|repeat split; exact B].
  change (bootPipelines deferredRendering) with [2; 8; 12; 14].
  cbv iota. cbn [step rafQueue state listeners awaiting].
  eapply callAll_keeps with (I := fun s => Deferred.mode (globals s) = m).
  - intros cb p s C I. apply deferred_frame_mode; [exact C | exact I].
  - exact T.
  - reflexivity.
Qed.

Lemma X3_deferred_controls_witness :
  thrown (boot (scriptOf deferredRendering) fullBrowser) = None
  /\ forallb (thirdPassUses 8)
       (snd (step Deferred.script AnimationFrame
               (fst (step Deferred.script
                       (Dispatch (Gui "mode") (PStr "gBuffers view"))
                       (pageAfter deferredRendering fullBrowser
                          [AnimationFrame; resize]))))) = true.
Proof.
  split; [reflexivity|].
  destruct (X3_deferred_controls fullBrowser [AnimationFrame; resize]
              "gBuffers view" 7 eq_refl) as (_ & _ & _ & U & _).
  exact U.
Defined.
(** *** What single scripts draw *)

Lemma resize_listener_on d b es :
  thrown (boot (scriptOf d) b) = None ->
  listening (scriptOf d) (Window "resize") (pageAfter d b es)
  = listening (scriptOf d) (Window "resize") (loaded (scriptOf d) fullBrowser).
Proof.
  intros H. destruct (after_loading d b es H) as (_ & _ & E & _).
  now rewrite E, (resize_listener_any_page d b H).
Qed.

(** X4.  In multisample every call of [draw] reads the canvas's current
    texture, creates a new multisampled texture, renders the triangle into
    a view of it with the canvas's current texture view as resolve target,
    and submits once; it destroys nothing and registers nothing.  On every
    page the script reaches, a window resize reconfigures the context and
    then does exactly this with the one pipeline built while loading. *)
Theorem X4_multisample_resolves (b : Browser) (es : list External) :
  thrown (boot (scriptOf multisample) b) = None ->
  (forall pipeline s,
     let n := next s in
     events (Multisample.draw pipeline s)
     = [CurrentTexture;
        CreateTexture n;
        CreateView (S n) n;
        CurrentTextureView (S (S n));
        Submit [[RenderPass
                   {| colorAttachments :=
                        [{| view := S n; resolveTarget := Some (S (S n)) |}];
                      depthStencilAttachment := None |}
                   [SetPipeline pipeline; Draw (Lit 3) 1]]]])
  /\ pipelinesBuilt (events (boot (scriptOf multisample) b)) = [2]
  /\ let pg := pageAfter multisample b es in
     let n := next (state pg) in
     snd (step (scriptOf multisample) resize pg)
     = [Configure;
        CurrentTexture;
        CreateTexture n;
        CreateView (S n) n;
        CurrentTextureView (S (S n));
        Submit [[RenderPass
                   {| colorAttachments :=
                        [{| view := S n; resolveTarget := Some (S (S n)) |}];
                      depthStencilAttachment := None |}
                   [SetPipeline 2; Draw (Lit 3) 1]]]].
Proof.
  intros H. split; [|split].
  - intros pipeline [br n g]. reflexivity.
  - destruct b as [q g a c i]. decide_flags H q.
    all: cbv -[String.eqb Nat.eqb]; closed_tests; use_flags q; reflexivity.
  - intros pg n. unfold resize. cbn [step].
    unfold pg. rewrite (resize_listener_on multisample b es H). fold pg.
    change (listening (scriptOf multisample) (Window "resize")
              (loaded (scriptOf multisample) fullBrowser))
      with [Multisample.Resize 2].
    subst n. destruct pg as [[br n g] q l w]. reflexivity.
Qed.

Lemma X4_multisample_resolves_witness :
  thrown (boot (scriptOf multisample) fullBrowser) = None
  /\ snd (step (scriptOf multisample) resize
            (pageAfter multisample fullBrowser [resize]))
     = [Configure;
        CurrentTexture;
        CreateTexture 9;
        CreateView 10 9;
        CurrentTextureView 11;
        Submit [[RenderPass
                   {| colorAttachments :=
                        [{| view := 10; resolveTarget := Some 11 |}];
                      depthStencilAttachment := None |}
                   [SetPipeline 2; Draw (Lit 3) 1]]]].
Proof.
  split; [reflexivity|].
  destruct (X4_multisample_resolves fullBrowser [resize] eq_refl)
    as (_ & _ & R).
  exact R.
Defined.

(** X5.  In color_triangle, on every page the script reaches that has the
    colour picker, an input of the picker uploads 16 bytes at offset 0 of
    the colour buffer, the 16-byte buffer bound as entry 0 of the bind
    group the pass selects, and then draws the triangle once with the one
    pipeline; it registers nothing.  On a page without the picker the event
    finds no listener. *)
Theorem X5_colour_input (b : Browser) (es : list External) (p : Payload) :
  thrown (boot (scriptOf color_triangle) b) = None ->
  let pg := pageAfter color_triangle b es in
  let n := next (state pg) in
  snd (step (scriptOf color_triangle)
         (Dispatch (Element ColorTriangle.colorSelector "input") p) pg)
  = (if query b ColorTriangle.colorSelector
     then [WriteBuffer 3 0 (Lit 16);
           CurrentTextureView n;
           Submit [[RenderPass
                      {| colorAttachments :=
                           [{| view := n; resolveTarget := None |}];
                         depthStencilAttachment := None |}
                      [SetPipeline 2; SetBindGroup 0 4; Draw (Lit 3) 1]]]]
     else [])
  /\ In (CreateBuffer 3 (Lit 16)) (events (boot (scriptOf color_triangle) b))
  /\ In (CreateBindGroup 4 2 0 [BindBuffer 3 0 None])
       (events (boot (scriptOf color_triangle) b))
  /\ pipelinesBuilt (events (boot (scriptOf color_triangle) b)) = [2].
Proof.
  intros H pg n. split.
  - cbn [step]. unfold pg. rewrite (color_listeners b es H). fold pg.
    destruct (query b ColorTriangle.colorSelector); [|reflexivity].
    subst n. destruct pg as [[br n g] q l w]. reflexivity.
  - destruct b as [q g a c i]. decide_flags H q.
    all: cbv -[String.eqb Nat.eqb In]; closed_tests; use_flags q;
      cbn [In]; repeat split;
      repeat (first [left; reflexivity | right]).
Qed.

Lemma X5_colour_input_witness :
  thrown (boot (scriptOf color_triangle) fullBrowser) = None
  /\ snd (step (scriptOf color_triangle)
            (Dispatch (Element ColorTriangle.colorSelector "input") PNone)
            (pageAfter color_triangle fullBrowser [resize]))
     = [WriteBuffer 3 0 (Lit 16);
        CurrentTextureView 7;
        Submit [[RenderPass
                   {| colorAttachments :=
                        [{| view := 7; resolveTarget := None |}];
                      depthStencilAttachment := None |}
                   [SetPipeline 2; SetBindGroup 0 4; Draw (Lit 3) 1]]]].
Proof.
  split; [reflexivity|].
  destruct (X5_colour_input fullBrowser [resize] PNone eq_refl) as (R & _).
  exact R.
Defined.


(** *** Listeners that pile up *)

Lemma registrations_app (P : Script) t (o1 o2 : list (Event (Closure P))) :
  registrations t (o1 ++ o2) = registrations t o1 + registrations t o2.
Proof.
  unfold registrations. now rewrite listened_app, filter_app, length_app.
Qed.

Lemma listening_grows (P : Script) t {A} (o : Outcome (Globals P) (Closure P) A)
  pg :
  List.length (listening P t (absorb P o pg))
  = List.length (listening P t pg) + registrations t (events o).
Proof.
  unfold listening, absorb, registrations. cbn [listeners].
  now rewrite filter_app, map_app, length_app, !length_map.
Qed.

(** A run of callbacks registers what each callback registers, as long as
    each keeps what the count depends on. *)
Lemma callAll_registers (P : Script) (I : St (Globals P) -> Prop) t
  (g : Closure P -> nat) :
  (forall cb p s, I s ->
     I (final (invoke P cb p s))
     /\ registrations t (events (invoke P cb p s)) = g cb) ->
  forall cbs p pg, I (state pg) ->
    I (state (fst (callAll P cbs p pg)))
    /\ List.length (listening P t (fst (callAll P cbs p pg)))
       = List.length (listening P t pg) + list_sum (map g cbs).
Proof.
  intros H cbs p. induction cbs as [|cb rest IH]; intros pg Hi; simpl.
  - split; [assumption | lia].
  - destruct (H cb p (state pg) Hi) as [H1 H2].
    specialize (IH (absorb P (invoke P cb p (state pg)) pg) H1).
    destruct (callAll P rest p (absorb P (invoke P cb p (state pg)) pg))
      as [pg2 o2].
    cbn [fst snd] in *. destruct IH as [I1 I2].
    split; [assumption|]. rewrite I2, listening_grows, H2. lia.
Qed.

(** What a closure of base_lighting2 registers for a slider: the resize
    listener one more listener, if the page has the slider. *)
Lemma slider_registrations (b : Browser) sel cb p s :
  sel = "#ambientIntensity" \/ sel = "#pointLightRadius" ->
  browser s = b ->
  browser (final (invoke BaseLighting2.script cb p s)) = b
  /\ registrations (Element sel "input")
       (events (invoke BaseLighting2.script cb p s))
     = if resizeClosure base_lighting2 cb && query b sel then 1 else 0.
Proof.
  intros S E. destruct s as [br n g]. cbn [browser] in E. subst br.
  destruct b as [q gp a c i].
  destruct S; subst sel; destruct cb; cbv -[String.eqb Nat.eqb];
    closed_tests;
    repeat match goal with
           | |- context [q ?sel] => destruct (q sel)
           end; split; reflexivity.
Qed.

Lemma no_resize_no_slider d cbs :
  Forall (fun cb => resizeClosure d cb = false) cbs ->
  forall f : Closure (scriptOf d) -> bool,
  list_sum (map (fun cb => if resizeClosure d cb && f cb then 1 else 0) cbs)
  = 0.
Proof.
  induction 1 as [|cb rest R _ IH]; intros f; simpl; [reflexivity|].
  now rewrite R, IH.
Qed.

Lemma frames_not_resize d cb :
  isFrame (scriptOf d) cb = true -> resizeClosure d cb = false.
Proof. destruct d; destruct cb; try discriminate; reflexivity. Qed.

Lemma others_not_resize d t pg :
  forallb (inPlace d) (listeners pg) = true ->
  Target_eqb (Window "resize") t = false ->
  Forall (fun cb => resizeClosure d cb = false) (listening (scriptOf d) t pg).
Proof.
  intros H T. unfold listening.
  induction (listeners pg) as [|l ls IH]; simpl; [constructor|].
  simpl in H. apply andb_prop in H. destruct H as [Hl Hls].
  destruct (Target_eqb t (fst l)) eqn:E; [|now apply IH].
  simpl. constructor; [|now apply IH].
  apply Target_eqb_eq in E. subst t.
  unfold inPlace in Hl. rewrite T in Hl.
  apply andb_prop in Hl. destruct Hl as [Hl _].
  apply andb_prop in Hl. destruct Hl as [R _].
  destruct (resizeClosure d (snd l)); [discriminate R | reflexivity].
Qed.

Lemma steps_sliders b sel es : forall pg,
  sel = "#ambientIntensity" \/ sel = "#pointLightRadius" ->
  thrown (boot (scriptOf base_lighting2) b) = None ->
  browser (state pg) = b ->
  tidy (scriptOf base_lighting2) (sound base_lighting2) pg ->
  forallb (inPlace base_lighting2) (listeners pg) = true ->
  awaiting pg = [] ->
  listening (scriptOf base_lighting2) (Window "resize") pg
  = listening (scriptOf base_lighting2) (Window "resize")
      (loaded (scriptOf base_lighting2) b) ->
  List.length
    (listening (scriptOf base_lighting2) (Element sel "input")
       (fst (steps (scriptOf base_lighting2) es pg)))
  = List.length (listening (scriptOf base_lighting2) (Element sel "input") pg)
    + (if query b sel then resizes es else 0).
Proof.
  intros pg S Hb. revert pg.
  induction es as [|e rest IH]; intros pg Hi Ht Hp Ha Hl.
  - simpl. destruct (query b sel); unfold resizes; simpl; lia.
  - cbn [steps].
    destruct (step_tidy (scriptOf base_lighting2) (sound base_lighting2)
                (lawful base_lighting2)
                (lawful_frame _) (lawful_listener _) (lawful_await _)
                (invoke_lawful _) (frame_once_all _) e pg Ht)
      as (S1 & _ & S3 & _).
    pose proof (step_inPlace base_lighting2 e pg Hp) as S4.
    pose proof (steps_no_awaiting base_lighting2 [e] pg eq_refl Ha) as S5.
    cbn [steps] in S5.
    pose proof (callAll_registers (scriptOf base_lighting2)
                  (fun s => browser s = b) (Element sel "input")
                  (fun cb => if resizeClosure base_lighting2 cb && query b sel
                             then 1 else 0)
                  (fun cb p s => slider_registrations b sel cb p s S)) as C.
    assert (E : browser (state (fst (step (scriptOf base_lighting2) e pg))) = b
                /\ List.length
                     (listening (scriptOf base_lighting2) (Element sel "input")
                        (fst (step (scriptOf base_lighting2) e pg)))
                   = List.length
                       (listening (scriptOf base_lighting2)
                          (Element sel "input") pg)
                     + (if query b sel
                        then (if isResize e then 1 else 0) else 0)).
    { destruct e as [|t p|i ok].
      - cbn [step isResize].
        destruct (C (rafQueue pg) PNone
                    {| state := state pg; rafQueue := [];
                       listeners := listeners pg; awaiting := awaiting pg |}
                    Hi) as [C1 C2].
        split; [exact C1|]. rewrite C2, no_resize_no_slider.
        + unfold listening. cbn [listeners]. destruct (query b sel); lia.
        + destruct Ht as [Hq _]. eapply Forall_impl; [|exact Hq].
          intros cb [_ F]. now apply frames_not_resize.
      - cbn [step isResize].
        destruct (C (listening (scriptOf base_lighting2) t pg) p pg Hi)
          as [C1 C2].
        split; [exact C1|]. rewrite C2.
        destruct (Target_eqb (Window "resize") t) eqn:T.
        + apply Target_eqb_eq in T. subst t.
          rewrite Hl, (resize_listener_any_page base_lighting2 b Hb).
          destruct (query b sel); vm_compute; reflexivity.
        + rewrite no_resize_no_slider by now apply others_not_resize.
          destruct (query b sel); lia.
      - cbn [step isResize]. rewrite Ha.
        destruct i; cbn [nth_error fst]; (split; [exact Hi|]);
          destruct (query b sel); lia. }
    destruct E as [E1 E2].
    destruct (step (scriptOf base_lighting2) e pg) as [pg1 o1].
    cbn [fst snd] in *.
    destruct (steps (scriptOf base_lighting2) [] pg1) eqn:Z. cbn [steps] in Z.
    injection Z as <- <-. cbn [fst] in S5.
    specialize (IH pg1 E1 S1 S4 S5 (eq_trans S3 Hl)).
    destruct (steps (scriptOf base_lighting2) rest pg1) as [pg2 o2].
    cbn [fst] in *.
    rewrite IH, E2. unfold resizes. cbn [filter].
    destruct (query b sel); [|lia].
    destruct (isResize e); simpl; lia.
Qed.

Lemma lighting2_loaded b sel :
  sel = "#ambientIntensity" \/ sel = "#pointLightRadius" ->
  thrown (boot (scriptOf base_lighting2) b) = None ->
  browser (state (loaded (scriptOf base_lighting2) b)) = b
  /\ awaiting (loaded (scriptOf base_lighting2) b) = []
  /\ List.length
       (listening (scriptOf base_lighting2) (Element sel "input")
          (loaded (scriptOf base_lighting2) b))
     = if query b sel then 1 else 0.
Proof.
  intros S H. destruct b as [q g a c i]. decide_flags H q.
  all: destruct S; subst sel; cbv -[String.eqb Nat.eqb]; closed_tests;
    use_flags q; repeat split.
Qed.

(** X9.  In base_lighting2 the two slider listeners are registered by
    [draw], and the resize listener runs [draw] again: on a page that has
    a slider, after any run of browser events the listeners registered for
    its input are one more than the window resizes among the events, none
    of them is ever removed, and none of them makes a call to the GPU or
    registers anything.  On a page without the slider there is none. *)
Theorem X9_slider_listeners_pile_up (b : Browser) (es : list External) :
  thrown (boot (scriptOf base_lighting2) b) = None ->
  let pg := pageAfter base_lighting2 b es in
  List.length (listening (scriptOf base_lighting2) ambientSlider pg)
  = (if query b "#ambientIntensity" then 1 + resizes es else 0)
  /\ List.length (listening (scriptOf base_lighting2) radiusSlider pg)
     = (if query b "#pointLightRadius" then 1 + resizes es else 0)
  /\ forall p,
       snd (step (scriptOf base_lighting2) (Dispatch ambientSlider p) pg) = []
       /\ snd (step (scriptOf base_lighting2) (Dispatch radiusSlider p) pg)
          = [].
Proof.
  intros H pg.
  assert (N : forall sel,
            sel = "#ambientIntensity" \/ sel = "#pointLightRadius" ->
            List.length
              (listening (scriptOf base_lighting2) (Element sel "input") pg)
            = if query b sel then 1 + resizes es else 0).
  { intros sel S.
    destruct (lighting2_loaded b sel S H) as (L1 & L2 & L3).
    unfold pg, pageAfter.
    rewrite (steps_sliders b sel es (loaded (scriptOf base_lighting2) b) S H
               L1 (loaded_tidy base_lighting2 b H));
      [ rewrite L3; destruct (query b sel); lia
      | rewrite loaded_listeners; apply boot_inPlace
      | exact L2
      | reflexivity ]. }
  split; [apply N; now left|]. split; [apply N; now right|].
  assert (Q : forall t p,
            Target_eqb (Window "resize") t = false ->
            (forall cb, In cb (listening (scriptOf base_lighting2) t pg) ->
               cb = BaseLighting2.AmbientInput
               \/ cb = BaseLighting2.RadiusInput) ->
            snd (step (scriptOf base_lighting2) (Dispatch t p) pg) = []).
  { intros t p _ Hcb. cbn [step].
    assert (F : forallb (fun _ : Event (Closure (scriptOf base_lighting2)) =>
                           false)
                  (snd (callAll (scriptOf base_lighting2)
                          (listening (scriptOf base_lighting2) t pg) p pg))
                = true).
    { apply callAll_forall. apply Forall_forall. intros cb Hin s.
      destruct (Hcb cb Hin); subst cb; reflexivity. }
    destruct (snd (callAll (scriptOf base_lighting2)
                     (listening (scriptOf base_lighting2) t pg) p pg));
      [reflexivity | discriminate F]. }
  assert (P : forallb (inPlace base_lighting2) (listeners pg) = true).
  { unfold pg, pageAfter.
    assert (G : forall es0 pg0,
              forallb (inPlace base_lighting2) (listeners pg0) = true ->
              forallb (inPlace base_lighting2)
                (listeners (fst (steps (scriptOf base_lighting2) es0 pg0)))
              = true).
    { induction es0 as [|e rest IH]; intros pg0 H0; [exact H0|].
      cbn [steps]. pose proof (step_inPlace base_lighting2 e pg0 H0) as S.
      destruct (step (scriptOf base_lighting2) e pg0) as [pg1 o1].
      specialize (IH pg1 S).
      destruct (steps (scriptOf base_lighting2) rest pg1) as [pg2 o2].
      exact IH. }
    apply G. rewrite loaded_listeners. apply boot_inPlace. }
  assert (K : forall t cb,
            Target_eqb (Window "resize") t = false ->
            In cb (listening (scriptOf base_lighting2) t pg) ->
            cb = BaseLighting2.AmbientInput \/ cb = BaseLighting2.RadiusInput).
  { intros t cb T Hin. unfold listening in Hin. apply in_map_iff in Hin.
    destruct Hin as (l & <- & Hl). apply filter_In in Hl.
    destruct Hl as [Hl Ht]. apply Target_eqb_eq in Ht. subst t.
    rewrite forallb_forall in P. specialize (P l Hl).
    unfold inPlace in P. rewrite T in P.
    destruct l as [t cb]. cbn [fst snd] in *.
    destruct cb; try discriminate P; auto. }
  intros p. split; apply Q; try reflexivity; intros cb; now apply K.
Qed.

Lemma X9_slider_listeners_pile_up_witness :
  thrown (boot (scriptOf base_lighting2) fullBrowser) = None
  /\ List.length
       (listening (scriptOf base_lighting2) ambientSlider
          (pageAfter base_lighting2 fullBrowser
             [resize; AnimationFrame; resize])) = 3.
Proof.
  split; [reflexivity|].
  destruct (X9_slider_listeners_pile_up fullBrowser
              [resize; AnimationFrame; resize] eq_refl) as (U & _).
  exact U.
Defined.
(** *** The checkerboard on the unit square *)

Section UnitSquare.

Import F32.
Import WriteGBuffersFrag.
Local Open Scope Q_scope.

Lemma pow2_pos k : 0 < pow2 k.
Proof. apply Qpower_0_lt. reflexivity. Qed.

Lemma pow2_unit k : pow2 (- k) * pow2 k == 1.
Proof.
  unfold pow2. rewrite Qpower_opp. rewrite Qmult_comm.
  apply Qmult_inv_r. intros E.
  pose proof (pow2_pos k) as P. unfold pow2 in P. rewrite E in P.
  discriminate P.
Qed.

Lemma pow2_small k : (k <= 0)%Z -> pow2 k <= 1.
Proof.
  intros H. change 1 with (pow2 0).
  apply Qpower_le_compat_l; [exact H | discriminate].
Qed.

Lemma roundHalfEven_bounds x :
  0 <= x ->
  (0 <= roundHalfEven x)%Z /\ inject_Z (roundHalfEven x) <= x + 1.
Proof.
  intros H.
  assert (F0 : (0 <= Qfloor x)%Z).
  { change 0%Z with (Qfloor 0). now apply Qfloor_resp_le. }
  pose proof (Qfloor_le x) as F1.
  assert (F2 : inject_Z (Qfloor x + 1) <= x + 1).
  { rewrite inject_Z_plus. apply Qplus_le_l. exact F1. }
  assert (F3 : inject_Z (Qfloor x) <= x + 1).
  { apply Qle_trans with x; [exact F1|].
    rewrite <- (Qplus_0_r x) at 1. apply Qplus_le_r. discriminate. }
  unfold roundHalfEven.
  destruct (Qcompare (x - inject_Z (Qfloor x)) (1 # 2)).
  - destruct (Z.even (Qfloor x)); split; try assumption; lia.
  - split; assumption.
  - split; [lia | assumption].
Qed.

(** A number up to 30 has its leading bit at 2^4 or below. *)
Lemma magnitude_small q : 0 <= q -> q <= 30 -> (magnitude q <= 4)%Z.
Proof.
  intros H0 H30. destruct q as [n d].
  unfold Qle in H0, H30. cbn [Qnum Qden] in H0, H30.
  unfold magnitude. cbn [Qnum Qden].
  destruct (Z.eq_dec n 0) as [->|Nz].
  { change (Z.log2 (Z.abs 0)) with 0%Z.
    pose proof (Z.log2_nonneg (Zpos d)).
    destruct (Qle_bool _ _); lia. }
  assert (Hn : (0 < n)%Z) by lia.
  rewrite (Z.abs_eq n) by lia.
  set (a := Z.log2 n). set (b := Z.log2 (Zpos d)).
  assert (Hb : (0 <= b)%Z) by apply Z.log2_nonneg.
  assert (Ha : (0 <= a)%Z) by apply Z.log2_nonneg.
  destruct (Z.log2_spec n Hn) as [A1 _]. fold a in A1.
  destruct (Z.log2_spec (Zpos d) eq_refl) as [_ B2]. fold b in B2.
  destruct (Z_le_gt_dec (a - b) 5) as [L|L].
  - destruct (Qle_bool (pow2 (a - b)) (Qabs (n # d))) eqn:E; [|lia].
    apply Qle_bool_iff in E.
    assert (Q30 : Qabs (n # d) <= 30).
    { rewrite Qabs_pos; unfold Qle; cbn [Qnum Qden]; lia. }
    assert (P : pow2 (a - b) < pow2 5).
    { apply Qle_lt_trans with 30; [|reflexivity].
      now apply Qle_trans with (Qabs (n # d)). }
    apply Qpower_lt_compat_l_inv in P; [lia | reflexivity].
  - exfalso.
    assert (P : (2 ^ (b + 6) <= 2 ^ a)%Z)
      by (apply Z.pow_le_mono_r; lia).
    rewrite Z.pow_add_r in P by lia.
    rewrite Z.pow_succ_r in B2 by lia.
    change (2 ^ 6)%Z with 64%Z in P. lia.
Qed.

(** The product of 30.0 and a number of the unit interval is finite and
    stays below 32. *)
Lemma round_bounded p :
  0 <= p -> p <= 30 -> exists x, round p = Finite x /\ 0 <= x /\ x <= 31.
Proof.
  intros H0 H30. unfold round.
  pose proof (Qred_correct p) as Ep.
  set (q := Qred p) in *.
  assert (Q0 : 0 <= q) by now rewrite Ep.
  assert (Q30 : q <= 30) by now rewrite Ep.
  destruct (representable q).
  { exists q. split; [reflexivity|]. split; [exact Q0|].
    apply Qle_trans with 30; [exact Q30 | discriminate]. }
  unfold nearest.
  set (k := Z.max (magnitude q - 23) (-149)).
  assert (K : (k <= 0)%Z).
  { pose proof (magnitude_small q Q0 Q30). unfold k. lia. }
  assert (A : Qabs q == q) by now apply Qabs_pos.
  set (m := roundHalfEven (Qabs q * pow2 (- k))).
  assert (X0 : 0 <= Qabs q * pow2 (- k)).
  { apply Qmult_le_0_compat; [apply Qabs_nonneg|].
    apply Qlt_le_weak, pow2_pos. }
  destruct (roundHalfEven_bounds _ X0) as [M0 M1]. fold m in M0, M1.
  assert (R0 : 0 <= inject_Z m * pow2 k).
  { apply Qmult_le_0_compat; [|apply Qlt_le_weak, pow2_pos].
    change 0 with (inject_Z 0). now rewrite <- Zle_Qle. }
  assert (R1 : inject_Z m * pow2 k <= 31).
  { apply Qle_trans with ((Qabs q * pow2 (- k) + 1) * pow2 k).
    - apply Qmult_le_compat_r; [exact M1|]. apply Qlt_le_weak, pow2_pos.
    - rewrite Qmult_plus_distr_l, <- Qmult_assoc, pow2_unit.
      rewrite Qmult_1_r, Qmult_1_l, A.
      change 31 with (30 + 1). apply Qplus_le_compat; [exact Q30|].
      now apply pow2_small. }
  assert (B : Qle_bool (pow2 128) (inject_Z m * pow2 k) = false).
  { destruct (Qle_bool (pow2 128) (inject_Z m * pow2 k)) eqn:E;
      [|reflexivity].
    apply Qle_bool_iff in E.
    assert (C : pow2 128 <= 31) by now apply Qle_trans with (inject_Z m * pow2 k).
    vm_compute in C. now elim C. }
  rewrite B.
  assert (N : isNegative q = false).
  { unfold isNegative. apply Z.ltb_ge.
    unfold Qle in Q0. cbn in Q0. lia. }
  rewrite N. eexists. split; [reflexivity|].
  rewrite Qred_correct. split; assumption.
Qed.

(** X10.  For every fragment whose texture coordinates lie in the unit
    square, as those of the mesh do, the f32 products 30.0 * u and
    30.0 * v are finite numbers from 0 to 31, and the G-buffer shader
    returns the grey of the checkerboard: the f32 number of 0.2 where
    floor(30.0 * u) + floor(30.0 * v) is even, that of 0.7 where it is
    odd. *)
Theorem X10_checkerboard_on_unit_square fragNormal (u v : Q) :
  0 <= u -> u <= 1 -> 0 <= v -> v <= 1 ->
  exists x y,
    fmul (lit 30) (Finite u) = Finite x
    /\ fmul (lit 30) (Finite v) = Finite y
    /\ 0 <= x /\ x <= 31 /\ 0 <= y /\ y <= 31
    /\ albedo (main fragNormal {| x2 := Finite u; y2 := Finite v |})
       = let c := if (parity x y =? 0)%Z then lit (2 # 10) else lit (7 # 10)
         in {| r := c; g := c; b := c; a := Finite 1 |}.
Proof.
  intros U0 U1 V0 V1.
  assert (L : lit 30 = Finite 30) by (vm_compute; reflexivity).
  assert (P : forall w, 0 <= w -> w <= 1 -> 0 <= 30 * w /\ 30 * w <= 30).
  { intros w W0 W1. split.
    - apply Qmult_le_0_compat; [discriminate | exact W0].
    - rewrite <- (Qmult_1_r 30) at 2. apply Qmult_le_l; [reflexivity|exact W1]. }
  destruct (P u U0 U1) as [Pu0 Pu1]. destruct (P v V0 V1) as [Pv0 Pv1].
  destruct (round_bounded (30 * u) Pu0 Pu1) as (x & Ex & X0 & X1).
  destruct (round_bounded (30 * v) Pv0 Pv1) as (y & Ey & Y0 & Y1).
  exists x, y. rewrite L. cbn [fmul].
  split; [exact Ex|]. split; [exact Ey|].
  split; [exact X0|]. split; [exact X1|].
  split; [exact Y0|]. split; [exact Y1|].
  assert (B : forall z, 0 <= z -> z <= 31 -> Qabs z < inject_Z (2 ^ 23)).
  { intros z Z0 Z1. rewrite Qabs_pos by exact Z0.
    apply Qle_lt_trans with 31; [exact Z1 | reflexivity]. }
  pose proof (gbuffer_grey fragNormal {| x2 := Finite u; y2 := Finite v |}
                x y) as G.
  cbn [x2 y2] in G. rewrite L in G. cbn [fmul] in G.
  specialize (G Ex Ey (B x X0 X1) (B y Y0 Y1)).
  cbv zeta. rewrite <- G.
  unfold main. cbn [albedo r]. f_equal.
Qed.

Lemma X10_checkerboard_on_unit_square_witness :
  exists x y,
    fmul (lit 30) (Finite (7 # 10)) = Finite x
    /\ fmul (lit 30) (Finite (1 # 3)) = Finite y
    /\ 0 <= x /\ x <= 31 /\ 0 <= y /\ y <= 31
    /\ albedo (main {| x := lit 0; y := lit 1; z := lit 0 |}
                 {| x2 := Finite (7 # 10); y2 := Finite (1 # 3) |})
       = let c := if (parity x y =? 0)%Z then lit (2 # 10) else lit (7 # 10)
         in {| r := c; g := c; b := c; a := Finite 1 |}.
Proof.
  apply (X10_checkerboard_on_unit_square
           {| x := lit 0; y := lit 1; z := lit 0 |} (7 # 10) (1 # 3));
    discriminate.
Defined.

End UnitSquare.
